(** * Spreadsheet report tools: header detection, column reconciliation,
      footer handling, sorting and karat extraction

    A shallow embedding of the report scripts of the repository
    (deplay-order-report.py, factory-out.py, lot-rejection.py, loss.py).

    Conventions of the embedding.
    - The text of a sheet is a Rocq [string]; a character is an 8-bit code
      point (Latin-1).  [lower], [strip], the regex class [\w] and
      case-insensitive matching are written out for exactly that range.  The
      karat matcher is written over any alphabet and is also read on lists of
      code points, where a Python [str] goes beyond that range.
    - A spreadsheet cell read without [dtype=str] is a [cell]: missing
      ([NaN], also standing for [None]), text, a number or another object,
      the last two identified by their [str()] rendering.
    - A data frame is its list of column labels and its list of rows.
    - A run that raises is an [Error]; a run that completes is [Ok]. *)

From Stdlib Require Import String Ascii List Bool Arith NArith Lia.
From Stdlib Require Import Permutation Sorted ZArith DecimalString.
Import ListNotations.

Local Open Scope string_scope.
Local Open Scope list_scope.

(** ** Python string primitives *)

Module Py.

Definition code (c : ascii) : N := N_of_ascii c.

Definition between (lo hi : N) (c : ascii) : bool :=
  (lo <=? code c)%N && (code c <=? hi)%N.

Definition code_in (l : list N) (c : ascii) : bool :=
  existsb (N.eqb (code c)) l.

(** [str.isspace] on one character. *)
Definition is_space (c : ascii) : bool :=
  between 9 13 c || between 28 32 c || code_in [133; 160]%N c.

(** The regex class [\w] for [str] patterns: alphanumerics and underscore. *)
Definition is_word (c : ascii) : bool :=
  between 48 57 c || between 65 90 c || between 97 122 c
  || code_in [95; 170; 178; 179; 181; 185; 186; 188; 189; 190]%N c
  || between 192 214 c || between 216 246 c || between 248 255 c.

Definition shift_up (c : ascii) : ascii := ascii_of_N (code c + 32).
Definition shift_down (c : ascii) : ascii := ascii_of_N (code c - 32).

(** [str.lower] on one character. *)
Definition lower_char (c : ascii) : ascii :=
  if between 65 90 c || between 192 214 c || between 216 222 c
  then shift_up c else c.

(** [str.upper] on one character.  The three characters whose upper case
    leaves the 8-bit range (181, 223, 255) are left as they are; [upper] is
    only ever applied to text matched by an ASCII pattern. *)
Definition upper_char (c : ascii) : ascii :=
  if between 97 122 c || between 224 246 c || between 248 254 c
  then shift_down c else c.

Fixpoint lower (s : string) : string :=
  match s with
  | EmptyString => EmptyString
  | String c t => String (lower_char c) (lower t)
  end.

Fixpoint upper (s : string) : string :=
  match s with
  | EmptyString => EmptyString
  | String c t => String (upper_char c) (upper t)
  end.

Fixpoint lstrip (s : string) : string :=
  match s with
  | EmptyString => EmptyString
  | String c t => if is_space c then lstrip t else s
  end.

(** [rstrip]: a character is kept when something after it is kept, or when
    it is not white space. *)
Fixpoint rstrip (s : string) : string :=
  match s with
  | EmptyString => EmptyString
  | String c t =>
      match rstrip t with
      | EmptyString => if is_space c then EmptyString else String c EmptyString
      | t' => String c t'
      end
  end.

Definition strip (s : string) : string := rstrip (lstrip s).

(** [needle in hay]. *)
Fixpoint contains (needle hay : string) : bool :=
  String.prefix needle hay
  || match hay with
     | EmptyString => false
     | String _ t => contains needle t
     end.

Definition startswith (s p : string) : bool := String.prefix p s.

(** [s.replace(c, "")] for a one-character [c]. *)
Fixpoint remove_char (c : ascii) (s : string) : string :=
  match s with
  | EmptyString => EmptyString
  | String d t =>
      if Ascii.eqb c d then remove_char c t else String d (remove_char c t)
  end.

(** [s.split(' ')[0]]. *)
Fixpoint before_space (s : string) : string :=
  match s with
  | EmptyString => EmptyString
  | String c t =>
      if Ascii.eqb c " " then EmptyString else String c (before_space t)
  end.

(** [re.sub(r'[^a-z]', '', s)]. *)
Fixpoint only_az (s : string) : string :=
  match s with
  | EmptyString => EmptyString
  | String c t => if between 97 122 c then String c (only_az t) else only_az t
  end.

(** [x in l] for a list of strings. *)
Definition mem (x : string) (l : list string) : bool :=
  existsb (String.eqb x) l.

(** [s.split(c)] for a one-character [c]. *)
Fixpoint split (c : ascii) (s : string) : list string :=
  match s with
  | EmptyString => [EmptyString]
  | String d t =>
      if Ascii.eqb d c then EmptyString :: split c t
      else match split c t with
           | h :: r => String d h :: r
           | [] => [String d EmptyString]
           end
  end.

End Py.

(** ** Cells *)

Inductive cell : Type :=
| NaN                      (* a missing value: NaN, None, NaT *)
| Str (s : string)         (* text *)
| Num (repr : string)      (* an int, float or bool, by its str() *)
| Obj (repr : string).     (* any other object (a date), by its str() *)

(** [str(cell)]. *)
Definition py_str (c : cell) : string :=
  match c with
  | NaN => "nan"
  | Str s => s
  | Num r => r
  | Obj r => r
  end.

(** [pd.notna(cell)]. *)
Definition notna (c : cell) : bool :=
  match c with NaN => false | _ => true end.

(** A run either completes with a value or raises. *)
Inductive result (A : Type) : Type :=
| Ok (a : A)
| Error (msg : string).
Arguments Ok {A} a.
Arguments Error {A} msg.

Definition bind {A B : Type} (r : result A) (k : A -> result B) : result B :=
  match r with
  | Ok a => k a
  | Error m => Error m
  end.

Notation "x <- r ;; k" := (bind r (fun x => k))
  (at level 61, r at next level, right associativity).

(** ** Karat extraction (factory-out.py, [extract_karat]) *)

Module Karat.
Import Py.

(** The alternatives of [r'\b(18KT|22KT|24KT)\b']. *)
Definition karat_pattern : list string := ["18KT"; "22KT"; "24KT"].

(** The characters the alternatives are made of. *)
Definition pattern_char (c : ascii) : Prop :=
  In c ["1"; "8"; "2"; "4"; "K"; "T"]%char.

(** The matcher, over any alphabet of text characters: [is_word] is the
    class [\w], [ci_eqb p c] says that pattern character [p] matches text
    character [c] under [re.IGNORECASE]. *)
Section Matcher.
Variable char : Type.
Variable is_word : char -> bool.
Variable ci_eqb : ascii -> char -> bool.

Definition word_opt (c : option char) : bool :=
  match c with Some c => is_word c | None => false end.

(** [\b] between the character before and the character after. *)
Definition word_boundary (before after : option char) : bool :=
  xorb (word_opt before) (word_opt after).

(** No word character stands before the position reached after the text
    [a]: the last character of [a], or [prev] when [a] is empty, is none. *)
Definition clear_before (prev : option char) (a : list char) : Prop :=
  match rev a with
  | c :: _ => is_word c = false
  | [] => word_opt prev = false
  end.

(** Match alternative [p] at the start of [s], then [\b]; [last] is the
    character matched last.  Returns the matched text. *)
Fixpoint match_alt (p : string) (s : list char) (last : option char)
  : option (list char) :=
  match p with
  | EmptyString =>
      if word_boundary last (hd_error s) then Some [] else None
  | String pc p' =>
      match s with
      | [] => None
      | c :: s' =>
          if ci_eqb pc c then
            match match_alt p' s' (Some c) with
            | Some g => Some (c :: g)
            | None => None
            end
          else None
      end
  end.

(** The alternatives are tried in order. *)
Fixpoint match_group (alts : list string) (s : list char) (prev : option char)
  : option (list char) :=
  match alts with
  | [] => None
  | p :: alts' =>
      match match_alt p s prev with
      | Some g => Some g
      | None => match_group alts' s prev
      end
  end.

(** The whole pattern at one position: [\b], the group, [\b]. *)
Definition match_here (prev : option char) (s : list char)
  : option (list char) :=
  if word_boundary prev (hd_error s) then match_group karat_pattern s prev
  else None.

(** [re.search]: the leftmost position at which the pattern matches. *)
Fixpoint re_search (prev : option char) (s : list char)
  : option (list char) :=
  match match_here prev s with
  | Some g => Some g
  | None =>
      match s with
      | [] => None
      | c :: t => re_search (Some c) t
      end
  end.

End Matcher.

Arguments re_search {char} is_word ci_eqb prev s.
Arguments match_here {char} is_word ci_eqb prev s.
Arguments match_group {char} is_word ci_eqb alts s prev.
Arguments match_alt {char} is_word ci_eqb p s last.
Arguments word_boundary {char} is_word before after.
Arguments clear_before {char} is_word prev a.

(** *** Text of 8-bit characters, as the cells of the frames hold it *)

(** Two characters match under [re.IGNORECASE]. *)
Definition ci_eqb (a b : ascii) : bool :=
  Ascii.eqb (lower_char a) (lower_char b).

Definition extract_karat (style_no : cell) : string :=
  match style_no with
  | Str s =>
      match re_search is_word ci_eqb None (list_ascii_of_string s) with
      | Some g => upper (string_of_list_ascii g)
      | None => ""
      end
  | _ => ""
  end.

(** *** Text of any code points

    A Python [str] holds code points beyond 255, and case-insensitive
    matching reaches one of them: the Kelvin sign U+212A lowercases to "k",
    so it matches the "K" of the pattern, and [upper] leaves it as it is. *)

Definition kelvin_sign : N := 8490.

(** The code points of an 8-bit text. *)
Definition codes (s : string) : list N := map code (list_ascii_of_string s).

Section CodePoints.
(** [\w] on the code points above 255. *)
Variable wide_word : N -> bool.

Definition is_word_cp (n : N) : bool :=
  if (n <? 256)%N then is_word (ascii_of_N n) else wide_word n.

(** The lower case of a code point, as far as it may be that of an ASCII
    character: of the code points above 255 only the Kelvin sign has one. *)
Definition lower_cp (n : N) : N :=
  if (n =? kelvin_sign)%N then code "k"
  else if (n <? 256)%N then code (lower_char (ascii_of_N n))
  else n.

Definition ci_eqb_cp (p : ascii) (n : N) : bool :=
  (code (lower_char p) =? lower_cp n)%N.

(** [str.upper] on a code point a pattern character can match: the Kelvin
    sign is its own upper case. *)
Definition upper_cp (n : N) : N :=
  if (n <? 256)%N then code (upper_char (ascii_of_N n)) else n.

(** [extract_karat] on a text value. *)
Definition extract_karat_text (style_no : list N) : list N :=
  match re_search is_word_cp ci_eqb_cp None style_no with
  | Some g => map upper_cp g
  | None => []
  end.

End CodePoints.

End Karat.

(** ** Data frames *)

Record frame (A : Type) : Type := mkFrame
  { columns : list string;
    rows : list (list A) }.
Arguments mkFrame {A} columns rows.
Arguments columns {A} f.
Arguments rows {A} f.

Module Frame.
Import Py.

(** The loop [for i, row in df.iterrows(): if p(row): return i], started at
    row number [i]. *)
Fixpoint first_row {A : Type} (p : list A -> bool) (i : nat)
  (g : list (list A)) : option nat :=
  match g with
  | [] => None
  | row :: rest => if p row then Some i else first_row p (S i) rest
  end.

(** The positions at which label [k] occurs in [cols], counted from [i]. *)
Fixpoint positions (k : string) (i : nat) (cols : list string) : list nat :=
  match cols with
  | [] => []
  | c :: cs =>
      if String.eqb k c then i :: positions k (S i) cs
      else positions k (S i) cs
  end.

(** [df[labels]]: every column carrying one of the labels, label by label;
    a label carried by several columns selects them all, a label carried by
    none raises [KeyError]. *)
Definition select {A : Type} (blank : A) (labels : list string)
  (df : frame A) : result (frame A) :=
  if forallb (fun k => mem k (columns df)) labels then
    let idxs := flat_map (fun k => positions k 0 (columns df)) labels in
    Ok (mkFrame (map (fun i => nth i (columns df) "") idxs)
                (map (fun r => map (fun i => nth i r blank) idxs) (rows df)))
  else Error "KeyError".

(** The position of the single column labelled [k]: [df[k]] is a Series
    only then; with several such columns it is a DataFrame, on which the
    Series operations of the scripts raise. *)
Definition series_loc {A : Type} (k : string) (df : frame A) : result nat :=
  match positions k 0 (columns df) with
  | [] => Error "KeyError"
  | [i] => Ok i
  | _ => Error "AttributeError"
  end.

(** [df[k] = value] for a new label [k]: a column appended on the right. *)
Definition add_column {A : Type} (k : string) (value : A) (df : frame A)
  : frame A :=
  mkFrame (columns df ++ [k]) (map (fun r => r ++ [value]) (rows df)).

(** Replace the cell at position [i] of a row. *)
Fixpoint set_nth {A : Type} (i : nat) (x : A) (r : list A) : list A :=
  match r, i with
  | [], _ => []
  | _ :: t, 0 => x :: t
  | y :: t, S j => y :: set_nth j x t
  end.

Definition has_dup (l : list string) : bool :=
  negb (Nat.eqb (List.length (nodup string_dec l)) (List.length l)).

End Frame.

(** ** The delay-order report (deplay-order-report.py) *)

Module DelayOrder.
Import Py Frame.

(** The grid read with [dtype=str, keep_default_na=False]: text cells. *)
Definition grid : Type := list (list string).

(** A target schema: canonical names in order, each with its keyword
    fragments (a Python dict keeps insertion order). *)
Definition schema : Type := list (string * list string).

Definition column_keywords : schema :=
  [ ("Order No", ["order no"; "orderno"; "order #"]);
    ("Variant Name", ["variant"; "variant name"]);
    ("Group No", ["group no"; "group"]);
    ("Batch No", ["batch no"; "batch"]);
    ("Actual Metal Wt", ["metal wt"; "actual metal"]);
    ("Dept Name", ["dept"; "department"]);
    ("Jobworker", ["jobworker"; "worker"]);
    ("Req Purity", ["req purity"; "purity"]);
    ("Shipment Date", ["shipment date"; "ship date"]);
    ("Order Date", ["order date"; "date"]);
    ("Shipment Days", ["shipment days"; "ship days"]);
    ("Order Days", ["order days"; "days"]) ].

Definition keys (sc : schema) : list string := map fst sc.

Definition header_warning : string :=
  "Header row not found. Using first row as header.".

Section Detection.
Variable sc : schema.

(** [any(kw in str(x).strip().lower() for kw in keywords)]. *)
Definition hit (keywords : list string) (x : string) : bool :=
  existsb (fun kw => contains kw (lower (strip x))) keywords.

(** [sum(any(...) for x in row for key, keywords in items())]: one unit
    for every pair of a cell and a canonical column that hit. *)
Definition matches (row : list string) : nat :=
  List.length (filter (fun p : string * (string * list string) =>
                         hit (snd (snd p)) (fst p))
                      (list_prod row sc)).

(** The count the specification describes, for comparison: the
    canonical columns for which at least one cell of the row holds one of
    their keywords. *)
Definition spec_columns_hit (row : list string) : nat :=
  List.length (filter (fun e : string * list string =>
                         existsb (hit (snd e)) row) sc).

Definition threshold : nat := List.length sc / 2.

Definition qualifies (row : list string) : bool :=
  Nat.leb threshold (matches row).

(** Lines 37-49: the index found, or 0 with a warning. *)
Definition header_row_index (g : grid) : nat * list string :=
  match first_row qualifies 0 g with
  | Some i => (i, [])
  | None => (0, [header_warning])
  end.

(** Lines 55-61: the first canonical column one of whose keywords occurs
    in the label; [mapped if mapped else str(col)]. *)
Definition map_column (col : string) : string :=
  match find (fun e : string * list string => hit (snd e) col) sc with
  | Some (key, _) => if String.eqb key "" then col else key
  | None => col
  end.

(** Lines 66-68: a blank column for every canonical name not yet a
    label. *)
Fixpoint ensure_columns (ks : list string) (df : frame string)
  : frame string :=
  match ks with
  | [] => df
  | k :: ks' =>
      ensure_columns ks'
        (if mem k (columns df) then df else add_column k "" df)
  end.

(** Lines 52-70: header, renaming, blank fill and reordering. *)
Definition reconcile (g : grid) : result (frame string) :=
  let h := fst (header_row_index g) in
  match nth_error g h with
  | None => Error "IndexError"
  | Some header_row =>
      let new_columns := map map_column header_row in
      let df := mkFrame new_columns (skipn (S h) g) in
      select "" (keys sc) (ensure_columns (keys sc) df)
  end.

End Detection.

(** Line 73: rows in which some cell contains "grand total", whatever the
    case, are removed.  On a frame without rows [df.apply(..., axis=1)]
    gives an empty frame instead of a column of truth values, and the
    selection by it keeps no column. *)
Definition drop_grand_total (df : frame string) : frame string :=
  match rows df with
  | [] => mkFrame [] []
  | _ =>
      mkFrame (columns df)
        (filter (fun row =>
                   negb (existsb (fun x => contains "grand total" (lower x))
                                 row))
                (rows df))
  end.

Definition unwanted_values : list string :=
  [""; "(1.00)"; "(2.00)"; "(3.00)"; "(4.00)"; "(5.00)"; "(6.00)";
   "(7.00)"; "(8.00)"; "(9.00)"].

(** Line 77.  Without an "Order Days" column the selection raises
    [KeyError]; with two of them it is a DataFrame, and the selection by
    its truth values raises [ValueError]. *)
Definition filter_order_days (df : frame string) : result (frame string) :=
  match positions "Order Days" 0 (columns df) with
  | [] => Error "KeyError"
  | [i] =>
      Ok (mkFrame (columns df)
            (filter (fun row => negb (mem (nth i row "") unwanted_values))
                    (rows df)))
  | _ => Error "ValueError"
  end.

(** A blank value in the written table: empty text, or a missing value. *)
Definition blank_cell (c : cell) : Prop := c = Str "" \/ c = NaN.

(** Row [r] of the written table is blank in column [q]. *)
Definition blank_at (q : nat) (r : list cell) : Prop :=
  exists c, nth_error r q = Some c /\ blank_cell c.

(** The library calls of lines 81-88, with what the script relies on. *)
Section Pandas.
(** [float]: the values of Python floats; [float_of_str s] is [float(s)],
    [None] when it raises [ValueError]. *)
Variable float : Type.
Variable float_of_str : string -> option float.
(** [float_le a b]: [a <= b] on floats; [float_isnan a]: [a] is the float
    "not a number", which [float] gives for texts such as "nan". *)
Variable float_le : float -> float -> bool.
Variable float_isnan : float -> bool.
(** [to_datetime column x]: the date [pd.to_datetime(column,
    errors='coerce')] holds at a cell of value [x], [None] for [NaT]; the
    format the library guesses depends on the whole column. *)
Variable date : Type.
Variable to_datetime : list cell -> cell -> option date.
(** [strftime d]: the date rendered with ['%d-%m-%Y']. *)
Variable strftime : date -> string.

(** Line 81, one cell: both parentheses removed, then [float]. *)
Definition sort_key (x : string) : option float :=
  float_of_str (remove_char ")" (remove_char "(" x)).

(** Line 81, the column: [astype(float)] raises as soon as one cell does
    not parse. *)
Fixpoint astype_float (l : list string) : result (list float) :=
  match l with
  | [] => Ok []
  | x :: t =>
      match sort_key x with
      | None => Error "ValueError"
      | Some k => ks <- astype_float t ;; Ok (k :: ks)
      end
  end.

(** Line 82, the order asked for: [ascending=False] with the default
    [na_position='last'].  A row of key [a] may stand before a row of key
    [b] when [b] is not a number, or when [a] is a number and [b <= a]. *)
Definition sorts_first (a b : float) : bool :=
  float_isnan b || (negb (float_isnan a) && float_le b a).

(** Line 82: [sort_values(by=..., ascending=False)] with the default
    [kind='quicksort']: a rearrangement of the rows in which every row may
    stand before all the rows after it.  The call does not ask for a stable
    sort, and the order of rows with equal keys is the library's: the
    relation fixes none. *)
Definition sort_values (keyed out : list (float * list string)) : Prop :=
  Permutation keyed out
  /\ StronglySorted (fun a b => sorts_first (fst a) (fst b) = true) out.

(** Lines 62-81: everything before the sort: the reconciled, filtered
    frame with the sort key of every row. *)
Definition body (g : grid) : result (frame string * list float) :=
  df <- reconcile column_keywords g ;;
  df <- filter_order_days (drop_grand_total df) ;;
  i <- series_loc "Order Days" df ;;
  ks <- astype_float (map (fun r => nth i r "") (rows df)) ;;
  Ok (df, ks).

(** Line 88, one column: unparseable values become missing values. *)
Definition format_date (col : string) (df : frame cell)
  : result (frame cell) :=
  i <- series_loc col df ;;
  let column := map (fun r => nth i r NaN) (rows df) in
  Ok (mkFrame (columns df)
        (map (fun r =>
                set_nth i
                  (match to_datetime column (nth i r NaN) with
                   | Some d => Str (strftime d)
                   | None => NaN
                   end) r)
             (rows df))).

(** Lines 87-88. *)
Definition format_dates (df : frame string) : result (frame cell) :=
  df <- format_date "Shipment Date"
          (mkFrame (columns df) (map (map Str) (rows df))) ;;
  format_date "Order Date" df.

(** The table written to the workbook, or the error that ends the run. *)
Definition delay_report (g : grid) (out : result (frame cell)) : Prop :=
  match body g with
  | Error m => out = Error m
  | Ok (df, ks) =>
      exists sorted,
        sort_values (combine ks (rows df)) sorted
        /\ out = format_dates (mkFrame (columns df) (map snd sorted))
  end.

(** A stable descending sort, as [kind='stable'] would give: insertion
    from the right keeps equal keys in their original order. *)
Fixpoint insert_desc (x : float * list string)
  (l : list (float * list string)) : list (float * list string) :=
  match l with
  | [] => [x]
  | y :: t =>
      if sorts_first (fst x) (fst y) then x :: l
      else y :: insert_desc x t
  end.

Fixpoint stable_sort_desc (l : list (float * list string))
  : list (float * list string) :=
  match l with
  | [] => []
  | x :: t => insert_desc x (stable_sort_desc t)
  end.

End Pandas.

Arguments sort_key {float} float_of_str x.
Arguments astype_float {float} float_of_str l.
Arguments sorts_first {float} float_le float_isnan a b.
Arguments sort_values {float} float_le float_isnan keyed out.
Arguments body {float} float_of_str g.
Arguments format_date {date} to_datetime strftime col df.
Arguments format_dates {date} to_datetime strftime df.
Arguments delay_report {float} float_of_str float_le float_isnan {date}
  to_datetime strftime g out.
Arguments insert_desc {float} float_le float_isnan x l.
Arguments stable_sort_desc {float} float_le float_isnan l.

End DelayOrder.

(** ** What factory-out.py and lot-rejection.py share

    Both scripts define [find_header_row], [extract_grand_total_row], the
    column mapping of [process_excel], [safe_write_cell] and the grand-total
    row of [create_download_file] with the same text, each over its own
    [FIXED_COLUMNS]. *)

Module Sheet.
Import Py Frame.

(** The grid read with [header=None]. *)
Definition grid : Type := list (list cell).

Definition string_of_nat (n : nat) : string :=
  DecimalString.NilEmpty.string_of_uint (Nat.to_uint n).

(** *** [pd.read_excel(file, header=h)] *)

(** The label pandas gives column [i] from its header cell. *)
Definition header_label (i : nat) (c : cell) : string :=
  match c with
  | NaN => "Unnamed: " ++ string_of_nat i
  | Str s => if String.eqb s "" then "Unnamed: " ++ string_of_nat i else s
  | Num r => r
  | Obj r => r
  end.

Fixpoint header_labels (i : nat) (row : list cell) : list string :=
  match row with
  | [] => []
  | c :: t => header_label i c :: header_labels (S i) t
  end.

Definition count_of (counts : list (string * nat)) (col : string) : nat :=
  match find (fun e => String.eqb (fst e) col) counts with
  | Some (_, n) => n
  | None => 0
  end.

(** A repeated label gets the suffix [.k], again while the suffixed label
    is itself taken ([counts] records how often each label was met).  The
    loop of pandas is unbounded; [fuel] bounds it here, and the fuel
    [dedup_names] gives is never used up ([dedup_fuel_enough]). *)
Fixpoint mangle (fuel : nat) (counts : list (string * nat)) (col : string)
  : string * list (string * nat) :=
  match count_of counts col, fuel with
  | S k, S fuel' =>
      mangle fuel' ((col, S (S k)) :: counts)
             (col ++ "." ++ string_of_nat (S k))
  | _, _ => (col, (col, 1) :: counts)
  end.

Fixpoint dedup_names (counts : list (string * nat)) (names : list string)
  : list string :=
  match names with
  | [] => []
  | col :: t =>
      let '(col', counts') := mangle (S (List.length counts)) counts col in
      col' :: dedup_names counts' t
  end.

(** Row [h] gives the labels, the rows below it are the body. *)
Definition read_excel_header (h : nat) (g : grid) : frame cell :=
  mkFrame (dedup_names [] (header_labels 0 (nth h g []))) (skipn (S h) g).

(** *** Cells on the way out *)

(** What [safe_write_cell] writes: blank for a missing value and for a
    number that is not finite, the [str()] of an object that is neither
    text nor number, the value itself otherwise. *)
Definition safe_write_cell (value : cell) : cell :=
  match value with
  | NaN => Str ""
  | Str s => Str s
  | Num r => if mem r ["inf"; "-inf"; "nan"] then Str "" else Num r
  | Obj r => Str r
  end.

(** A cell that [safe_write_cell] writes as it is: text, or a finite
    number. *)
Definition writable (c : cell) : Prop := c <> NaN /\ safe_write_cell c = c.

(** Lines 328-333 of factory-out.py: cell [col_num] of the row written
    under the table is cell [col_num] of the raw grand-total row. *)
Definition grand_total_cells (ncols : nat) (grand_total_row : list cell)
  : list cell :=
  map (fun col_num =>
         if Nat.ltb col_num (List.length grand_total_row)
         then safe_write_cell (nth col_num grand_total_row NaN)
         else Str "")
      (seq 0 ncols).

(** Whether [extract_grand_total_row] takes the row. *)
Definition is_grand_total (row : list cell) : bool :=
  existsb (fun c => contains "grand total" (lower (py_str c)))
          (filter notna row).

Definition extract_grand_total_row (g : grid) : option (list cell) :=
  find is_grand_total g.

(** Line 205 / 90: text cells are stripped. *)
Definition strip_cell (c : cell) : cell :=
  match c with
  | Str s => Str (strip s)
  | _ => c
  end.

(** [dropna(how='all')]. *)
Definition all_na (row : list cell) : bool :=
  forallb (fun c => negb (notna c)) row.

(** [fillna('')]. *)
Definition fillna (c : cell) : cell :=
  match c with
  | NaN => Str ""
  | _ => c
  end.

(** The values of column [j]. *)
Definition column_values (j : nat) (rs : list (list cell)) : list cell :=
  map (fun r => nth j r NaN) rs.

Section Dtype.
(** [is_object j column]: whether [df[col].dtype == 'object'] holds of the
    column at position [j], whose values are [column].  pandas decides the
    dtype of a column from how the column was made and from its values, and
    not in the same way from one version to the next: a column of texts read
    from a sheet is [object] before pandas 3.0 and [str] from 3.0 on. *)
Variable is_object : nat -> list cell -> bool.

(** Lines 203-205, one row: from column [j] on, the cells of the columns of
    dtype [object] are stripped. *)
Fixpoint strip_row (rs : list (list cell)) (j : nat) (r : list cell)
  : list cell :=
  match r with
  | [] => []
  | c :: t =>
      (if is_object j (column_values j rs) then strip_cell c else c)
      :: strip_row rs (S j) t
  end.

(** Lines 203-214 of factory-out.py.  [df[col].dtype] raises when the label
    [col] is carried by two columns; [df.iloc[:, 0]] raises when there is no
    column. *)
Definition clean (df : frame cell) : result (frame cell) :=
  if has_dup (columns df) then Error "AttributeError"
  else
    let rs := map (strip_row (rows df) 0) (rows df) in
    let rs := filter (fun r => negb (all_na r)) rs in
    let rs := map (map fillna) rs in
    match columns df with
    | [] => Error "IndexError"
    | _ =>
        Ok (mkFrame (columns df)
              (filter (fun r =>
                         negb (contains "grand total"
                                 (lower (py_str (nth 0 r NaN)))))
                      rs))
    end.

End Dtype.

Section Fixed.
Variable FIXED_COLUMNS : list string.

(** *** [find_header_row] *)

Definition row_values (row : list cell) : list string :=
  map (fun c => lower (strip (py_str c))) (filter notna row).

(** The canonical columns whose lowercased name occurs in some cell. *)
Definition found_columns (row : list cell) : nat :=
  List.length
    (filter (fun col => existsb (contains (lower col)) (row_values row))
            FIXED_COLUMNS).

(** [found_columns >= len(FIXED_COLUMNS) * 0.6], in integers; the two
    comparisons agree for every length the scripts use. *)
Definition qualifies (row : list cell) : bool :=
  Nat.leb (6 * List.length FIXED_COLUMNS) (10 * found_columns row).

Definition find_header_row (g : grid) : nat :=
  match first_row qualifies 0 g with
  | Some idx => idx
  | None => 0
  end.

(** *** The column mapping of [process_excel] *)

Definition label_match (col fixed_col : string) : bool :=
  let col_lower := lower col in
  let fixed_col_lower := lower fixed_col in
  contains fixed_col_lower col_lower
  || contains col_lower fixed_col_lower
  || contains (only_az fixed_col_lower) (only_az col_lower).

(** [df.rename(columns=column_mapping)] on one label. *)
Definition column_mapping (col : string) : string :=
  match find (label_match col) FIXED_COLUMNS with
  | Some fixed_col => fixed_col
  | None => col
  end.

(** Lines 163-183: the second read, with cleaned and renamed labels. *)
Definition renamed (g : grid) : frame cell :=
  let df := read_excel_header (find_header_row g) g in
  mkFrame (map (fun col => column_mapping (strip col)) (columns df))
          (rows df).

End Fixed.

End Sheet.

(** ** The factory outward report (factory-out.py) *)

Module FactoryOut.
Import Py Frame Sheet Karat.

Definition FIXED_COLUMNS : list string :=
  ["Trans Date"; "Doc No"; "Party Name"; "Style No"; "Karat";
   "Variant Name"; "Net Wt"; "Wastage Perc"; "Pg Wt"; "Pg Wastage Wt";
   "Line Remark"].

Definition find_header_row : grid -> nat := Sheet.find_header_row FIXED_COLUMNS.

Definition clean_trans_date (date_value : cell) : string :=
  match date_value with
  | NaN => ""
  | _ =>
      let date_str := py_str date_value in
      if contains " " date_str
         && (contains ":" date_str || contains "00:00:00" date_str)
      then before_space date_str
      else date_str
  end.

(** Line 186. *)
Definition available_cols (df : frame cell) : list string :=
  filter (fun col => mem col (columns df) && negb (String.eqb col "Karat"))
         FIXED_COLUMNS.

(** Whether canonical column [col] is in the table, given the renamed source
    labels: "Karat" is derived whenever "Style No" is there, any other column
    needs a source label mapped to it. *)
Definition kept (labels : list string) (col : string) : bool :=
  if String.eqb col "Karat" then mem "Style No" labels else mem col labels.

(** Lines 190-196: the derived column, right after "Style No". *)
Definition add_karat (df : frame cell) : result (frame cell) :=
  if mem "Style No" (columns df) then
    i <- series_loc "Style No" df ;;
    Ok (mkFrame (firstn (S i) (columns df) ++ "Karat" :: skipn (S i) (columns df))
          (map (fun r =>
                  firstn (S i) r
                  ++ Str (extract_karat (nth i r NaN)) :: skipn (S i) r)
               (rows df)))
  else Ok df.

(** Lines 199-200. *)
Definition clean_dates (df : frame cell) : result (frame cell) :=
  if mem "Trans Date" (columns df) then
    i <- series_loc "Trans Date" df ;;
    Ok (mkFrame (columns df)
          (map (fun r => set_nth i (Str (clean_trans_date (nth i r NaN))) r)
               (rows df)))
  else Ok df.

(** Lines 163-200: the second read, the selection, the derived column and
    the dates. *)
Definition read_body (g : grid) : result (frame cell) :=
  let df := renamed FIXED_COLUMNS g in
  df <- select NaN (available_cols df) df ;;
  df <- add_karat df ;;
  clean_dates df.

Section Dtype.
(** [df[col].dtype == 'object'], see [Sheet.clean]. *)
Variable is_object : nat -> list cell -> bool.

(** The [try] block of [process_excel], from the second read on. *)
Definition process_body (g : grid) : result (frame cell) :=
  df <- read_body g ;;
  clean is_object df.

(** [process_excel]: the table and the grand-total row (the title is left
    out); any exception gives the empty table and no grand-total row. *)
Definition process_excel (g : grid) : frame cell * option (list cell) :=
  match process_body g with
  | Ok df => (df, extract_grand_total_row g)
  | Error _ => (mkFrame FIXED_COLUMNS [], None)
  end.

End Dtype.

(** [df.empty]. *)
Definition empty (df : frame cell) : bool :=
  match columns df, rows df with
  | [], _ => true
  | _, [] => true
  | _, _ => false
  end.

(** *** The title

    [re.search(r'Trans Type\s*[:-]*\s*(.+)', cell_str, re.IGNORECASE)]. *)

(** The literal [p] at the start of [s], whatever the case; the rest of
    [s] after it. *)
Fixpoint lit_ci (p s : string) : option string :=
  match p with
  | EmptyString => Some s
  | String pc p' =>
      match s with
      | EmptyString => None
      | String c t => if ci_eqb pc c then lit_ci p' t else None
      end
  end.

(** A greedy [cls*] followed by [k]: the longest run first, then, if [k]
    fails after it, the shorter ones. *)
Fixpoint star (cls : ascii -> bool) (k : string -> option string)
  (s : string) : option string :=
  match s with
  | EmptyString => k s
  | String c t =>
      if cls c then
        match star cls k t with
        | Some g => Some g
        | None => k s
        end
      else k s
  end.

Definition newline : ascii := ascii_of_nat 10.

(** The text up to the end of the line. *)
Fixpoint take_line (s : string) : string :=
  match s with
  | EmptyString => EmptyString
  | String c t =>
      if Ascii.eqb c newline then EmptyString else String c (take_line t)
  end.

(** The group [(.+)] at the end of the pattern: at least one character, none
    of them a line feed, as many as there are. *)
Definition dot_plus (s : string) : option string :=
  match s with
  | EmptyString => None
  | String c _ => if Ascii.eqb c newline then None else Some (take_line s)
  end.

(** The class [[:-]]. *)
Definition colon_or_dash (c : ascii) : bool :=
  Ascii.eqb c ":" || Ascii.eqb c "-".

(** The pattern at the start of [s]; the text of the group. *)
Definition title_match_here (s : string) : option string :=
  match lit_ci "Trans Type" s with
  | Some r => star is_space (star colon_or_dash (star is_space dot_plus)) r
  | None => None
  end.

(** [re.search]: the leftmost position at which the pattern matches. *)
Fixpoint title_search (s : string) : option string :=
  match title_match_here s with
  | Some g => Some g
  | None =>
      match s with
      | EmptyString => None
      | String _ t => title_search t
      end
  end.

(** Lines 60-71: the title one cell gives, if any. *)
Definition title_of_cell (c : cell) : option string :=
  if notna c then
    let cell_str := strip (py_str c) in
    if contains "sale invoice" (lower cell_str) then Some "SALE INVOICE"
    else if contains "goods receipt" (lower cell_str)
    then Some "GOODS RECEIPT NOTE"
    else if contains "trans type" (lower cell_str)
    then option_map strip (title_search cell_str)
    else None
  else None.

(** The first result of [f] along [l]. *)
Fixpoint first_some {A B : Type} (f : A -> option B) (l : list A)
  : option B :=
  match l with
  | [] => None
  | x :: t =>
      match f x with
      | Some y => Some y
      | None => first_some f t
      end
  end.

(** [extract_title_from_excel]: the first five rows, cell after cell. *)
Definition extract_title_from_excel (g : grid) : string :=
  match first_some title_of_cell (concat (firstn 5 g)) with
  | Some title => title
  | None => "GOODS RECEIPT NOTE"
  end.

(** [main] and [create_download_file]: nothing is written for an empty
    table; otherwise the table, cell by cell through [safe_write_cell], and
    under it the grand-total row when there is one. *)
Definition report (is_object : nat -> list cell -> bool) (g : grid)
  : option (frame cell * option (list cell)) :=
  let '(df, grand_total_row) := process_excel is_object g in
  if empty df then None
  else Some (mkFrame (columns df) (map (map safe_write_cell) (rows df)),
             option_map (grand_total_cells (List.length (columns df)))
                        grand_total_row).

End FactoryOut.

(** ** The lot rejection report (lot-rejection.py) *)

Module LotRejection.
Import Py Frame Sheet.

Definition FIXED_COLUMNS : list string :=
  ["Trans Date"; "Order No"; "Group No"; "Style Name"; "Karat";
   "Wt"; "Operation Name"; "Wc Name"; "User Name"; "Remark"].

Definition find_header_row : grid -> nat := Sheet.find_header_row FIXED_COLUMNS.

(** Line 84. *)
Definition available_cols (df : frame cell) : list string :=
  filter (fun col => mem col (columns df)) FIXED_COLUMNS.

(** Lines 61-85: the second read and the selection. *)
Definition read_body (g : grid) : result (frame cell) :=
  let df := renamed FIXED_COLUMNS g in
  select NaN (available_cols df) df.

Section Dtype.
(** [df[col].dtype == 'object'], see [Sheet.clean]. *)
Variable is_object : nat -> list cell -> bool.

(** The [try] block of [process_excel], from the second read on. *)
Definition process_body (g : grid) : result (frame cell) :=
  df <- read_body g ;;
  clean is_object df.

Definition process_excel (g : grid) : frame cell * option (list cell) :=
  match process_body g with
  | Ok df => (df, extract_grand_total_row g)
  | Error _ => (mkFrame FIXED_COLUMNS [], None)
  end.

End Dtype.

(** [df.empty]. *)
Definition empty (df : frame cell) : bool :=
  match columns df, rows df with
  | [], _ => true
  | _, [] => true
  | _, _ => false
  end.

(** [main] and [create_download_file] of lot-rejection.py, lines 187-208
    and 237-262: nothing is written for an empty table; otherwise the
    table, cell by cell through [safe_write_cell], and under it the
    grand-total row when there is one. *)
Definition report (is_object : nat -> list cell -> bool) (g : grid)
  : option (frame cell * option (list cell)) :=
  let '(df, grand_total_row) := process_excel is_object g in
  if empty df then None
  else Some (mkFrame (columns df) (map (map safe_write_cell) (rows df)),
             option_map (grand_total_cells (List.length (columns df)))
                        grand_total_row).

End LotRejection.

(** ** The loss report (loss.py) *)

Module Loss.
Import Py Frame.

(** The rows of [ws.values]; [NaN] stands for [None]. *)
Definition grid : Type := list (list cell).

Definition required_columns : list string :=
  ["Wc Name"; "Issue Quantity Pg"; "Process Quantity Pg";
   "Unutilized Quantity Pg"; "Unutilized Quantity Sample Pg";
   "Unutilized Quantity Scrap Pg"; "Loss Quantity Pg"; "Gain Pg";
   "FINAL LOSS"; "LOSS %"].

(** The truth value of a cell. *)
Definition truthy (c : cell) : bool :=
  match c with
  | NaN => false
  | Str s => negb (String.eqb s "")
  | Num r => negb (mem r ["0"; "0.0"; "-0.0"; "False"])
  | Obj _ => true
  end.

(** Line 147. *)
Definition has_wc_name (row : list cell) : bool :=
  existsb (fun c => String.eqb (lower (strip (py_str c))) "wc name")
          (filter truthy row).

(** Lines 145-151. *)
Definition header_row_idx (data : grid) : result nat :=
  match first_row has_wc_name 0 data with
  | Some i => Ok i
  | None => Error "Could not find header row with 'Wc Name'"
  end.

(** Line 153. *)
Definition headers_old (row : list cell) : list string :=
  map (fun c => if truthy c then strip (py_str c) else "") row.

(** Lines 156-160: the first source column whose label contains the
    canonical name, spaces and case aside. *)
Fixpoint found_idx (col : string) (idx : nat) (hs : list string)
  : option nat :=
  match hs with
  | [] => None
  | h :: t =>
      if negb (String.eqb h "")
         && contains (remove_char " " (lower col)) (remove_char " " (lower h))
      then Some idx
      else found_idx col (S idx) t
  end.

(** [col_index_map.get(col_name)]: only [required_columns[:-2]] are keys. *)
Definition col_index_map (hs : list string) (col_name : string)
  : option nat :=
  if mem col_name (firstn (List.length required_columns - 2) required_columns)
  then found_idx col_name 0 hs
  else None.

(** What ends up in an output cell. *)
Inductive written : Type :=
| Unset                    (* nothing assigned *)
| Value (c : cell)         (* the source cell, as it is *)
| Rounded (c : cell)       (* round(val, 4) of a numeric source cell *)
| Formula (f : string).

(** [cell.value = val] of openpyxl files a text of more than one character
    that starts with "=" as a formula, wherever the text comes from.  The
    workbook is loaded with [data_only=False] (line 101): a formula of the
    uploaded sheet is read as such a text.  (The check openpyxl makes of a
    text on the way in, which refuses control characters, is left out.) *)
Definition is_formula_text (s : string) : bool :=
  Nat.ltb 1 (String.length s) && String.prefix "=" s.

(** [cell.value = val] for a source cell [val]. *)
Definition stored (val : cell) : written :=
  match val with
  | Str s => if is_formula_text s then Formula s else Value val
  | _ => Value val
  end.

(** Lines 172-178. *)
Definition is_total_row (old_row : list cell) : bool :=
  match old_row with
  | Str s :: _ => startswith (lower (strip s)) "total"
  | _ => false
  end.

(** Lines 185-187 and 201-208: the source cell of a canonical column. *)
Definition source_cell (hs : list string) (old_row : list cell)
  (col_name : string) : option cell :=
  match col_index_map hs col_name with
  | Some old_idx => nth_error old_row old_idx
  | None => None
  end.

(** Lines 180-209, one output row at sheet row [row_idx]. *)
Definition write_row (hs : list string) (row_idx : nat)
  (old_row : list cell) : list written :=
  let n := Sheet.string_of_nat row_idx in
  map (fun col_name =>
         if is_total_row old_row then
           match source_cell hs old_row col_name with
           | Some c => stored c
           | None => Unset
           end
         else if String.eqb col_name "FINAL LOSS" then
           Formula ("=G" ++ n ++ "+H" ++ n)
         else if String.eqb col_name "LOSS %" then
           Formula ("=I" ++ n ++ "/(C" ++ n ++ "+D" ++ n ++ "+E" ++ n
                    ++ "+F" ++ n ++ ")")
         else
           match source_cell hs old_row col_name with
           | Some (Num r) => Rounded (Num r)
           | Some c => stored c
           | None => Unset
           end)
      required_columns.

Fixpoint write_rows (hs : list string) (row_idx : nat) (data_rows : grid)
  : list (list written) :=
  match data_rows with
  | [] => []
  | old_row :: t => write_row hs row_idx old_row :: write_rows hs (S row_idx) t
  end.

(** Line 75: the texts of a row. *)
Definition row_str (row : list cell) : list string :=
  map (fun c => if truthy c then strip (py_str c) else "") row.

(** Lines 81-87 and 90-96, for the label [key]: the date after cell [i] of
    the row has been looked at, [cur] being the date before. *)
Definition date_after (key : string) (rs : list string) (i : nat)
  (cell : string) (cur : option string) : option string :=
  if contains key (lower cell) then
    if contains ":" cell then
      let part := strip (last (split ":" cell) "") in
      if negb (String.eqb part "") then Some part else cur
    else
      match nth_error rs (S i) with
      | Some next => if negb (String.eqb next "") then Some next else cur
      | None => cur
      end
  else cur.

(** Lines 77-96: one row, cell after cell. *)
Definition scan_row (rs : list string) (dates : option string * option string)
  : option string * option string :=
  fold_left (fun d ic =>
               (date_after "from date" rs (fst ic) (snd ic) (fst d),
                date_after "to date" rs (fst ic) (snd ic) (snd d)))
            (combine (seq 0 (List.length rs)) rs) dates.

(** [extract_dates_from_excel]: [(from_date, to_date)], [None] for a date
    that was not found. *)
Definition extract_dates_from_excel (data : grid)
  : option string * option string :=
  fold_left (fun d row => scan_row (row_str row) d) (firstn 10 data)
            (None, None).

(** [process_excel]: the rows written from sheet row 5 on, or the
    exception (titles, dates and styling are left out). *)
Definition process_excel (data : grid) : result (list (list written)) :=
  i <- header_row_idx data ;;
  let hs := headers_old (nth i data []) in
  let data_rows := filter (existsb truthy) (skipn (S i) data) in
  Ok (write_rows hs 5 data_rows).

End Loss.

(** ** A reference instance of the library calls

    Plain decimal notation for [float] and ISO dates for [to_datetime]: what
    the examples below are evaluated with. *)

Module Reference.
Import Py.

Definition digit (c : ascii) : option Z :=
  if between 48 57 c then Some (Z.of_N (code c) - 48)%Z else None.

(** The leading digits of [s]: their value on top of [acc], how many they
    are, and what follows them. *)
Fixpoint read_digits (s : string) (acc : Z) (n : nat) : Z * nat * string :=
  match s with
  | EmptyString => (acc, n, s)
  | String c t =>
      match digit c with
      | Some d => read_digits t (10 * acc + d)%Z (S n)
      | None => (acc, n, s)
      end
  end.

(** A decimal number: [num / 10 ^ scale]. *)
Definition float : Type := (Z * nat)%type.

(** [float(s)] for [s] in plain decimal notation: white space around, a
    sign, digits, a fraction; anything else is rejected. *)
Definition float_of_str (s : string) : option float :=
  let s := strip s in
  let '(sign, s) :=
    match s with
    | String "-" t => ((-1)%Z, t)
    | String "+" t => (1%Z, t)
    | _ => (1%Z, s)
    end in
  let '(ip, n1, rest) := read_digits s 0 0 in
  match rest with
  | EmptyString => if Nat.eqb n1 0 then None else Some ((sign * ip)%Z, 0)
  | String "." t =>
      let '(all, n2, rest2) := read_digits t ip 0 in
      match rest2 with
      | EmptyString =>
          if Nat.eqb (n1 + n2) 0 then None else Some ((sign * all)%Z, n2)
      | _ => None
      end
  | _ => None
  end.

(** [a <= b]. *)
Definition float_le (a b : float) : bool :=
  (fst a * 10 ^ Z.of_nat (snd b) <=? fst b * 10 ^ Z.of_nat (snd a))%Z.

(** No decimal number is "not a number". *)
Definition float_isnan (a : float) : bool := false.

(** A date: year, month and day, as written. *)
Definition date : Type := (string * string * string)%type.

Definition all_digits (s : string) : bool :=
  forallb (between 48 57) (list_ascii_of_string s).

(** A text cell of the form YYYY-MM-DD is a date; nothing else is. *)
Definition to_datetime (column : list cell) (x : cell) : option date :=
  match x with
  | Str s =>
      let y := substring 0 4 s in
      let m := substring 5 2 s in
      let d := substring 8 2 s in
      if Nat.eqb (String.length s) 10
         && String.eqb (substring 4 1 s) "-"
         && String.eqb (substring 7 1 s) "-"
         && all_digits y && all_digits m && all_digits d
         && mem m ["01"; "02"; "03"; "04"; "05"; "06"; "07"; "08"; "09";
                   "10"; "11"; "12"]
         && negb (String.eqb d "00")
         && String.leb d "31"
      then Some (y, m, d)
      else None
  | _ => None
  end.

(** ['%d-%m-%Y']. *)
Definition strftime (d : date) : string :=
  let '(y, m, dd) := d in dd ++ "-" ++ m ++ "-" ++ y.

(** The dtype test as pandas before 3.0 answers it for the columns of the
    examples: a column in which a text stands has dtype [object]. *)
Definition is_object (j : nat) (column : list cell) : bool :=
  existsb (fun c => match c with Str _ => true | _ => false end) column.

End Reference.

(** ** Example sheets *)

Module Examples.
Import DelayOrder.

(** A delay-order sheet whose header carries the canonical names. *)
Definition delay_header : list string := keys column_keywords.

Definition delay_row (order_no order_days : string) : list string :=
  [order_no; "V"; "G1"; "B1"; "2.5"; "Casting"; "JW"; "22";
   "2025-09-01"; "not a date"; "(5.00)"; order_days].

(** One body row whose "Order Days" cell is not a number. *)
Definition delay_na : grid := [delay_header; delay_row "1001" "N/A"].

(** Two body rows, the first with an "Order Days" among the unwanted
    values. *)
Definition delay_small : grid :=
  [delay_header; delay_row "1001" "(3.00)"; delay_row "1002" "(12.00)"].

(** What the delay-order report writes for [delay_small]. *)
Definition delay_small_out : frame cell :=
  mkFrame (keys column_keywords)
    [[Str "1002"; Str "V"; Str "G1"; Str "B1"; Str "2.5"; Str "Casting";
      Str "JW"; Str "22"; Str "01-09-2025"; NaN; Str "(5.00)";
      Str "(12.00)"]].

(** Two body rows with the same "Order Days". *)
Definition delay_ties : grid :=
  [delay_header; delay_row "1001" "(10.00)"; delay_row "1002" "(10.00)"].



(** A delay-order sheet with three recognisable labels only; no row reaches
    the threshold, row 0 is the header. *)
Definition delay_partial : grid :=
  [["Order No."; "Variant"; "Days"];
   ["1001"; "V"; "(12.00)"];
   ["1002"; "W"; "(15.00)"]].

(** A factory-out sheet under a title row, without a "Line Remark" column
    and with a grand-total row. *)
Definition factory_sheet : Sheet.grid :=
  [[Str "Trans Type :- GOODS RECEIPT NOTE"; NaN; NaN; NaN; NaN; NaN; NaN; NaN;
    NaN];
   [Str "Trans Date"; Str "Doc No"; Str "Party Name"; Str "Style No";
    Str "Variant Name"; Str "Net Wt"; Str "Wastage Perc"; Str "Pg Wt";
    Str "Pg Wastage Wt"];
   [Obj "2025-09-01 00:00:00"; Str "GRN/1"; Str "ACME"; Str "ABC-22KT-001";
    Str "V1"; Num "10.5"; Num "2.0"; Num "1.5"; Num "0.3"];
   [Str "Grand Total"; NaN; NaN; NaN; NaN; Num "10.5"; Num "2.0"; Num "1.5";
    Num "0.3"]].

(** A factory-out sheet with three of the eleven canonical names in its
    first row: no row reaches the threshold. *)
Definition factory_partial : Sheet.grid :=
  [[Str "Trans Date"; Str "Doc No"; Str "Net Wt"];
   [Str "01/09/2025"; Str "GRN/1"; Num "10.5"]].

(** A lot-rejection sheet whose header is [FIXED_COLUMNS] itself. *)
Definition lot_sheet : Sheet.grid :=
  [map Str LotRejection.FIXED_COLUMNS;
   [Str "01/09/2025"; Str "O-1"; Str "G1"; Str "Ring"; Str "22KT";
    Num "3.2"; Str "Casting"; Str "WC1"; Str "asha"; Str "porous"]].

(** A loss sheet with a total row. *)
Definition loss_sheet : Loss.grid :=
  [[Str "Monthly Loss"];
   [Str "Wc Name"; Str "Gain Pg"; Str "Issue Quantity Pg";
    Str "Loss Quantity Pg"];
   [Str "Casting"; Num "0.5"; Num "40.0"; Num "1.25"];
   [Str "Total"; Num "0.5"; Num "40.0"; Num "1.25"]].

(** A loss sheet read with its formulas. *)
Definition loss_formulas : Loss.grid :=
  [[Str "Wc Name"; Str "Issue Quantity Pg"; Str "Gain Pg"];
   [Str "Casting"; Num "40.0"; Str "=B2*0.01"];
   [NaN; Num "0"; Str ""];
   [Str "Total"; Str "=SUM(B2:B2)"; Num "0.4"]].

(** What the delay-order report writes for [delay_partial]. *)
Definition delay_partial_out : frame cell :=
  mkFrame (keys column_keywords)
    [[Str "1002"; Str "W"; Str ""; Str ""; Str ""; Str ""; Str ""; Str "";
      NaN; NaN; Str ""; Str "(15.00)"];
     [Str "1001"; Str "V"; Str ""; Str ""; Str ""; Str ""; Str ""; Str "";
      NaN; NaN; Str ""; Str "(12.00)"]].

(** What lot-rejection.py builds for [lot_sheet]. *)
Definition lot_table : frame cell :=
  mkFrame LotRejection.FIXED_COLUMNS
    [[Str "01/09/2025"; Str "O-1"; Str "G1"; Str "Ring"; Str "22KT";
      Num "3.2"; Str "Casting"; Str "WC1"; Str "asha"; Str "porous"]].

(** What factory-out.py builds for [factory_sheet]. *)
Definition factory_table : frame cell :=
  mkFrame ["Trans Date"; "Doc No"; "Party Name"; "Style No"; "Karat";
           "Variant Name"; "Net Wt"; "Wastage Perc"; "Pg Wt"; "Pg Wastage Wt"]
    [[Str "2025-09-01"; Str "GRN/1"; Str "ACME"; Str "ABC-22KT-001";
      Str "22KT"; Str "V1"; Num "10.5"; Num "2.0"; Num "1.5"; Num "0.3"]].

End Examples.

(** * Properties *)

(** ** The row scan *)

Section FirstRow.
Import Frame.
Context {A : Type} (p : list A -> bool).

Lemma first_row_some (g : list (list A)) : forall i j,
  first_row p i g = Some j ->
  exists pre row post,
    g = pre ++ row :: post /\ j = i + List.length pre /\ p row = true
    /\ Forall (fun r => p r = false) pre.
Proof.
  induction g as [|row rest IH]; intros i j H; simpl in H.
  - discriminate.
  - destruct (p row) eqn:Hp.
    + injection H as <-. exists [], row, rest. simpl.
      repeat split; auto.
    + destruct (IH _ _ H) as (pre & r & post & -> & -> & Hr & Hpre).
      exists (row :: pre), r, post. simpl.
      repeat split; auto; lia.
Qed.

Lemma first_row_none (g : list (list A)) : forall i,
  first_row p i g = None <-> Forall (fun r => p r = false) g.
Proof.
  induction g as [|row rest IH]; intros i; simpl.
  - split; auto.
  - destruct (p row) eqn:Hp.
    + split; [discriminate|]. intros H. inversion H. congruence.
    + rewrite IH. split; [now constructor|]. intros H. now inversion H.
Qed.

Lemma first_row_decide (g : list (list A)) (i : nat) :
  Forall (fun r => p r = false) g \/ exists j, first_row p i g = Some j.
Proof.
  destruct (first_row p i g) eqn:H.
  - right. eauto.
  - left. now apply first_row_none in H.
Qed.

Lemma first_row_bound (g : list (list A)) (i j : nat) :
  first_row p i g = Some j -> i <= j < i + List.length g.
Proof.
  intros H. destruct (first_row_some _ _ _ H) as (pre & r & post & -> & -> & _).
  rewrite length_app. simpl. lia.
Qed.

(** The scan returns the first row that passes, and no other. *)
Lemma first_row_first (g : list (list A)) (pre post : list (list A))
  (row : list A) (i : nat) :
  g = pre ++ row :: post -> Forall (fun r => p r = false) pre ->
  p row = true -> first_row p i g = Some (i + List.length pre).
Proof.
  intros -> Hpre. revert i. induction Hpre as [|r pre Hr _ IH]; intros i Hrow.
  - simpl. rewrite Hrow. f_equal. lia.
  - simpl. rewrite Hr, (IH (S i) Hrow). f_equal. simpl. lia.
Qed.

End FirstRow.

(** ** Karat extraction *)

Section KaratFacts.
Import Py Karat.

(** The matcher over an alphabet in which every character that matches a
    pattern character has that pattern character as its upper case: the
    matched text, in upper case, is one of the alternatives. *)
Section Normalising.
Context {char : Type}.
Variable is_word : char -> bool.
Variable ci : ascii -> char -> bool.
Variable up : char -> char.
Variable embed : ascii -> char.
Variable good : char -> Prop.
Hypothesis ci_up :
  forall pc c, good c -> pattern_char pc -> ci pc c = true -> up c = embed pc.

Lemma match_alt_upper (p : string) : forall s last g,
  Forall good s ->
  Forall pattern_char (list_ascii_of_string p) ->
  match_alt is_word ci p s last = Some g ->
  map up g = map embed (list_ascii_of_string p).
Proof.
  induction p as [|pc p IH]; intros s last g Hs Hp H; simpl in H.
  - destruct (word_boundary is_word last (hd_error s)); [|discriminate].
    now injection H as <-.
  - destruct s as [|c s]; [discriminate|].
    destruct (ci pc c) eqn:Hc; [|discriminate].
    destruct (match_alt is_word ci p s (Some c)) as [g'|] eqn:Hg;
      [|discriminate].
    injection H as <-. simpl in Hp. inversion Hp; subst. inversion Hs; subst.
    simpl. f_equal; [now apply ci_up | eauto].
Qed.

Lemma match_group_upper (alts : list string) : forall s prev g,
  Forall good s ->
  Forall (fun p => Forall pattern_char (list_ascii_of_string p)) alts ->
  match_group is_word ci alts s prev = Some g ->
  In (map up g) (map (fun p => map embed (list_ascii_of_string p)) alts).
Proof.
  induction alts as [|p alts IH]; intros s prev g Hs Ha H; simpl in H.
  - discriminate.
  - inversion Ha; subst.
    destruct (match_alt is_word ci p s prev) as [g'|] eqn:Hg.
    + injection H as <-. left. symmetry. eapply match_alt_upper; eauto.
    + right. eauto.
Qed.

Lemma karat_pattern_chars :
  Forall (fun p => Forall pattern_char (list_ascii_of_string p)) karat_pattern.
Proof.
  unfold karat_pattern, pattern_char.
  repeat (apply Forall_cons || apply Forall_nil); cbn; auto 10.
Qed.

Lemma re_search_upper (s : list char) : forall prev g,
  Forall good s ->
  re_search is_word ci prev s = Some g ->
  In (map up g)
     (map (fun p => map embed (list_ascii_of_string p)) karat_pattern).
Proof.
  assert (Hh : forall prev t g, Forall good t ->
                 match_here is_word ci prev t = Some g ->
                 In (map up g)
                    (map (fun p => map embed (list_ascii_of_string p))
                         karat_pattern)).
  { intros prev t g Ht H. unfold match_here in H.
    destruct (word_boundary is_word prev (hd_error t)); [|discriminate].
    eapply match_group_upper; eauto using karat_pattern_chars. }
  induction s as [|c s IH]; intros prev g Hs H; simpl in H.
  - destruct (match_here is_word ci prev []) eqn:Hm; [|discriminate].
    injection H as <-. eauto.
  - destruct (match_here is_word ci prev (c :: s)) eqn:Hm.
    + injection H as <-. eauto.
    + inversion Hs; subst. eauto.
Qed.

End Normalising.

Lemma ci_eqb_upper (pc c : ascii) :
  pattern_char pc -> ci_eqb pc c = true -> upper_char c = pc.
Proof.
  intros Hp.
  repeat (destruct Hp as [<-|Hp]; [|]); try contradiction;
    destruct c as [[] [] [] [] [] [] [] []]; vm_compute;
    intros H; try discriminate H; reflexivity.
Qed.

Lemma upper_list (l : list ascii) :
  upper (string_of_list_ascii l) = string_of_list_ascii (map upper_char l).
Proof.
  induction l as [|c l IH]; simpl; [reflexivity | now rewrite IH].
Qed.

(** On 8-bit text [extract_karat] returns one of exactly four strings, a
    code matched in lower or mixed case coming back in upper case; a value
    that is missing or not a text gives the empty string. *)
Lemma extract_karat_four_values (v : cell) :
  In (extract_karat v) [""; "18KT"; "22KT"; "24KT"]
  /\ ((forall s, v <> Str s) -> extract_karat v = "").
Proof.
  split.
  - destruct v as [|s|r|r]; simpl; auto.
    destruct (re_search is_word ci_eqb None (list_ascii_of_string s))
      as [g|] eqn:H; [|now left].
    right. rewrite upper_list.
    pose proof (re_search_upper is_word ci_eqb upper_char (fun c => c)
                  (fun _ => True) (fun pc c _ => ci_eqb_upper pc c)
                  (list_ascii_of_string s) None g) as Hin.
    apply (in_map string_of_list_ascii) in Hin;
      [exact Hin | apply Forall_forall; auto | exact H].
  - intros H. destruct v as [|s|r|r]; try reflexivity. now destruct (H s).
Qed.

(** *** Code points *)

Lemma code_bounded (c : ascii) : (code c < 256)%N.
Proof. apply N_ascii_bounded. Qed.

Lemma ascii_of_code (c : ascii) : ascii_of_N (code c) = c.
Proof. apply ascii_N_embedding. Qed.

Lemma code_of_ascii (n : N) : (n < 256)%N -> code (ascii_of_N n) = n.
Proof. apply N_ascii_embedding. Qed.

Lemma code_eqb (a b : ascii) : (code a =? code b)%N = Ascii.eqb a b.
Proof.
  destruct (Ascii.eqb_spec a b) as [->|Hne].
  - apply N.eqb_refl.
  - apply N.eqb_neq. intros E. apply Hne.
    now rewrite <- (ascii_of_code a), <- (ascii_of_code b), E.
Qed.

Section CodePointFacts.
Variable wide_word : N -> bool.

Lemma ci_eqb_cp_upper (pc : ascii) (n : N) :
  n <> kelvin_sign -> pattern_char pc -> ci_eqb_cp pc n = true ->
  upper_cp n = code pc.
Proof.
  intros Hk Hp. unfold ci_eqb_cp, lower_cp, upper_cp.
  apply N.eqb_neq in Hk. rewrite Hk.
  destruct (n <? 256)%N eqn:Hn.
  - rewrite code_eqb. intros H. f_equal. now apply ci_eqb_upper.
  - apply N.ltb_ge in Hn. intros H. apply N.eqb_eq in H.
    pose proof (code_bounded (lower_char pc)). lia.
Qed.

(** A text without the Kelvin sign gives one of the four codes. *)
Lemma extract_karat_text_four_values (t : list N) :
  Forall (fun n => n <> kelvin_sign) t ->
  In (extract_karat_text wide_word t) ([] :: map codes karat_pattern).
Proof.
  intros Ht. unfold extract_karat_text.
  destruct (re_search (is_word_cp wide_word) ci_eqb_cp None t) as [g|] eqn:H;
    [|now left].
  right.
  exact (re_search_upper (is_word_cp wide_word) ci_eqb_cp upper_cp code
           (fun n => n <> kelvin_sign) ci_eqb_cp_upper t None g Ht H).
Qed.

(** On 8-bit text the two readings of [extract_karat] agree. *)
Lemma is_word_cp_code (c : ascii) : is_word_cp wide_word (code c) = is_word c.
Proof.
  unfold is_word_cp. pose proof (code_bounded c) as H.
  apply N.ltb_lt in H. now rewrite H, ascii_of_code.
Qed.

Lemma ci_eqb_cp_code (p c : ascii) : ci_eqb_cp p (code c) = ci_eqb p c.
Proof.
  unfold ci_eqb_cp, lower_cp, ci_eqb. pose proof (code_bounded c) as H.
  assert (Hk : (code c =? kelvin_sign)%N = false).
  { apply N.eqb_neq. unfold kelvin_sign. lia. }
  apply N.ltb_lt in H. now rewrite Hk, H, ascii_of_code, code_eqb.
Qed.

Lemma upper_cp_code (c : ascii) : upper_cp (code c) = code (upper_char c).
Proof.
  unfold upper_cp. pose proof (code_bounded c) as H.
  apply N.ltb_lt in H. now rewrite H, ascii_of_code.
Qed.

Lemma word_boundary_code (a b : option ascii) :
  word_boundary (is_word_cp wide_word) (option_map code a) (option_map code b)
  = word_boundary is_word a b.
Proof.
  unfold word_boundary, word_opt.
  destruct a, b; simpl; now rewrite ?is_word_cp_code.
Qed.

Lemma hd_error_map {A B : Type} (f : A -> B) (l : list A) :
  hd_error (map f l) = option_map f (hd_error l).
Proof. now destruct l. Qed.

Lemma match_alt_code (p : string) : forall s last,
  match_alt (is_word_cp wide_word) ci_eqb_cp p (map code s)
            (option_map code last)
  = option_map (map code) (match_alt is_word ci_eqb p s last).
Proof.
  induction p as [|pc p IH]; intros s last; simpl.
  - rewrite hd_error_map, word_boundary_code.
    now destruct (word_boundary is_word last (hd_error s)).
  - destruct s as [|c s]; simpl; [reflexivity|].
    rewrite ci_eqb_cp_code. destruct (ci_eqb pc c); [|reflexivity].
    specialize (IH s (Some c)). simpl in IH. rewrite IH.
    now destruct (match_alt is_word ci_eqb p s (Some c)).
Qed.

Lemma match_group_code (alts : list string) : forall s prev,
  match_group (is_word_cp wide_word) ci_eqb_cp alts (map code s)
              (option_map code prev)
  = option_map (map code) (match_group is_word ci_eqb alts s prev).
Proof.
  induction alts as [|p alts IH]; intros s prev; simpl; [reflexivity|].
  rewrite match_alt_code.
  destruct (match_alt is_word ci_eqb p s prev); simpl; [reflexivity | apply IH].
Qed.

Lemma re_search_code (s : list ascii) : forall prev,
  re_search (is_word_cp wide_word) ci_eqb_cp (option_map code prev)
            (map code s)
  = option_map (map code) (re_search is_word ci_eqb prev s).
Proof.
  assert (Hh : forall prev t,
             match_here (is_word_cp wide_word) ci_eqb_cp
                        (option_map code prev) (map code t)
             = option_map (map code) (match_here is_word ci_eqb prev t)).
  { intros prev t. unfold match_here.
    rewrite hd_error_map, word_boundary_code, match_group_code.
    now destruct (word_boundary is_word prev (hd_error t)). }
  induction s as [|c s IH]; intros prev.
  - specialize (Hh prev []). cbn [re_search map] in *. rewrite Hh.
    now destruct (match_here is_word ci_eqb prev []).
  - specialize (Hh prev (c :: s)). cbn [re_search map] in *. rewrite Hh.
    destruct (match_here is_word ci_eqb prev (c :: s)); [reflexivity|].
    exact (IH (Some c)).
Qed.

Lemma extract_karat_text_codes (s : string) :
  extract_karat_text wide_word (codes s) = codes (extract_karat (Str s)).
Proof.
  unfold extract_karat_text, extract_karat, codes.
  pose proof (re_search_code (list_ascii_of_string s) None) as E.
  cbn [option_map] in E. rewrite E. clear E.
  destruct (re_search is_word ci_eqb None (list_ascii_of_string s)) as [g|];
    simpl; [|reflexivity].
  rewrite upper_list, list_ascii_of_string_of_list_ascii, !map_map.
  apply map_ext. intros c. apply upper_cp_code.
Qed.

End CodePointFacts.

End KaratFacts.


(** C10.  [extract_karat] is total, and gives the empty string for a value
    that is missing or not a text, but its result is not always one of the
    four strings: the style code made of "2", "2", the Kelvin sign U+212A and
    "T" matches the pattern 22KT, since the Kelvin sign lowercases to "k",
    and comes back as it is, since the Kelvin sign is its own upper case; the
    result is none of the empty string, "18KT", "22KT" and "24KT". *)
Theorem extract_karat_kelvin_sign_not_normalised (wide_word : N -> bool) :
  Karat.extract_karat_text wide_word [50; 50; Karat.kelvin_sign; 84]%N
  = [50; 50; Karat.kelvin_sign; 84]%N
  /\ Karat.codes "22KT" = [50; 50; 75; 84]%N
  /\ ~ In (Karat.extract_karat_text wide_word
             [50; 50; Karat.kelvin_sign; 84]%N)
          ([] :: map Karat.codes Karat.karat_pattern).
Proof.
  split; [reflexivity|]. split; [reflexivity|].
  intros H. vm_compute in H.
  repeat (destruct H as [H|H]; [discriminate|]). exact H.
Qed.

(** ** Header detection *)

Section HeaderDetection.
Import Py Frame.

(** [find_header_row] of factory-out.py and lot-rejection.py returns the
    index of the first row in which enough canonical columns are found. *)
Lemma find_header_row_first (FIXED : list string)
  (pre post : Sheet.grid) (row : list cell) :
  Forall (fun r => Sheet.qualifies FIXED r = false) pre ->
  Sheet.qualifies FIXED row = true ->
  Sheet.find_header_row FIXED (pre ++ row :: post) = List.length pre.
Proof.
  intros Hpre Hrow. unfold Sheet.find_header_row.
  now rewrite (first_row_first _ _ pre post row 0 eq_refl Hpre Hrow).
Qed.

Lemma find_header_row_fallback (FIXED : list string) (g : Sheet.grid) :
  Forall (fun r => Sheet.qualifies FIXED r = false) g ->
  Sheet.find_header_row FIXED g = 0.
Proof.
  intros H. unfold Sheet.find_header_row.
  now rewrite (proj2 (first_row_none _ g 0) H).
Qed.

Lemma find_header_row_lt (FIXED : list string) (g : Sheet.grid) :
  0 < List.length g -> Sheet.find_header_row FIXED g < List.length g.
Proof.
  intros Hg. unfold Sheet.find_header_row.
  destruct (first_row _ 0 g) eqn:H; [|exact Hg].
  apply first_row_bound in H. lia.
Qed.

(** The delay-order scan returns the first row whose score reaches the
    threshold. *)
Lemma header_row_index_first (sc : DelayOrder.schema)
  (pre post : DelayOrder.grid) (row : list string) :
  Forall (fun r => DelayOrder.qualifies sc r = false) pre ->
  DelayOrder.qualifies sc row = true ->
  DelayOrder.header_row_index sc (pre ++ row :: post) = (List.length pre, []).
Proof.
  intros Hpre Hrow. unfold DelayOrder.header_row_index.
  now rewrite (first_row_first _ _ pre post row 0 eq_refl Hpre Hrow).
Qed.

Lemma header_row_index_lt (sc : DelayOrder.schema) (g : DelayOrder.grid) :
  0 < List.length g ->
  fst (DelayOrder.header_row_index sc g) < List.length g.
Proof.
  intros Hg. unfold DelayOrder.header_row_index.
  destruct (first_row _ 0 g) eqn:H; simpl; [|exact Hg].
  apply first_row_bound in H. lia.
Qed.

End HeaderDetection.

(** C1.  The delay-order detector does not count canonical columns: it adds
    one for every pair of a cell and a canonical column that hit.  A title row
    of six cells that each hold the word "date" hits one canonical column
    only (Order Date), yet scores 6, reaches the threshold 6 and is returned
    as header row 0, ahead of the true header in row 1. *)
Theorem delay_header_counts_cell_column_pairs :
  let title := ["Report Date"; "From Date"; "To Date"; "Print Date";
                "Due Date"; "Date"] in
  let header := DelayOrder.keys DelayOrder.column_keywords in
  let g := [title; header] in
  DelayOrder.threshold DelayOrder.column_keywords = 6
  /\ DelayOrder.spec_columns_hit DelayOrder.column_keywords title = 1
  /\ DelayOrder.matches DelayOrder.column_keywords title = 6
  /\ DelayOrder.spec_columns_hit DelayOrder.column_keywords header = 12
  /\ DelayOrder.header_row_index DelayOrder.column_keywords g = (0, []).
Proof. vm_compute. repeat split. Qed.

(** C8, as stated, fails on the grid with no rows: the detectors return 0,
    which is the index of no row, and the delay-order run then raises on
    [df.iloc[0]]. *)
Lemma header_index_invalid_on_empty_grid :
  FactoryOut.find_header_row [] = 0
  /\ fst (DelayOrder.header_row_index DelayOrder.column_keywords []) = 0
  /\ ~ (FactoryOut.find_header_row [] < List.length (@nil (list cell)))
  /\ DelayOrder.reconcile DelayOrder.column_keywords [] = Error "IndexError".
Proof. vm_compute. repeat split. intros H. inversion H. Qed.

(** C8, amended.  For every grid with at least one row, the header-row
    detector of each tool returns the index of an existing row; the fallback
    value 0 is then a valid index too. *)
Theorem header_index_in_bounds (sc : DelayOrder.schema) (g : DelayOrder.grid)
  (FIXED : list string) (s : Sheet.grid) :
  0 < List.length g -> 0 < List.length s ->
  fst (DelayOrder.header_row_index sc g) < List.length g
  /\ Sheet.find_header_row FIXED s < List.length s
  /\ FactoryOut.find_header_row s < List.length s
  /\ LotRejection.find_header_row s < List.length s.
Proof.
  intros Hg Hs. repeat split.
  - now apply header_row_index_lt.
  - now apply find_header_row_lt.
  - now apply find_header_row_lt.
  - now apply find_header_row_lt.
Qed.

Lemma header_index_in_bounds_witness :
  fst (DelayOrder.header_row_index DelayOrder.column_keywords
         [["Report"]; ["x"]]) < 2
  /\ Sheet.find_header_row ["Wt"] [[NaN]; [Str "Wt"]] < 2
  /\ FactoryOut.find_header_row [[NaN]; [Str "Wt"]] < 2
  /\ LotRejection.find_header_row [[NaN]; [Str "Wt"]] < 2.
Proof.
  apply (header_index_in_bounds DelayOrder.column_keywords
           [["Report"]; ["x"]] ["Wt"] [[NaN]; [Str "Wt"]]); simpl; lia.
Defined.

(** ** Frames: labels, blank fill and selection *)

Section FrameFacts.
Import Py Frame.

Lemma mem_In (x : string) (l : list string) : mem x l = true <-> In x l.
Proof.
  unfold mem. rewrite existsb_exists. split.
  - intros (y & Hy & E). apply String.eqb_eq in E. now subst.
  - intros H. exists x. split; [exact H | apply String.eqb_refl].
Qed.

Lemma mem_false (x : string) (l : list string) :
  mem x l = false <-> ~ In x l.
Proof.
  rewrite <- mem_In. destruct (mem x l); split; congruence.
Qed.

(** Blank fill appends, without repetition, the canonical names that are
    not labels yet, and a blank cell per appended name to every row. *)
Lemma ensure_columns_spec (ks : list string) : forall df : frame string,
  exists extra,
    columns (DelayOrder.ensure_columns ks df) = columns df ++ extra
    /\ rows (DelayOrder.ensure_columns ks df)
       = map (fun r => r ++ repeat "" (List.length extra)) (rows df)
    /\ NoDup extra
    /\ (forall k, In k extra -> In k ks /\ ~ In k (columns df))
    /\ (forall k, In k ks -> In k (columns df ++ extra)).
Proof.
  induction ks as [|k ks IH]; intros df; simpl.
  - exists []. rewrite app_nil_r. repeat split; try easy.
    + rewrite <- (map_id (rows df)) at 1. apply map_ext.
      intros r. simpl. now rewrite app_nil_r.
    + constructor.
  - destruct (mem k (columns df)) eqn:Hk.
    + destruct (IH df) as (extra & Hc & Hr & Hnd & Hin & Hall).
      exists extra. repeat split; auto.
      * right. now apply Hin.
      * now apply Hin.
      * intros k' [<-|Hk']; [|now apply Hall].
        apply in_or_app. left. now apply mem_In.
    + apply mem_false in Hk.
      destruct (IH (add_column k "" df)) as (extra & Hc & Hr & Hnd & Hin & Hall).
      simpl in *. exists (k :: extra). repeat split.
      * now rewrite Hc, <- app_assoc.
      * rewrite Hr, map_map. apply map_ext. intros r.
        now rewrite <- app_assoc.
      * constructor; [|exact Hnd]. intros Hke.
        apply Hin in Hke. destruct Hke as [_ Hke]. apply Hke.
        apply in_or_app. right. now left.
      * destruct H as [<-|H]; [now left|]. right. now apply Hin.
      * destruct H as [<-|H]; [exact Hk|].
        intros Hc'. apply Hin in H. destruct H as [_ H]. apply H.
        apply in_or_app. now left.
      * intros k' [<-|Hk'].
        -- apply in_or_app. right. now left.
        -- specialize (Hall _ Hk'). rewrite <- app_assoc in Hall. exact Hall.
Qed.

Lemma positions_count (k : string) (cols : list string) : forall i,
  List.length (positions k i cols) = count_occ string_dec cols k.
Proof.
  induction cols as [|c cols IH]; intros i; simpl; [reflexivity|].
  destruct (string_dec c k) as [->|Hne].
  - rewrite String.eqb_refl. simpl. now rewrite IH.
  - destruct (String.eqb k c) eqn:E; [|apply IH].
    apply String.eqb_eq in E. congruence.
Qed.

Lemma positions_nth (k : string) (cols : list string) : forall i j,
  In j (positions k i cols) ->
  i <= j /\ nth_error cols (j - i) = Some k.
Proof.
  induction cols as [|c cols IH]; intros i j H; simpl in H; [easy|].
  destruct (String.eqb k c) eqn:E.
  - destruct H as [<-|H].
    + apply String.eqb_eq in E. subst. rewrite Nat.sub_diag. now split.
    + apply IH in H. destruct H as [Hle Hn]. split; [lia|].
      replace (j - i) with (S (j - S i)) by lia. exact Hn.
  - apply IH in H. destruct H as [Hle Hn]. split; [lia|].
    replace (j - i) with (S (j - S i)) by lia. exact Hn.
Qed.

(** A label carried by exactly one column is selected as that column. *)
Lemma positions_single (k : string) (cols : list string) :
  count_occ string_dec cols k = 1 ->
  exists j, positions k 0 cols = [j] /\ nth_error cols j = Some k.
Proof.
  intros H. rewrite <- (positions_count k cols 0) in H.
  destruct (positions k 0 cols) as [|j [|? ?]] eqn:E; try discriminate.
  exists j. split; [reflexivity|].
  destruct (positions_nth k cols 0 j) as [_ Hn]; [rewrite E; now left|].
  now rewrite Nat.sub_0_r in Hn.
Qed.

(** Selecting labels that each name exactly one column gives exactly those
    labels, in the order asked for. *)
Lemma select_single_columns {A : Type} (blank : A) (labels : list string)
  (df : frame A) :
  (forall k, In k labels -> count_occ string_dec (columns df) k = 1) ->
  exists idxs,
    select blank labels df
    = Ok (mkFrame labels (map (fun r => map (fun i => nth i r blank) idxs)
                              (rows df)))
    /\ Forall2 (fun k i => nth_error (columns df) i = Some k) labels idxs.
Proof.
  intros H. unfold select.
  assert (Hmem : forallb (fun k => mem k (columns df)) labels = true).
  { apply forallb_forall. intros k Hk. apply mem_In.
    apply (count_occ_In string_dec). rewrite (H k Hk). lia. }
  rewrite Hmem. clear Hmem.
  exists (flat_map (fun k => positions k 0 (columns df)) labels).
  assert (HF : Forall2 (fun k i => nth_error (columns df) i = Some k) labels
                 (flat_map (fun k => positions k 0 (columns df)) labels)).
  { induction labels as [|k labels IH]; simpl; [constructor|].
    destruct (positions_single k (columns df)) as (j & -> & Hj).
    { apply H. now left. }
    simpl. constructor; [exact Hj|]. apply IH. intros k' Hk'. apply H.
    now right. }
  split; [|exact HF]. do 2 f_equal. clear H.
  induction HF as [|k i ks js Hi _ IH]; simpl; [reflexivity|].
  f_equal; [|exact IH]. now apply nth_error_nth.
Qed.

End FrameFacts.

(** ** The delay-order report: columns of the reconciled table *)

Section DelayReconcile.
Import Py Frame DelayOrder.
Variable sc : schema.

Lemma in_skipn {A : Type} (x : A) (n : nat) (l : list A) :
  In x (skipn n l) -> In x l.
Proof.
  intros H. rewrite <- (firstn_skipn n l). apply in_or_app. now right.
Qed.

Lemma nth_blank_fill (r : list string) (n i : nat) :
  List.length r <= i -> nth i (r ++ repeat "" n) "" = "".
Proof.
  intros H. rewrite app_nth2 by exact H.
  generalize (i - List.length r). clear. induction n as [|n IH]; intros [|j]; simpl; auto.
Qed.

(** Lines 52-70, when no two labels of the header map to the same canonical
    name and the grid is rectangular: the table has exactly the canonical
    columns, in schema order, and a canonical column that no label maps to
    is blank in every row. *)
Lemma reconcile_columns (g : grid) (hdr : list string) :
  nth_error g (fst (header_row_index sc g)) = Some hdr ->
  NoDup (keys sc) ->
  (forall k, In k (keys sc) ->
             count_occ string_dec (map (map_column sc) hdr) k <= 1) ->
  Forall (fun r => List.length r = List.length hdr) g ->
  exists df,
    reconcile sc g = Ok df
    /\ columns df = keys sc
    /\ Forall (fun r => List.length r = List.length (keys sc)) (rows df)
    /\ (forall q k, nth_error (keys sc) q = Some k ->
                    ~ In k (map (map_column sc) hdr) ->
                    Forall (fun r => nth_error r q = Some "") (rows df)).
Proof.
  intros Hh Hnd Hcount Hrect. unfold reconcile. rewrite Hh.
  set (new_columns := map (map_column sc) hdr) in *.
  set (body := skipn (S (fst (header_row_index sc g))) g).
  destruct (ensure_columns_spec (keys sc) (mkFrame new_columns body))
    as (extra & Hc & Hr & Hex & Hin & Hall).
  simpl in Hc, Hr, Hin, Hall.
  assert (Hone : forall k, In k (keys sc) ->
            count_occ string_dec
              (columns (ensure_columns (keys sc) (mkFrame new_columns body))) k
            = 1).
  { intros k Hk. rewrite Hc, count_occ_app.
    destruct (in_dec string_dec k new_columns) as [Hi|Hi].
    - assert (count_occ string_dec extra k = 0).
      { apply count_occ_not_In. intros He. now apply Hin in He. }
      apply (count_occ_In string_dec) in Hi. specialize (Hcount k Hk). lia.
    - assert (count_occ string_dec new_columns k = 0)
        by now apply count_occ_not_In.
      assert (In k extra).
      { specialize (Hall k Hk). apply in_app_or in Hall. tauto. }
      assert (count_occ string_dec extra k <= 1)
        by now apply (proj1 (NoDup_count_occ string_dec extra)).
      assert (count_occ string_dec extra k > 0)
        by now apply (count_occ_In string_dec).
      lia. }
  destruct (select_single_columns "" (keys sc) _ Hone) as (idxs & Hsel & HF).
  rewrite Hsel, Hr. eexists. split; [reflexivity|]. simpl.
  split; [reflexivity|]. rewrite Hc in HF. split.
  - rewrite map_map. apply Forall_forall. intros r Hr'.
    apply in_map_iff in Hr'. destruct Hr' as (r0 & <- & _).
    rewrite length_map. symmetry. exact (Forall2_length HF).
  - intros q k Hq Hk. rewrite map_map. apply Forall_forall. intros r Hr'.
    apply in_map_iff in Hr'. destruct Hr' as (r0 & <- & Hr0).
    assert (Hlen : List.length r0 = List.length new_columns).
    { unfold new_columns. rewrite length_map.
      rewrite Forall_forall in Hrect. apply Hrect.
      unfold body in Hr0. eapply in_skipn; eauto. }
    clear - HF Hq Hk Hlen. revert q Hq.
    induction HF as [|k' i ks js Hi _ IH]; intros q Hq.
    + destruct q; discriminate.
    + destruct q as [|q]; simpl in *.
      * injection Hq as ->. f_equal. apply nth_blank_fill.
        rewrite Hlen. destruct (Nat.le_gt_cases (List.length new_columns) i) as [Hle|Hgt]; [exact Hle|].
        exfalso. apply Hk. rewrite nth_error_app1 in Hi by exact Hgt.
        eapply nth_error_In; eauto.
      * now apply IH.
Qed.

End DelayReconcile.

(** ** Header not found *)

Section HeaderNotFound.
Import Py Frame.

(** Once a header row exists, lines 52-70 of the delay-order report never
    raise: every canonical name is a label after the blank fill. *)
Lemma reconcile_ok (sc : DelayOrder.schema) (g : DelayOrder.grid) :
  0 < List.length g ->
  exists df, DelayOrder.reconcile sc g = Ok df.
Proof.
  intros Hg. unfold DelayOrder.reconcile.
  destruct (nth_error g (fst (DelayOrder.header_row_index sc g))) as [hdr|] eqn:Hh.
  - unfold select.
    match goal with |- context [DelayOrder.ensure_columns ?ks ?df] =>
      destruct (ensure_columns_spec ks df) as (extra & Hc & _ & _ & _ & Hall)
    end.
    match goal with |- context [forallb ?f ?l] =>
      assert (E : forallb f l = true)
    end.
    { apply forallb_forall. intros k Hk. apply mem_In. rewrite Hc.
      now apply Hall. }
    rewrite E. eauto.
  - apply nth_error_None in Hh.
    pose proof (header_row_index_lt sc g Hg). lia.
Qed.

End HeaderNotFound.

(** C3, as stated, fails on the loss report: a sheet without a "Wc Name"
    cell ends the run with an exception and no output. *)
Lemma loss_header_not_found_is_fatal :
  Loss.process_excel [[Str "Monthly Loss"]; [Str "Dept"; Str "Issue Qty"];
                      [Str "Casting"; Num "12.5"]]
  = Error "Could not find header row with 'Wc Name'".
Proof. reflexivity. Qed.

(** ** The delay-order report: sorting *)

Section DelaySort.
Import Py Frame DelayOrder.
Context {float : Type}.
Variable float_of_str : string -> option float.
Variable float_le : float -> float -> bool.
Variable float_isnan : float -> bool.

Lemma astype_float_spec (l : list string) : forall ks,
  astype_float float_of_str l = Ok ks ->
  Forall2 (fun x k => sort_key float_of_str x = Some k) l ks.
Proof.
  induction l as [|x l IH]; intros ks H; simpl in H.
  - injection H as <-. constructor.
  - destruct (sort_key float_of_str x) as [k|] eqn:Hk; [|discriminate].
    destruct (astype_float float_of_str l) as [ks'|] eqn:Hl; [|discriminate].
    simpl in H. injection H as <-. constructor; auto.
Qed.

(** One cell that does not parse is enough for [astype(float)] to raise. *)
Lemma astype_float_error (l : list string) (x : string) :
  In x l -> sort_key float_of_str x = None ->
  astype_float float_of_str l = Error "ValueError".
Proof.
  induction l as [|y l IH]; intros Hin Hx; [easy|]. simpl.
  destruct Hin as [->|Hin].
  - now rewrite Hx.
  - destruct (sort_key float_of_str y); [|reflexivity].
    now rewrite (IH Hin Hx).
Qed.

Lemma combine_keys (rs : list (list string)) (f : list string -> string) :
  forall ks,
  Forall2 (fun x k => sort_key float_of_str x = Some k) (map f rs) ks ->
  map snd (combine ks rs) = rs
  /\ Forall (fun kr => sort_key float_of_str (f (snd kr)) = Some (fst kr))
            (combine ks rs).
Proof.
  induction rs as [|r rs IH]; intros ks H; inversion H; subst; simpl.
  - split; constructor.
  - destruct (IH _ H4) as [E F]. split; [now rewrite E | now constructor].
Qed.


(** The stable sort meets what [sort_values] promises, as soon as the order
    on keys is total. *)
Lemma insert_desc_perm (x : float * list string) (l : list (float * list string)) :
  Permutation (x :: l) (insert_desc float_le float_isnan x l).
Proof.
  induction l as [|y l IH]; simpl; [reflexivity|].
  destruct (sorts_first float_le float_isnan (fst x) (fst y)); [reflexivity|].
  rewrite perm_swap. now constructor.
Qed.

Lemma stable_sort_desc_perm (l : list (float * list string)) :
  Permutation l (stable_sort_desc float_le float_isnan l).
Proof.
  induction l as [|x l IH]; simpl; [constructor|].
  rewrite <- insert_desc_perm. now constructor.
Qed.

Lemma insert_desc_sorted (x : float * list string) (l : list (float * list string)) :
  (forall a b, sorts_first float_le float_isnan a b = false -> sorts_first float_le float_isnan b a = true) ->
  (forall a b c, sorts_first float_le float_isnan a b = true -> sorts_first float_le float_isnan b c = true ->
                 sorts_first float_le float_isnan a c = true) ->
  StronglySorted (fun a b => sorts_first float_le float_isnan (fst a) (fst b) = true) l ->
  StronglySorted (fun a b => sorts_first float_le float_isnan (fst a) (fst b) = true)
                 (insert_desc float_le float_isnan x l).
Proof.
  intros Htot Htr. induction 1 as [|y l Hs IH Hy]; simpl.
  - repeat constructor.
  - destruct (sorts_first float_le float_isnan (fst x) (fst y)) eqn:E.
    + constructor; [now constructor|]. constructor; [exact E|].
      eapply Forall_impl; [|exact Hy]. intros z Hz. simpl in Hz. eauto.
    + constructor; [exact IH|].
      eapply Permutation_Forall; [apply insert_desc_perm|].
      constructor; [now apply Htot | exact Hy].
Qed.

Lemma stable_sort_desc_meets_sort_values (l : list (float * list string)) :
  (forall a b, sorts_first float_le float_isnan a b = false -> sorts_first float_le float_isnan b a = true) ->
  (forall a b c, sorts_first float_le float_isnan a b = true -> sorts_first float_le float_isnan b c = true ->
                 sorts_first float_le float_isnan a c = true) ->
  sort_values float_le float_isnan l (stable_sort_desc float_le float_isnan l).
Proof.
  intros Htot Htr. split; [apply stable_sort_desc_perm|].
  induction l as [|x l IH]; simpl; [constructor|].
  now apply insert_desc_sorted.
Qed.

(** What [body] returns: the reconciled table has a row and one "Order
    Days" column, and the frame is what the two filters leave of it. *)
Lemma body_inv (g : grid) (df : frame string) (ks : list float) :
  body float_of_str g = Ok (df, ks) ->
  exists df0 i,
    reconcile column_keywords g = Ok df0
    /\ rows df0 <> []
    /\ series_loc "Order Days" df0 = Ok i
    /\ df = mkFrame (columns df0)
              (filter (fun row => negb (mem (nth i row "") unwanted_values))
                 (filter (fun row =>
                            negb (existsb
                                    (fun x => contains "grand total" (lower x))
                                    row))
                         (rows df0)))
    /\ astype_float float_of_str (map (fun r => nth i r "") (rows df)) = Ok ks.
Proof.
  unfold body.
  destruct (reconcile column_keywords g) as [df0|m]; cbn [bind];
    [|discriminate].
  unfold filter_order_days, drop_grand_total.
  destruct (rows df0) as [|r0 rs0] eqn:Er; cbn [columns rows];
    [cbn [positions]; discriminate|].
  destruct (positions "Order Days" 0 (columns df0)) as [|i [|? ?]] eqn:Ep;
    cbn [bind]; try discriminate.
  unfold series_loc at 1. cbn [columns]. rewrite Ep. cbn [bind rows].
  match goal with |- context [astype_float float_of_str ?l] =>
    destruct (astype_float float_of_str l) as [ks'|m'] eqn:Hks end;
    cbn [bind]; [|discriminate].
  intros H. injection H as <- <-. exists df0, i.
  split; [reflexivity|]. split; [rewrite Er; discriminate|].
  split; [unfold series_loc; now rewrite Ep|].
  rewrite Er. split; [reflexivity | exact Hks].
Qed.

End DelaySort.

(** ** The delay-order report: parse failures *)

Section DelayDates.
Import Py Frame DelayOrder.
Context {date : Type}.
Variable to_datetime : list cell -> cell -> option date.
Variable strftime : date -> string.

Lemma set_nth_length {A : Type} (i : nat) (x : A) (r : list A) :
  List.length (set_nth i x r) = List.length r.
Proof.
  revert i. induction r as [|y r IH]; intros [|i]; simpl; auto.
Qed.

Lemma set_nth_other {A : Type} (i q : nat) (x : A) (r : list A) :
  q <> i -> nth_error (set_nth i x r) q = nth_error r q.
Proof.
  revert i q. induction r as [|y r IH]; intros [|i] [|q] H; simpl; auto.
  congruence.
Qed.

Lemma set_nth_same {A : Type} (i : nat) (x : A) (r : list A) :
  i < List.length r -> nth_error (set_nth i x r) i = Some x.
Proof.
  revert i. induction r as [|y r IH]; intros [|i] H; simpl in *; auto; try lia.
  apply IH. lia.
Qed.

(** Line 88 raises for no cell value: whatever does not parse becomes a
    missing value in its own cell, the other cells of the column and the
    other columns are as they were. *)
Lemma format_date_cell_local (col : string) (df : frame cell) (i : nat) :
  series_loc col df = Ok i ->
  exists df',
    format_date to_datetime strftime col df = Ok df'
    /\ columns df' = columns df
    /\ Forall2 (fun r r' =>
                  List.length r' = List.length r
                  /\ (forall q, q <> i -> nth_error r' q = nth_error r q)
                  /\ (to_datetime (map (fun r => nth i r NaN) (rows df))
                        (nth i r NaN) = None ->
                      i < List.length r -> nth_error r' i = Some NaN))
               (rows df) (rows df').
Proof.
  intros Hi. unfold format_date. rewrite Hi. simpl.
  eexists. split; [reflexivity|]. simpl. split; [reflexivity|].
  generalize (map (fun r => nth i r NaN) (rows df)) as column. intros column.
  induction (rows df) as [|r rs IH]; simpl; constructor; auto.
  repeat split.
  - apply set_nth_length.
  - intros q Hq. now apply set_nth_other.
  - intros Hnone Hlt. rewrite Hnone. now apply set_nth_same.
Qed.

End DelayDates.

(** C5.  The numeric conversion of line 81 is not cell-local: a body row
    whose "Order Days" cell is the text "N/A" makes [astype(float)] raise, and
    the whole run ends with that error instead of a table. *)
Theorem unparseable_order_days_aborts_run {float date : Type}
  (float_of_str : string -> option float)
  (float_le : float -> float -> bool) (float_isnan : float -> bool)
  (to_datetime : list cell -> cell -> option date)
  (strftime : date -> string) :
  float_of_str "N/A" = None ->
  DelayOrder.body float_of_str Examples.delay_na = Error "ValueError"
  /\ forall out,
       DelayOrder.delay_report float_of_str float_le float_isnan to_datetime strftime
         Examples.delay_na out ->
       out = Error "ValueError".
Proof.
  intros H.
  assert (E : DelayOrder.body float_of_str Examples.delay_na
              = Error "ValueError").
  { cbv. now rewrite H. }
  split; [exact E|]. intros out. unfold DelayOrder.delay_report.
  now rewrite E.
Qed.

Lemma unparseable_order_days_aborts_run_witness :
  DelayOrder.body Reference.float_of_str Examples.delay_na
  = Error "ValueError"
  /\ forall out,
       DelayOrder.delay_report Reference.float_of_str Reference.float_le Reference.float_isnan
         Reference.to_datetime Reference.strftime Examples.delay_na out ->
       out = Error "ValueError".
Proof.
  apply (unparseable_order_days_aborts_run Reference.float_of_str
           Reference.float_le Reference.float_isnan Reference.to_datetime Reference.strftime).
  reflexivity.
Defined.

(** ** The delay-order report: the written table *)

Section DelayOutput.
Import Py Frame DelayOrder.
Context {float date : Type}.
Variable float_of_str : string -> option float.
Variable float_le : float -> float -> bool.
Variable float_isnan : float -> bool.
Variable to_datetime : list cell -> cell -> option date.
Variable strftime : date -> string.

Lemma Forall2_in_r {A B : Type} (R : A -> B -> Prop) (l : list A) (l' : list B) :
  Forall2 R l l' -> forall y, In y l' -> exists x, In x l /\ R x y.
Proof.
  induction 1 as [|x y l l' Hxy _ IH]; intros z Hz; [easy|].
  destruct Hz as [<-|Hz].
  - exists x. split; [now left | exact Hxy].
  - destruct (IH z Hz) as (x' & Hx' & Hr). exists x'. split; [now right | exact Hr].
Qed.

(** Every row of a written table comes from a row of the reconciled table;
    columns are those of the reconciled table. *)
Lemma delay_report_inv (g : grid) (out : frame cell) :
  delay_report float_of_str float_le float_isnan to_datetime strftime g (Ok out) ->
  exists df0 rows1,
    reconcile column_keywords g = Ok df0
    /\ (forall r, In r rows1 -> In r (rows df0))
    /\ format_dates to_datetime strftime (mkFrame (columns df0) rows1) = Ok out.
Proof.
  unfold delay_report.
  destruct (body float_of_str g) as [[df ks]|m] eqn:Hb; [|discriminate].
  destruct (body_inv _ _ _ _ Hb) as (df0 & i & Hrec & _ & _ & -> & _).
  intros (sorted & [Hperm _] & Hout). cbn [columns rows] in *.
  exists df0, (map snd sorted). split; [exact Hrec|]. split; [|now symmetry].
  intros r Hr. apply in_map_iff in Hr. destruct Hr as ([k r'] & <- & Hin).
  apply (Permutation_in _ (Permutation_sym Hperm)) in Hin.
  apply in_combine_r in Hin. apply filter_In in Hin. destruct Hin as [Hin _].
  cbn [snd]. apply filter_In in Hin. tauto.
Qed.

Hypothesis blank_is_no_date :
  forall column c, blank_cell c -> to_datetime column c = None.

Lemma format_date_blank (col : string) (df df' : frame cell) :
  format_date to_datetime strftime col df = Ok df' ->
  columns df' = columns df
  /\ Forall2 (fun r r' =>
                List.length r' = List.length r
                /\ forall q, blank_at q r -> blank_at q r')
             (rows df) (rows df').
Proof.
  intros H.
  destruct (series_loc col df) as [i|m] eqn:Hi;
    [|unfold format_date in H; rewrite Hi in H; discriminate].
  destruct (format_date_cell_local to_datetime strftime col df i Hi)
    as (df'' & E & Hc & HF).
  rewrite E in H. injection H as <-. split; [exact Hc|].
  eapply Forall2_impl; [|exact HF]. simpl.
  intros r r' (Hlen & Hother & Hnone). split; [exact Hlen|].
  intros q (c & Hq & Hb). destruct (Nat.eq_dec q i) as [->|Hne].
  - exists NaN. split; [|now right]. apply Hnone.
    + rewrite (nth_error_nth _ _ NaN Hq). now apply blank_is_no_date.
    + apply nth_error_Some. congruence.
  - exists c. split; [|exact Hb]. now rewrite Hother.
Qed.

Lemma format_dates_blank (df : frame string) (out : frame cell) :
  format_dates to_datetime strftime df = Ok out ->
  columns out = columns df
  /\ forall r', In r' (rows out) ->
       exists r, In r (rows df)
                 /\ List.length r' = List.length r
                 /\ forall q, nth_error r q = Some "" -> blank_at q r'.
Proof.
  unfold format_dates. intros H.
  destruct (format_date to_datetime strftime "Shipment Date" _) as [df1|m] eqn:H1;
    simpl in H; [|discriminate].
  apply format_date_blank in H1. apply format_date_blank in H.
  destruct H1 as [C1 F1]. destruct H as [C2 F2]. simpl in C1, F1.
  split; [congruence|]. intros r' Hr'.
  destruct (Forall2_in_r _ _ _ F2 r' Hr') as (r1 & Hr1 & L2 & B2).
  destruct (Forall2_in_r _ _ _ F1 r1 Hr1) as (r0 & Hr0 & L1 & B1).
  apply in_map_iff in Hr0. destruct Hr0 as (r & <- & Hr).
  exists r. split; [exact Hr|]. split.
  - rewrite L2, L1. apply length_map.
  - intros q Hq. apply B2, B1. exists (Str ""). split; [|now left].
    now rewrite nth_error_map, Hq.
Qed.

End DelayOutput.

(** ** factory-out and lot-rejection: the columns of the table *)

Section SheetColumns.
Import Py Frame Sheet.

Lemma positions_labels (k : string) (cols : list string) : forall pre,
  map (fun j => nth j (pre ++ cols) "") (positions k (List.length pre) cols)
  = repeat k (count_occ string_dec cols k).
Proof.
  induction cols as [|c cols IH]; intros pre; simpl; [reflexivity|].
  specialize (IH (pre ++ [c])). rewrite length_app, <- app_assoc in IH.
  simpl in IH. rewrite Nat.add_1_r in IH.
  destruct (string_dec c k) as [->|Hne].
  - rewrite String.eqb_refl. simpl. rewrite IH. f_equal.
    now rewrite app_nth2, Nat.sub_diag by lia.
  - destruct (String.eqb k c) eqn:E; [|exact IH].
    apply String.eqb_eq in E. congruence.
Qed.

(** [df[labels]] carries every label as many times as [df] does. *)
Lemma select_columns {A : Type} (blank : A) (labels : list string)
  (df df' : frame A) :
  select blank labels df = Ok df' ->
  columns df'
  = flat_map (fun k => repeat k (count_occ string_dec (columns df) k)) labels
  /\ List.length (rows df') = List.length (rows df).
Proof.
  unfold select. destruct (forallb _ labels); [|discriminate].
  intros H. injection H as <-. simpl. split; [|apply length_map].
  induction labels as [|k labels IH]; simpl; [reflexivity|].
  rewrite map_app, IH. f_equal. exact (positions_labels k (columns df) []).
Qed.

Lemma flat_repeat_nodup (n : string -> nat) (labels : list string) :
  (forall k, In k labels -> 1 <= n k) ->
  NoDup (flat_map (fun k => repeat k (n k)) labels) ->
  flat_map (fun k => repeat k (n k)) labels = labels.
Proof.
  induction labels as [|k labels IH]; simpl; intros Hn Hd; [reflexivity|].
  assert (Hk : 1 <= n k) by (apply Hn; now left).
  destruct (n k) as [|[|m]] eqn:E; [lia| |].
  - simpl in *. f_equal. apply IH; [intros; apply Hn; now right|].
    now inversion Hd.
  - simpl in Hd. inversion Hd as [|? ? Hni _]; subst. exfalso. apply Hni.
    now left.
Qed.

Lemma nodup_length_le (l : list string) :
  List.length (nodup string_dec l) <= List.length l.
Proof.
  induction l as [|x l IH]; simpl; [lia|].
  destruct (in_dec string_dec x l); simpl; lia.
Qed.

Lemma has_dup_false (l : list string) : has_dup l = false -> NoDup l.
Proof.
  unfold has_dup. intros H. apply negb_false_iff, Nat.eqb_eq in H.
  induction l as [|x l IH]; [constructor|]. simpl in H.
  pose proof (nodup_length_le l).
  destruct (in_dec string_dec x l) as [Hin|Hni]; simpl in H; [lia|].
  constructor; [exact Hni|]. apply IH. lia.
Qed.

Lemma clean_columns (is_object : nat -> list cell -> bool) (df df' : frame cell) :
  clean is_object df = Ok df' ->
  columns df' = columns df /\ NoDup (columns df).
Proof.
  unfold clean. destruct (has_dup (columns df)) eqn:Hd; [discriminate|].
  destruct (columns df) as [|c cs] eqn:E; [discriminate|].
  intros H. injection H as <-. simpl. split; [reflexivity|].
  now apply has_dup_false.
Qed.

(** Cell [q] of a row after lines 203-205. *)
Lemma strip_row_nth (is_object : nat -> list cell -> bool) (rs : list (list cell))
  (r : list cell) : forall j q,
  nth_error (strip_row is_object rs j r) q
  = option_map (fun c => if is_object (j + q) (column_values (j + q) rs)
                         then strip_cell c else c)
               (nth_error r q).
Proof.
  induction r as [|c r IH]; intros j q; [now destruct q|].
  destruct q as [|q]; cbn [strip_row nth_error option_map].
  - now rewrite Nat.add_0_r.
  - rewrite IH. now rewrite Nat.add_succ_comm.
Qed.

(** Stripping changes nothing in a row without white space around its
    texts, whatever the dtypes. *)
Lemma strip_row_fixed (is_object : nat -> list cell -> bool) (rs : list (list cell))
  (r : list cell) : forall j,
  Forall (fun c => strip_cell c = c) r -> strip_row is_object rs j r = r.
Proof.
  induction r as [|c r IH]; intros j H; [reflexivity|].
  inversion H as [|? ? Hc Hr]; subst. cbn [strip_row].
  rewrite (IH (S j) Hr). destruct (is_object _ _); [now rewrite Hc | reflexivity].
Qed.

Lemma clean_stripped (is_object : nat -> list cell -> bool) (df : frame cell) :
  Forall (Forall (fun c => strip_cell c = c)) (rows df) ->
  clean is_object df = clean (fun _ _ => false) df.
Proof.
  intros H. unfold clean.
  assert (E : forall f, map (strip_row f (rows df) 0) (rows df) = rows df).
  { intros f. rewrite <- (map_id (rows df)) at 3. apply map_ext_in.
    intros r Hr. apply strip_row_fixed.
    exact (proj1 (Forall_forall _ _) H r Hr). }
  now rewrite !E.
Qed.

End SheetColumns.

(** Evaluates the steps before [clean] on a closed sheet, then [clean] on a
    frame whose texts are stripped already. *)
Ltac run_table :=
  cbv zeta;
  repeat (match goal with
          | |- context [bind ?a _] =>
              let x := fresh "x" in set (x := a); vm_compute in x; subst x
          end; cbn [bind]);
  rewrite clean_stripped by (vm_compute; repeat constructor);
  vm_compute.

Section FactoryColumns.
Import Py Frame Sheet FactoryOut.

Lemma positions_absent (k : string) (cols : list string) :
  ~ In k cols -> forall n, positions k n cols = [].
Proof.
  induction cols as [|c cols IH]; intros H n; simpl; [reflexivity|].
  destruct (String.eqb k c) eqn:E.
  - apply String.eqb_eq in E. subst. exfalso. apply H. now left.
  - apply IH. intros Hc. apply H. now right.
Qed.

(** The derived column goes right after "Style No", where [FIXED_COLUMNS]
    has it. *)
Lemma add_karat_columns (p : string -> bool) (d1 d2 : frame cell) :
  columns d1
  = filter (fun col => p col && negb (String.eqb col "Karat")) FIXED_COLUMNS ->
  add_karat d1 = Ok d2 ->
  columns d2
  = filter (fun col => if String.eqb col "Karat" then p "Style No" else p col)
           FIXED_COLUMNS.
Proof.
  intros Hc H. unfold add_karat, series_loc in H. rewrite Hc in H.
  unfold FIXED_COLUMNS in *.
  remember ["Variant Name"; "Net Wt"; "Wastage Perc"; "Pg Wt";
            "Pg Wastage Wt"; "Line Remark"] as post eqn:Hpost.
  set (q := fun col => p col && negb (String.eqb col "Karat")) in *.
  assert (Hni : ~ In "Style No" (filter q post)).
  { intros Hi. apply filter_In in Hi. destruct Hi as [Hi _]. subst post.
    simpl in Hi. repeat (destruct Hi as [Hi|Hi]; [discriminate|]). exact Hi. }
  assert (Hmem : existsb (String.eqb "Style No") (filter q post) = false)
    by now apply mem_false.
  pose proof (positions_absent _ _ Hni) as Hpos.
  assert (Hpost' :
    filter (fun col => if String.eqb col "Karat" then p "Style No" else p col)
           post = filter q post).
  { apply filter_ext_in. intros c Hin. subst post. unfold q. simpl in Hin.
    repeat (destruct Hin as [<-|Hin]; [simpl; now rewrite andb_true_r|]).
    destruct Hin. }
  unfold mem in H. simpl in Hc, H |- *. rewrite Hpost'. subst q. simpl in *.
  rewrite !andb_true_r, ?andb_false_r in *.
  destruct (p "Trans Date"), (p "Doc No"), (p "Party Name"), (p "Style No");
    simpl in H; rewrite ?Hmem, ?Hpos in H; simpl in H; injection H as <-;
    simpl; (exact Hc || reflexivity).
Qed.

Lemma add_karat_nodup (d1 d2 : frame cell) :
  add_karat d1 = Ok d2 -> NoDup (columns d2) -> NoDup (columns d1).
Proof.
  unfold add_karat. destruct (mem "Style No" (columns d1)).
  - destruct (series_loc "Style No" d1) as [i|]; cbn [bind]; [|discriminate].
    intros H. injection H as <-. cbn [columns]. intros Hd.
    apply NoDup_remove_1 in Hd.
    change (NoDup (firstn (S i) (columns d1) ++ skipn (S i) (columns d1))) in Hd.
    now rewrite firstn_skipn in Hd.
  - intros H. now injection H as <-.
Qed.

Lemma clean_dates_columns (d2 d3 : frame cell) :
  clean_dates d2 = Ok d3 -> columns d3 = columns d2.
Proof.
  unfold clean_dates. destruct (mem "Trans Date" (columns d2)).
  - destruct (series_loc "Trans Date" d2); simpl; [|discriminate].
    intros H. now injection H as <-.
  - intros H. now injection H as <-.
Qed.

(** The table of factory-out.py holds the canonical columns that are
    [kept], in the order of [FIXED_COLUMNS], and nothing else. *)
Lemma process_body_columns (is_object : nat -> list cell -> bool) (s : grid)
  (df : frame cell) :
  process_body is_object s = Ok df ->
  columns df = filter (kept (columns (renamed FIXED_COLUMNS s))) FIXED_COLUMNS.
Proof.
  unfold process_body, read_body. set (R := renamed FIXED_COLUMNS s).
  destruct (select NaN (available_cols R) R) as [d1|] eqn:H1; cbn [bind];
    [|discriminate].
  destruct (add_karat d1) as [d2|] eqn:H2; cbn [bind]; [|discriminate].
  destruct (clean_dates d2) as [d3|] eqn:H3; cbn [bind]; [|discriminate].
  intros H4. apply clean_columns in H4. destruct H4 as [C4 Hnd].
  apply clean_dates_columns in H3. rewrite H3 in *.
  pose proof (add_karat_nodup _ _ H2 Hnd) as Hnd1.
  apply select_columns in H1. destruct H1 as [C1 _].
  rewrite C1 in Hnd1. rewrite flat_repeat_nodup in C1; [| |exact Hnd1].
  - rewrite C4.
    exact (add_karat_columns (fun c => mem c (columns R)) d1 d2 C1 H2).
  - intros k Hk. apply filter_In in Hk. destruct Hk as [_ Hk].
    apply andb_true_iff in Hk. destruct Hk as [Hk _]. apply mem_In in Hk.
    now apply (count_occ_In string_dec).
Qed.

End FactoryColumns.

Section LotColumns.
Import Py Frame Sheet LotRejection.

Lemma lot_process_body_columns (is_object : nat -> list cell -> bool) (s : grid)
  (df : frame cell) :
  process_body is_object s = Ok df ->
  columns df
  = filter (fun col => mem col (columns (renamed FIXED_COLUMNS s)))
           FIXED_COLUMNS.
Proof.
  unfold process_body, read_body. set (R := renamed FIXED_COLUMNS s).
  destruct (select NaN (available_cols R) R) as [d1|] eqn:H1; cbn [bind];
    [|discriminate].
  intros H2. apply clean_columns in H2. destruct H2 as [C2 Hnd].
  apply select_columns in H1. destruct H1 as [C1 _].
  rewrite C1 in Hnd. rewrite flat_repeat_nodup in C1; [| |exact Hnd].
  - now rewrite C2, C1.
  - intros k Hk. apply filter_In in Hk. destruct Hk as [_ Hk].
    apply mem_In in Hk. now apply (count_occ_In string_dec).
Qed.

End LotColumns.

(** The example sheets hold no text with white space around it: their
    tables are the same whatever dtype pandas gives the columns. *)
Lemma factory_sheet_body (is_object : nat -> list cell -> bool) :
  FactoryOut.process_body is_object Examples.factory_sheet
  = Ok Examples.factory_table.
Proof.
  unfold FactoryOut.process_body, FactoryOut.read_body.
  run_table. reflexivity.
Qed.

Lemma lot_sheet_body (is_object : nat -> list cell -> bool) :
  LotRejection.process_body is_object Examples.lot_sheet
  = Ok Examples.lot_table.
Proof.
  unfold LotRejection.process_body, LotRejection.read_body.
  run_table. reflexivity.
Qed.

(** C2, as stated, fails on factory-out.py: a sheet without a "Line Remark"
    column gives a table of ten columns, "Line Remark" not among them. *)
Lemma factory_table_lacks_unmatched_column :
  (forall is_object,
     fst (FactoryOut.process_excel is_object Examples.factory_sheet)
     = Examples.factory_table)
  /\ columns Examples.factory_table <> FactoryOut.FIXED_COLUMNS
  /\ In "Line Remark" FactoryOut.FIXED_COLUMNS
  /\ ~ In "Line Remark" (columns Examples.factory_table).
Proof.
  split.
  { intros is_object. unfold FactoryOut.process_excel.
    now rewrite factory_sheet_body. }
  split; [discriminate|]. split.
  - simpl. tauto.
  - simpl. intros H. repeat (destruct H as [H|H]; [discriminate|]). exact H.
Qed.

(** C2, amended.  Delay-order report: whenever a table is written, no two
    labels of the header map to the same canonical name and the grid is
    rectangular, the table has exactly the canonical columns in schema order,
    and a canonical column that no label maps to is blank in every row.
    factory-out.py and lot-rejection.py: the table holds, in schema order,
    only the canonical columns that some source label maps to (and in
    factory-out.py the derived "Karat" whenever "Style No" is there); a
    canonical column without a source column is left out, not blank-filled. *)
Theorem reconciled_columns {float date : Type}
  (float_of_str : string -> option float)
  (float_le : float -> float -> bool) (float_isnan : float -> bool)
  (to_datetime : list cell -> cell -> option date)
  (strftime : date -> string)
  (is_object : nat -> list cell -> bool)
  (g : DelayOrder.grid) (hdr : list string) (out : frame cell)
  (s : Sheet.grid) (df : frame cell) (s' : Sheet.grid) (df' : frame cell) :
  (forall column c, DelayOrder.blank_cell c -> to_datetime column c = None) ->
  nth_error g (fst (DelayOrder.header_row_index DelayOrder.column_keywords g))
  = Some hdr ->
  (forall k, In k (DelayOrder.keys DelayOrder.column_keywords) ->
     count_occ string_dec
       (map (DelayOrder.map_column DelayOrder.column_keywords) hdr) k <= 1) ->
  Forall (fun r => List.length r = List.length hdr) g ->
  DelayOrder.delay_report float_of_str float_le float_isnan to_datetime strftime g
    (Ok out) ->
  FactoryOut.process_body is_object s = Ok df ->
  LotRejection.process_body is_object s' = Ok df' ->
  (columns out = DelayOrder.keys DelayOrder.column_keywords
   /\ Forall (fun r => List.length r = 12) (rows out)
   /\ forall q k,
        nth_error (DelayOrder.keys DelayOrder.column_keywords) q = Some k ->
        ~ In k (map (DelayOrder.map_column DelayOrder.column_keywords) hdr) ->
        Forall (DelayOrder.blank_at q) (rows out))
  /\ (columns df
      = filter (FactoryOut.kept
                  (columns (Sheet.renamed FactoryOut.FIXED_COLUMNS s)))
               FactoryOut.FIXED_COLUMNS
      /\ forall col,
           col <> "Karat" ->
           ~ In col (columns (Sheet.renamed FactoryOut.FIXED_COLUMNS s)) ->
           ~ In col (columns df))
  /\ (columns df'
      = filter (fun col =>
                  Py.mem col
                    (columns (Sheet.renamed LotRejection.FIXED_COLUMNS s')))
               LotRejection.FIXED_COLUMNS
      /\ forall col,
           ~ In col (columns (Sheet.renamed LotRejection.FIXED_COLUMNS s')) ->
           ~ In col (columns df')).
Proof.
  intros Hblank Hh Hcount Hrect Hrep Hf Hl. split; [|split].
  - destruct (delay_report_inv _ _ _ _ _ _ _ Hrep) as (df0 & rows1 & Hrec & Hin & Hfmt).
    destruct (reconcile_columns DelayOrder.column_keywords g hdr Hh)
      as (df0' & Hrec' & Hc & Hlen & Hb); auto.
    { unfold DelayOrder.keys, DelayOrder.column_keywords. simpl.
      repeat constructor; simpl; intros H;
        repeat (destruct H as [H|H]; [discriminate|]); exact H. }
    rewrite Hrec in Hrec'. injection Hrec' as <-.
    destruct (format_dates_blank to_datetime strftime Hblank _ _ Hfmt)
      as [Hco Hrows]. simpl in Hco, Hrows.
    rewrite Forall_forall in Hlen. split; [congruence|]. split.
    + apply Forall_forall. intros r' Hr'.
      destruct (Hrows r' Hr') as (r & Hr & Hl' & _). rewrite Hl'.
      now apply Hlen, Hin.
    + intros q k Hq Hk. apply Forall_forall. intros r' Hr'.
      destruct (Hrows r' Hr') as (r & Hr & _ & Hbl). apply Hbl.
      specialize (Hb q k Hq Hk). rewrite Forall_forall in Hb.
      now apply Hb, Hin.
  - pose proof (process_body_columns is_object s df Hf) as Hc. split; [exact Hc|].
    intros col Hk Hni Hin. rewrite Hc in Hin. apply filter_In in Hin.
    destruct Hin as [_ Hin]. unfold FactoryOut.kept in Hin.
    destruct (String.eqb col "Karat") eqn:E.
    + apply String.eqb_eq in E. contradiction.
    + apply mem_In in Hin. contradiction.
  - pose proof (lot_process_body_columns is_object s' df' Hl) as Hc. split; [exact Hc|].
    intros col Hni Hin. rewrite Hc in Hin. apply filter_In in Hin.
    destruct Hin as [_ Hin]. apply mem_In in Hin. contradiction.
Qed.

Lemma reconciled_columns_witness :
  (columns Examples.delay_partial_out
   = DelayOrder.keys DelayOrder.column_keywords
   /\ Forall (fun r => List.length r = 12) (rows Examples.delay_partial_out)
   /\ forall q k,
        nth_error (DelayOrder.keys DelayOrder.column_keywords) q = Some k ->
        ~ In k (map (DelayOrder.map_column DelayOrder.column_keywords)
                    ["Order No."; "Variant"; "Days"]) ->
        Forall (DelayOrder.blank_at q) (rows Examples.delay_partial_out))
  /\ (columns Examples.factory_table
      = filter (FactoryOut.kept
                  (columns (Sheet.renamed FactoryOut.FIXED_COLUMNS
                              Examples.factory_sheet)))
               FactoryOut.FIXED_COLUMNS
      /\ forall col,
           col <> "Karat" ->
           ~ In col (columns (Sheet.renamed FactoryOut.FIXED_COLUMNS
                                 Examples.factory_sheet)) ->
           ~ In col (columns Examples.factory_table))
  /\ (columns Examples.lot_table
      = filter (fun col =>
                  Py.mem col
                    (columns (Sheet.renamed LotRejection.FIXED_COLUMNS
                                Examples.lot_sheet)))
               LotRejection.FIXED_COLUMNS
      /\ forall col,
           ~ In col (columns (Sheet.renamed LotRejection.FIXED_COLUMNS
                                 Examples.lot_sheet)) ->
           ~ In col (columns Examples.lot_table)).
Proof.
  apply (reconciled_columns Reference.float_of_str Reference.float_le Reference.float_isnan
           Reference.to_datetime Reference.strftime Reference.is_object
           Examples.delay_partial ["Order No."; "Variant"; "Days"]
           Examples.delay_partial_out
           Examples.factory_sheet Examples.factory_table
           Examples.lot_sheet Examples.lot_table).
  - intros column c [->| ->]; reflexivity.
  - reflexivity.
  - intros k Hk. simpl in Hk.
    repeat (destruct Hk as [<-|Hk]; [vm_compute; lia|]). destruct Hk.
  - repeat constructor.
  - unfold DelayOrder.delay_report.
    set (b := DelayOrder.body Reference.float_of_str Examples.delay_partial).
    vm_compute in b. subst b. cbv beta iota.
    eexists. split; [split; [apply perm_swap|]|].
    + repeat constructor.
    + reflexivity.
  - reflexivity.
  - reflexivity.
Defined.

(** ** A header that is the schema itself *)

Section ExactHeader.
Import Py Frame.

Lemma nth_error_firstn_skipn {A : Type} (l : list A) (n : nat) (a : A) :
  nth_error l n = Some a ->
  l = firstn n l ++ a :: skipn (S n) l /\ List.length (firstn n l) = n.
Proof.
  revert n. induction l as [|x l IH]; intros [|n] H; simpl in *;
    try discriminate.
  - injection H as <-. now split.
  - destruct (IH n H) as [E L]. split; [now rewrite <- E | now rewrite L].
Qed.

Lemma map_nth_seq {A : Type} (d : A) (r : list A) : forall pre,
  map (fun i => nth i (pre ++ r) d) (seq (List.length pre) (List.length r)) = r.
Proof.
  induction r as [|x r IH]; intros pre; simpl; [reflexivity|].
  rewrite app_nth2, Nat.sub_diag by lia. simpl. f_equal.
  specialize (IH (pre ++ [x])). rewrite length_app, <- app_assoc in IH.
  simpl in IH. now rewrite Nat.add_1_r in IH.
Qed.

Lemma rows_by_position {A : Type} (d : A) (n : nat) (body : list (list A)) :
  Forall (fun r => List.length r = n) body ->
  map (fun r => map (fun i => nth i r d) (seq 0 n)) body = body.
Proof.
  intros H. rewrite <- (map_id body) at 2. apply map_ext_in. intros r Hr.
  rewrite Forall_forall in H. rewrite <- (H r Hr).
  exact (map_nth_seq d r []).
Qed.

(** Lines 52-70 of the delay-order report on a header that is the list of
    canonical names: labels map to themselves, nothing is filled in, the
    selection takes the columns where they are. *)
Lemma delay_exact_frame (body : list (list string)) :
  Forall (fun r => List.length r = 12) body ->
  select "" (DelayOrder.keys DelayOrder.column_keywords)
    (DelayOrder.ensure_columns (DelayOrder.keys DelayOrder.column_keywords)
       (mkFrame (map (DelayOrder.map_column DelayOrder.column_keywords)
                     (DelayOrder.keys DelayOrder.column_keywords)) body))
  = Ok (mkFrame (DelayOrder.keys DelayOrder.column_keywords) body).
Proof.
  intros H.
  match goal with |- ?lhs = _ =>
    assert (E : lhs = Ok (mkFrame (DelayOrder.keys DelayOrder.column_keywords)
                            (map (fun r => map (fun i => nth i r "") (seq 0 12))
                                 body)))
      by (vm_compute; reflexivity)
  end.
  now rewrite E, rows_by_position.
Qed.

(** Lines 61-85 of lot-rejection.py on a header that is [FIXED_COLUMNS]. *)
Lemma lot_exact_frame (h : nat) (s : Sheet.grid) :
  Sheet.find_header_row LotRejection.FIXED_COLUMNS s = h ->
  nth_error s h = Some (map Str LotRejection.FIXED_COLUMNS) ->
  Forall (fun r => List.length r = 10) (skipn (S h) s) ->
  select NaN
    (LotRejection.available_cols (Sheet.renamed LotRejection.FIXED_COLUMNS s))
    (Sheet.renamed LotRejection.FIXED_COLUMNS s)
  = Ok (mkFrame LotRejection.FIXED_COLUMNS (skipn (S h) s)).
Proof.
  intros Hf Hn Hb.
  assert (E : Sheet.renamed LotRejection.FIXED_COLUMNS s
              = mkFrame LotRejection.FIXED_COLUMNS (skipn (S h) s)).
  { unfold Sheet.renamed, Sheet.read_excel_header. rewrite Hf.
    rewrite (nth_error_nth _ _ [] Hn). reflexivity. }
  rewrite E. generalize dependent (skipn (S h) s). intros body Hb _.
  match goal with |- ?lhs = _ =>
    assert (E : lhs = Ok (mkFrame LotRejection.FIXED_COLUMNS
                            (map (fun r => map (fun i => nth i r NaN) (seq 0 10))
                                 body)))
      by (vm_compute; reflexivity)
  end.
  now rewrite E, rows_by_position.
Qed.

End ExactHeader.

(** C7, as stated, fails on the delay-order report: under a header that is
    the schema itself, the body row whose "Order Days" is "(3.00)" is removed
    by the unwanted-values filter and the dates of the other row are
    rewritten, so the written table has one row where the sheet has two. *)
Lemma exact_header_body_rows_not_preserved :
  nth_error Examples.delay_small 0
  = Some (DelayOrder.keys DelayOrder.column_keywords)
  /\ skipn 1 Examples.delay_small
     = [Examples.delay_row "1001" "(3.00)"; Examples.delay_row "1002" "(12.00)"]
  /\ DelayOrder.delay_report Reference.float_of_str Reference.float_le Reference.float_isnan
       Reference.to_datetime Reference.strftime Examples.delay_small
       (Ok Examples.delay_small_out)
  /\ (forall out,
        DelayOrder.delay_report Reference.float_of_str Reference.float_le Reference.float_isnan
          Reference.to_datetime Reference.strftime Examples.delay_small out ->
        out = Ok Examples.delay_small_out)
  /\ List.length (rows Examples.delay_small_out) = 1.
Proof.
  split; [reflexivity|]. split; [reflexivity|].
  unfold DelayOrder.delay_report.
  set (b := DelayOrder.body Reference.float_of_str Examples.delay_small).
  vm_compute in b. subst b. cbv beta iota. split; [|split; [|reflexivity]].
  - eexists. split; [split; [reflexivity | repeat constructor] | reflexivity].
  - intros out (sorted & [Hp _] & ->).
    apply Permutation_length_1_inv in Hp. now subst sorted.
Qed.

(** C7, amended.  For a grid whose header row, the first row to meet the
    threshold, carries exactly the canonical names in schema order, the
    column mapping and reordering stage (lines 52-70 of the delay-order
    report, lines 61-85 of lot-rejection.py) returns the rows below the
    header unchanged in content and in order.  The row filters, the sort and
    the value clean-up that follow may still remove, reorder or rewrite
    rows. *)
Theorem exact_header_column_stage_is_identity
  (g : DelayOrder.grid) (h : nat) (s : Sheet.grid) (h' : nat) :
  nth_error g h = Some (DelayOrder.keys DelayOrder.column_keywords) ->
  Forall (fun r => DelayOrder.qualifies DelayOrder.column_keywords r = false)
         (firstn h g) ->
  Forall (fun r => List.length r = 12) (skipn (S h) g) ->
  nth_error s h' = Some (map Str LotRejection.FIXED_COLUMNS) ->
  Forall (fun r => Sheet.qualifies LotRejection.FIXED_COLUMNS r = false)
         (firstn h' s) ->
  Forall (fun r => List.length r = 10) (skipn (S h') s) ->
  DelayOrder.reconcile DelayOrder.column_keywords g
  = Ok (mkFrame (DelayOrder.keys DelayOrder.column_keywords) (skipn (S h) g))
  /\ Frame.select NaN
       (LotRejection.available_cols
          (Sheet.renamed LotRejection.FIXED_COLUMNS s))
       (Sheet.renamed LotRejection.FIXED_COLUMNS s)
     = Ok (mkFrame LotRejection.FIXED_COLUMNS (skipn (S h') s)).
Proof.
  intros Hn Hpre Hbody Hn' Hpre' Hbody'. split.
  - destruct (nth_error_firstn_skipn g h _ Hn) as [Eg Lg].
    assert (Hidx : DelayOrder.header_row_index DelayOrder.column_keywords g
                   = (h, [])).
    { unfold DelayOrder.header_row_index.
      rewrite (first_row_first _ g _ _ _ 0 Eg Hpre); [|reflexivity].
      now rewrite Lg. }
    unfold DelayOrder.reconcile. rewrite Hidx. cbn [fst]. rewrite Hn.
    now apply delay_exact_frame.
  - destruct (nth_error_firstn_skipn s h' _ Hn') as [Es Ls].
    apply lot_exact_frame; auto.
    rewrite Es at 1. rewrite find_header_row_first; auto.
Qed.

Lemma exact_header_column_stage_is_identity_witness :
  DelayOrder.reconcile DelayOrder.column_keywords Examples.delay_ties
  = Ok (mkFrame (DelayOrder.keys DelayOrder.column_keywords)
          (skipn 1 Examples.delay_ties))
  /\ Frame.select NaN
       (LotRejection.available_cols
          (Sheet.renamed LotRejection.FIXED_COLUMNS Examples.lot_sheet))
       (Sheet.renamed LotRejection.FIXED_COLUMNS Examples.lot_sheet)
     = Ok (mkFrame LotRejection.FIXED_COLUMNS (skipn 1 Examples.lot_sheet)).
Proof.
  apply (exact_header_column_stage_is_identity Examples.delay_ties 0
           Examples.lot_sheet 0).
  - reflexivity.
  - constructor.
  - repeat constructor.
  - reflexivity.
  - constructor.
  - repeat constructor.
Defined.

(** ** The grand-total row *)

Section Footer.
Import Py Frame.

(** factory-out.py and lot-rejection.py: the cell written in column [j] of
    the grand-total row is cell [j] of the raw row, whatever source column
    the table's column [j] was read from. *)
Lemma grand_total_cells_by_position (ncols : nat) (row : list cell) (j : nat) :
  j < ncols ->
  nth_error (Sheet.grand_total_cells ncols row) j
  = Some (if Nat.ltb j (List.length row)
          then Sheet.safe_write_cell (nth j row NaN) else Str "").
Proof.
  intros H. unfold Sheet.grand_total_cells.
  rewrite nth_error_map, nth_error_nth' with (d := 0) by now rewrite length_seq.
  now rewrite seq_nth.
Qed.

(** loss.py: a total row and a data row read the cell of a canonical column
    from the same source column, the one [col_index_map] gives. *)
Lemma loss_total_row_follows_mapping (hs : list string) (n : nat)
  (old_row : list cell) :
  Loss.is_total_row old_row = true ->
  Loss.write_row hs n old_row
  = map (fun col_name =>
           match Loss.source_cell hs old_row col_name with
           | Some c => Loss.stored c
           | None => Loss.Unset
           end) Loss.required_columns.
Proof.
  intros H. unfold Loss.write_row. now rewrite H.
Qed.

End Footer.

(** C4.  factory-out.py writes the grand-total row by position in the raw
    row, not through the column mapping.  In the example sheet "Net Wt" is
    source column 5 and, "Karat" being inserted before it, column 6 of the
    table: the body value under "Net Wt" is the one of source column 5, the
    footer value under "Net Wt" is the one of source column 6 (the "Wastage
    Perc" total), and the "Net Wt" total lands under "Variant Name". *)
Theorem factory_footer_written_by_position :
  (forall is_object,
     FactoryOut.report is_object Examples.factory_sheet
     = Some (Examples.factory_table,
             Some [Str "Grand Total"; Str ""; Str ""; Str ""; Str "";
                   Num "10.5"; Num "2.0"; Num "1.5"; Num "0.3"; Str ""]))
  /\ nth_error (nth 1 Examples.factory_sheet []) 5 = Some (Str "Net Wt")
  /\ nth_error (nth 2 Examples.factory_sheet []) 5 = Some (Num "10.5")
  /\ nth_error (nth 3 Examples.factory_sheet []) 5 = Some (Num "10.5")
  /\ nth_error (nth 3 Examples.factory_sheet []) 6 = Some (Num "2.0")
  /\ nth_error (columns Examples.factory_table) 6 = Some "Net Wt"
  /\ nth_error (nth 0 (rows Examples.factory_table) []) 6 = Some (Num "10.5")
  /\ nth_error (Sheet.grand_total_cells 10 (nth 3 Examples.factory_sheet [])) 6
     = Some (Num "2.0")
  /\ nth_error (columns Examples.factory_table) 5 = Some "Variant Name"
  /\ nth_error (Sheet.grand_total_cells 10 (nth 3 Examples.factory_sheet [])) 5
     = Some (Num "10.5").
Proof.
  split; [|repeat split].
  intros is_object. unfold FactoryOut.report, FactoryOut.process_excel.
  now rewrite factory_sheet_body.
Qed.

(** loss.py on the example sheet: "Issue Quantity Pg" is source column 2 and
    column 1 of the output; the data row and the total row both show the
    value of source column 2 there. *)
Lemma loss_total_row_example :
  Loss.process_excel Examples.loss_sheet
  = Ok [[Loss.Value (Str "Casting"); Loss.Rounded (Num "40.0"); Loss.Unset;
         Loss.Unset; Loss.Unset; Loss.Unset; Loss.Rounded (Num "1.25");
         Loss.Rounded (Num "0.5"); Loss.Formula "=G5+H5";
         Loss.Formula "=I5/(C5+D5+E5+F5)"];
        [Loss.Value (Str "Total"); Loss.Value (Num "40.0"); Loss.Unset;
         Loss.Unset; Loss.Unset; Loss.Unset; Loss.Value (Num "1.25");
         Loss.Value (Num "0.5"); Loss.Unset; Loss.Unset]].
Proof. reflexivity. Qed.

(** ** Column labels of the second read *)

Section Labels.
Import Sheet.

Lemma length_append (a b : string) :
  String.length (a ++ b) = String.length a + String.length b.
Proof.
  induction a as [|c a IH]; simpl; [reflexivity | now rewrite IH].
Qed.

Lemma filter_length_lt {A : Type} (p q : A -> bool) (l : list A) (x : A) :
  (forall a, q a = true -> p a = true) ->
  In x l -> p x = true -> q x = false ->
  List.length (filter q l) < List.length (filter p l).
Proof.
  intros Hqp Hin Hp Hq.
  assert (Hle : forall l', List.length (filter q l')
                           <= List.length (filter p l')).
  { induction l' as [|a l' IH]; simpl; [lia|].
    destruct (q a) eqn:Ea; [rewrite (Hqp a Ea); simpl; lia|].
    destruct (p a); simpl; lia. }
  induction l as [|a l IH]; [easy|]. simpl. destruct Hin as [->|Hin].
  - rewrite Hp, Hq. simpl. specialize (Hle l). lia.
  - specialize (IH Hin). destruct (q a) eqn:Ea.
    + rewrite (Hqp a Ea). simpl. lia.
    + destruct (p a); simpl; lia.
Qed.

Lemma count_of_in (counts : list (string * nat)) (col : string) (k : nat) :
  count_of counts col = S k -> exists e, In e counts /\ fst e = col.
Proof.
  unfold count_of.
  destruct (find (fun e => String.eqb (fst e) col) counts) as [[c n]|] eqn:E;
    [|discriminate].
  intros _. apply find_some in E. destruct E as [Hin Heq].
  apply String.eqb_eq in Heq. eauto.
Qed.

(** The fuel of [mangle] is never what stops it: with more fuel than there
    are labels on record at least as long as [col], the label returned is
    one that is not on record, as when the loop of pandas ends. *)
Lemma mangle_fresh (fuel : nat) : forall counts col,
  List.length
    (filter (fun e => Nat.leb (String.length col) (String.length (fst e)))
            counts) < fuel ->
  count_of counts (fst (mangle fuel counts col)) = 0.
Proof.
  induction fuel as [|fuel IH]; intros counts col Hm; [lia|].
  simpl. destruct (count_of counts col) as [|k] eqn:E; [exact E|].
  set (col' := (col ++ "." ++ string_of_nat (S k))%string).
  assert (Hlen : String.length col < String.length col').
  { unfold col'. rewrite !length_append. simpl. lia. }
  specialize (IH ((col, S (S k)) :: counts) col').
  assert (Hfresh : count_of ((col, S (S k)) :: counts)
                     (fst (mangle fuel ((col, S (S k)) :: counts) col')) = 0).
  { apply IH. simpl.
    destruct (Nat.leb_spec (String.length col') (String.length col)); [lia|].
    destruct (count_of_in _ _ _ E) as (e & Hin & He).
    pose proof (filter_length_lt
      (fun e => Nat.leb (String.length col) (String.length (fst e)))
      (fun e => Nat.leb (String.length col') (String.length (fst e)))
      counts e) as Hlt.
    assert (List.length
              (filter (fun e => Nat.leb (String.length col')
                                        (String.length (fst e))) counts)
            < List.length
              (filter (fun e => Nat.leb (String.length col)
                                        (String.length (fst e))) counts)).
    { apply Hlt; auto.
      - intros a Ha. apply Nat.leb_le in Ha. apply Nat.leb_le. lia.
      - rewrite He. apply Nat.leb_refl.
      - rewrite He. apply Nat.leb_gt. lia. }
    lia. }
  unfold count_of in Hfresh |- *. simpl in Hfresh.
  destruct (String.eqb col
              (fst (mangle fuel ((col, S (S k)) :: counts) col'))) eqn:Ec;
    [discriminate Hfresh | exact Hfresh].
Qed.

Lemma dedup_fuel_enough (counts : list (string * nat)) (col : string) :
  count_of counts (fst (mangle (S (List.length counts)) counts col)) = 0.
Proof.
  apply mangle_fresh.
  pose proof (filter_length_le
    (fun e => Nat.leb (String.length col) (String.length (fst e))) counts).
  lia.
Qed.

End Labels.

(** ** The delay-order report always has an outcome *)

(** With a total, transitive order on keys, every sheet has a written table
    or an error: the relation [delay_report] is never empty. *)
Lemma delay_report_has_outcome {float date : Type}
  (float_of_str : string -> option float)
  (float_le : float -> float -> bool) (float_isnan : float -> bool)
  (to_datetime : list cell -> cell -> option date)
  (strftime : date -> string) (g : DelayOrder.grid) :
  (forall a b, DelayOrder.sorts_first float_le float_isnan a b = false -> DelayOrder.sorts_first float_le float_isnan b a = true) ->
  (forall a b c, DelayOrder.sorts_first float_le float_isnan a b = true -> DelayOrder.sorts_first float_le float_isnan b c = true ->
                 DelayOrder.sorts_first float_le float_isnan a c = true) ->
  exists out,
    DelayOrder.delay_report float_of_str float_le float_isnan to_datetime strftime g out.
Proof.
  intros Htot Htr. unfold DelayOrder.delay_report.
  destruct (DelayOrder.body float_of_str g) as [[df ks]|m].
  - eexists. eexists. split; [|reflexivity].
    now apply stable_sort_desc_meets_sort_values.
  - now exists (Error m).
Qed.

(** * Further properties of the scripts *)

(** ** Text primitives *)

Section TextFacts.
Import Py.

Lemma prefix_empty (s : string) : String.prefix "" s = true.
Proof. now destruct s. Qed.

Lemma prefix_app (n b : string) : String.prefix n (n ++ b) = true.
Proof.
  induction n as [|c n IH]; simpl; [apply prefix_empty|].
  destruct (ascii_dec c c); [exact IH | congruence].
Qed.

Lemma contains_prefix (n s : string) :
  String.prefix n s = true -> contains n s = true.
Proof. intros H. destruct s; cbn [contains]; rewrite H; reflexivity. Qed.

Lemma contains_empty (s : string) : contains "" s = true.
Proof. apply contains_prefix, prefix_empty. Qed.

Lemma contains_refl (s : string) : contains s s = true.
Proof.
  apply contains_prefix. rewrite <- (prefix_app s "") at 1.
  f_equal. induction s as [|c s IH]; simpl; [reflexivity | now rewrite <- IH].
Qed.

(** [n in a + n + b]. *)
Lemma contains_app (a n b : string) : contains n (a ++ n ++ b) = true.
Proof.
  induction a as [|c a IH].
  - change ("" ++ n ++ b)%string with (n ++ b)%string.
    apply contains_prefix, prefix_app.
  - change (String c a ++ n ++ b)%string with (String c (a ++ n ++ b)).
    cbn [contains]. rewrite IH. apply orb_true_r.
Qed.

Lemma lower_app (a b : string) : lower (a ++ b) = (lower a ++ lower b)%string.
Proof.
  induction a as [|c a IH]; simpl; [reflexivity | now rewrite IH].
Qed.

(** What [lstrip] returns does not start with white space. *)
Lemma lstrip_head (s : string) :
  match lstrip s with
  | EmptyString => True
  | String c _ => is_space c = false
  end.
Proof.
  induction s as [|c s IH]; simpl; [exact I|].
  destruct (is_space c) eqn:E; [exact IH | simpl; exact E].
Qed.

Lemma lstrip_fixed (c : ascii) (s : string) :
  is_space c = false -> lstrip (String c s) = String c s.
Proof. intros H. simpl. now rewrite H. Qed.

(** [rstrip] keeps a first character that is not white space. *)
Lemma rstrip_head (c : ascii) (s : string) :
  is_space c = false -> exists t, rstrip (String c s) = String c t.
Proof.
  intros H. simpl. destruct (rstrip s); rewrite ?H; eauto.
Qed.

Lemma rstrip_idempotent (s : string) : rstrip (rstrip s) = rstrip s.
Proof.
  induction s as [|c s IH]; simpl; [reflexivity|].
  destruct (rstrip s) as [|d t] eqn:E.
  - destruct (is_space c) eqn:Ec; simpl; [reflexivity | now rewrite Ec].
  - simpl in IH |- *. now rewrite IH.
Qed.

(** [s.strip().strip() == s.strip()]. *)
Lemma strip_idempotent (s : string) : strip (strip s) = strip s.
Proof.
  unfold strip. pose proof (lstrip_head s) as H.
  destruct (lstrip s) as [|c t] eqn:E; [reflexivity|].
  destruct (rstrip_head c t H) as (u & Hu). rewrite Hu.
  rewrite (lstrip_fixed c u H), <- Hu. apply rstrip_idempotent.
Qed.

Lemma mem_cons_false (x y : string) (l : list string) :
  mem x (y :: l) = false -> x <> y /\ mem x l = false.
Proof.
  unfold mem. simpl. intros H. apply orb_false_iff in H. destruct H as [H1 H2].
  split; [|exact H2]. intros ->. now rewrite String.eqb_refl in H1.
Qed.

End TextFacts.

(** ** More on header detection *)

Section DetectionFacts.
Import Py Frame.

Lemma first_row_hit {A : Type} (p : list A -> bool) (g : list (list A))
  (row : list A) :
  In row g -> p row = true ->
  exists pre r post,
    g = pre ++ r :: post /\ first_row p 0 g = Some (List.length pre)
    /\ p r = true /\ Forall (fun r' => p r' = false) pre.
Proof.
  intros Hin Hrow.
  destruct (first_row p 0 g) as [j|] eqn:E.
  - destruct (first_row_some p g 0 j E) as (pre & r & post & -> & -> & Hr & Hpre).
    exists pre, r, post. auto.
  - apply first_row_none in E. rewrite Forall_forall in E.
    rewrite (E row Hin) in Hrow. discriminate.
Qed.

Lemma firstn_length_app {A : Type} (pre post : list A) :
  firstn (List.length pre) (pre ++ post) = pre.
Proof.
  rewrite firstn_app, Nat.sub_diag, firstn_all. simpl. apply app_nil_r.
Qed.

Lemma nth_error_length_app {A : Type} (pre post : list A) (x : A) :
  nth_error (pre ++ x :: post) (List.length pre) = Some x.
Proof.
  rewrite nth_error_app2, Nat.sub_diag by lia. reflexivity.
Qed.

Lemma filter_orb_length {A : Type} (p q : A -> bool) (l : list A) :
  List.length (filter (fun a => p a || q a) l)
  <= List.length (filter p l) + List.length (filter q l).
Proof.
  induction l as [|a l IH]; simpl; [lia|].
  destruct (p a), (q a); simpl; lia.
Qed.

Lemma matches_cons (sc : DelayOrder.schema) (x : string) (row : list string) :
  DelayOrder.matches sc (x :: row)
  = List.length (filter (fun e : string * list string =>
                           DelayOrder.hit (snd e) x) sc)
    + DelayOrder.matches sc row.
Proof.
  unfold DelayOrder.matches. simpl. rewrite filter_app, length_app. f_equal.
  induction sc as [|e sc IH]; simpl; [reflexivity|].
  destruct (DelayOrder.hit (snd e) x); simpl; now rewrite IH.
Qed.

(** The score of the delay-order report is never below the number of
    canonical columns hit. *)
Lemma spec_columns_hit_le_matches (sc : DelayOrder.schema) (row : list string) :
  DelayOrder.spec_columns_hit sc row <= DelayOrder.matches sc row.
Proof.
  induction row as [|x row IH].
  - unfold DelayOrder.spec_columns_hit, DelayOrder.matches. simpl.
    induction sc as [|e sc IHs]; simpl; [lia | exact IHs].
  - rewrite matches_cons. unfold DelayOrder.spec_columns_hit in *. simpl.
    pose proof (filter_orb_length
                  (fun e : string * list string => DelayOrder.hit (snd e) x)
                  (fun e : string * list string =>
                     existsb (DelayOrder.hit (snd e)) row) sc).
    lia.
Qed.

End DetectionFacts.

(** X1.  [find_header_row] of factory-out.py and lot-rejection.py: when some
    row has at least 60 percent of the canonical names in its cells, the index
    returned is that of such a row, and no row above it is one. *)
Theorem find_header_row_returns_first_match (FIXED : list string)
  (g : Sheet.grid) (row : list cell) :
  In row g -> Sheet.qualifies FIXED row = true ->
  exists r,
    nth_error g (Sheet.find_header_row FIXED g) = Some r
    /\ Sheet.qualifies FIXED r = true
    /\ Forall (fun r' => Sheet.qualifies FIXED r' = false)
              (firstn (Sheet.find_header_row FIXED g) g).
Proof.
  intros Hin Hrow.
  destruct (first_row_hit _ g row Hin Hrow) as (pre & r & post & -> & E & Hr & Hpre).
  unfold Sheet.find_header_row. rewrite E. exists r.
  rewrite nth_error_length_app, firstn_length_app. auto.
Qed.

Lemma find_header_row_returns_first_match_witness :
  exists r,
    nth_error Examples.factory_sheet
      (Sheet.find_header_row FactoryOut.FIXED_COLUMNS Examples.factory_sheet)
    = Some r
    /\ Sheet.qualifies FactoryOut.FIXED_COLUMNS r = true
    /\ Forall (fun r' => Sheet.qualifies FactoryOut.FIXED_COLUMNS r' = false)
              (firstn (Sheet.find_header_row FactoryOut.FIXED_COLUMNS
                         Examples.factory_sheet) Examples.factory_sheet).
Proof.
  apply (find_header_row_returns_first_match FactoryOut.FIXED_COLUMNS
           Examples.factory_sheet (nth 1 Examples.factory_sheet [])).
  - simpl. tauto.
  - reflexivity.
Defined.

(** X2.  Delay-order report: a row in which at least half of the canonical
    columns are hit always reaches the threshold, since the score counts every
    hit of every cell; the header index is then at most the index of that
    row, and no warning is raised. *)
Theorem delay_detector_never_skips_a_majority_row (sc : DelayOrder.schema)
  (pre post : DelayOrder.grid) (row : list string) :
  DelayOrder.threshold sc <= DelayOrder.spec_columns_hit sc row ->
  DelayOrder.qualifies sc row = true
  /\ fst (DelayOrder.header_row_index sc (pre ++ row :: post))
     <= List.length pre
  /\ snd (DelayOrder.header_row_index sc (pre ++ row :: post)) = [].
Proof.
  intros H.
  assert (Hq : DelayOrder.qualifies sc row = true).
  { unfold DelayOrder.qualifies. apply Nat.leb_le.
    pose proof (spec_columns_hit_le_matches sc row). lia. }
  split; [exact Hq|].
  destruct (first_row_hit (DelayOrder.qualifies sc) (pre ++ row :: post) row)
    as (pre' & r & post' & Eg & E & Hr & Hpre'); auto.
  { apply in_or_app. right. now left. }
  unfold DelayOrder.header_row_index. rewrite E. simpl. split; [|reflexivity].
  destruct (Nat.le_gt_cases (List.length pre') (List.length pre)) as [Hle|Hgt];
    [exact Hle|].
  exfalso.
  assert (Hn : nth_error (pre' ++ r :: post') (List.length pre) = Some row).
  { rewrite <- Eg. apply nth_error_length_app. }
  rewrite nth_error_app1 in Hn by exact Hgt.
  apply nth_error_In in Hn. rewrite Forall_forall in Hpre'.
  rewrite (Hpre' row Hn) in Hq. discriminate.
Qed.

Lemma delay_detector_never_skips_a_majority_row_witness :
  DelayOrder.qualifies DelayOrder.column_keywords Examples.delay_header = true
  /\ fst (DelayOrder.header_row_index DelayOrder.column_keywords
            ([["Delay report"]] ++ Examples.delay_header :: [])) <= 1
  /\ snd (DelayOrder.header_row_index DelayOrder.column_keywords
            ([["Delay report"]] ++ Examples.delay_header :: [])) = [].
Proof.
  apply (delay_detector_never_skips_a_majority_row DelayOrder.column_keywords
           [["Delay report"]] [] Examples.delay_header).
  vm_compute. repeat constructor.
Defined.

(** ** More on the delay-order table *)

Section DelayTableFacts.
Import Py Frame DelayOrder.

Lemma in_flat_repeat (n : string -> nat) (labels : list string) (c : string) :
  In c (flat_map (fun k => repeat k (n k)) labels)
  <-> In c labels /\ 0 < n c.
Proof.
  rewrite in_flat_map. split.
  - intros (k & Hk & Hc). apply repeat_spec in Hc as E. subst k.
    split; [exact Hk|]. destruct (n c); [destruct Hc | lia].
  - intros [Hc Hn]. exists c. split; [exact Hc|].
    destruct (n c); [lia | now left].
Qed.

Lemma ensure_columns_rows (ks : list string) (df : frame string) :
  List.length (rows (ensure_columns ks df)) = List.length (rows df).
Proof.
  destruct (ensure_columns_spec ks df) as (extra & _ & Hr & _).
  rewrite Hr. apply length_map.
Qed.

Lemma select_width {A : Type} (blank : A) (labels : list string)
  (df df' : frame A) :
  select blank labels df = Ok df' ->
  Forall (fun r => List.length r = List.length (columns df')) (rows df').
Proof.
  unfold select. destruct (forallb _ labels); [|discriminate].
  intros H. injection H as <-. simpl. apply Forall_forall. intros r Hr.
  apply in_map_iff in Hr. destruct Hr as (r0 & <- & _).
  now rewrite !length_map.
Qed.

Lemma series_loc_spec {A : Type} (k : string) (df : frame A) (i : nat) :
  series_loc k df = Ok i -> nth_error (columns df) i = Some k.
Proof.
  unfold series_loc.
  destruct (positions k 0 (columns df)) as [|j [|? ?]] eqn:E; try discriminate.
  intros H. injection H as <-.
  destruct (positions_nth k (columns df) 0 j) as [_ Hn]; [rewrite E; now left|].
  now rewrite Nat.sub_0_r in Hn.
Qed.

(** The reconciled table is rectangular and has one row per sheet row below
    the header. *)
Lemma reconcile_shape (sc : DelayOrder.schema) (g : DelayOrder.grid)
  (df : frame string) :
  DelayOrder.reconcile sc g = Ok df ->
  Forall (fun r => List.length r = List.length (columns df)) (rows df)
  /\ List.length (rows df)
     = List.length g - S (fst (DelayOrder.header_row_index sc g)).
Proof.
  unfold DelayOrder.reconcile.
  destruct (nth_error g (fst (DelayOrder.header_row_index sc g)))
    as [hdr|]; [|discriminate].
  intros H. pose proof (select_width _ _ _ _ H) as Hw.
  apply select_columns in H. destruct H as [_ Hl].
  rewrite ensure_columns_rows in Hl. cbn [rows] in Hl.
  rewrite length_skipn in Hl. now split.
Qed.

End DelayTableFacts.

(** X3.  Delay-order report, lines 52-70, on any sheet and any header: the
    labels of the reconciled table are canonical names and every canonical
    name is among them, so a source column that maps to no canonical name
    never reaches the table; every row is as wide as the list of labels, and
    there is one row per sheet row below the header. *)
Theorem reconcile_keeps_only_canonical_columns (sc : DelayOrder.schema)
  (g : DelayOrder.grid) (df : frame string) :
  DelayOrder.reconcile sc g = Ok df ->
  (forall c, In c (columns df) <-> In c (DelayOrder.keys sc))
  /\ Forall (fun r => List.length r = List.length (columns df)) (rows df)
  /\ List.length (rows df)
     = List.length g - S (fst (DelayOrder.header_row_index sc g)).
Proof.
  unfold DelayOrder.reconcile.
  destruct (nth_error g (fst (DelayOrder.header_row_index sc g)))
    as [hdr|]; [|discriminate].
  intros H. pose proof (select_width _ _ _ _ H) as Hw.
  apply select_columns in H. destruct H as [Hc Hl].
  rewrite ensure_columns_rows in Hl. cbn [rows] in Hl.
  rewrite length_skipn in Hl.
  split; [|split; [exact Hw | exact Hl]].
  intros c. rewrite Hc, in_flat_repeat. split; [tauto|]. intros Hk.
  split; [exact Hk|]. apply (count_occ_In string_dec).
  match goal with |- In c (columns (DelayOrder.ensure_columns ?ks ?d)) =>
    destruct (ensure_columns_spec ks d) as (extra & E & _ & _ & _ & Hall)
  end.
  rewrite E. now apply Hall.
Qed.

Lemma reconcile_keeps_only_canonical_columns_witness :
  (forall c, In c (columns (mkFrame
                     (DelayOrder.keys DelayOrder.column_keywords)
                     [["1001"; "V"; ""; ""; ""; ""; ""; ""; ""; ""; "";
                       "(12.00)"];
                      ["1002"; "W"; ""; ""; ""; ""; ""; ""; ""; ""; "";
                       "(15.00)"]]))
             <-> In c (DelayOrder.keys DelayOrder.column_keywords))
  /\ Forall (fun r => List.length r = 12)
            [["1001"; "V"; ""; ""; ""; ""; ""; ""; ""; ""; ""; "(12.00)"];
             ["1002"; "W"; ""; ""; ""; ""; ""; ""; ""; ""; ""; "(15.00)"]]
  /\ 2 = List.length Examples.delay_partial
         - S (fst (DelayOrder.header_row_index DelayOrder.column_keywords
                     Examples.delay_partial)).
Proof.
  apply (reconcile_keeps_only_canonical_columns DelayOrder.column_keywords
           Examples.delay_partial).
  reflexivity.
Defined.

Section DelayWritten.
Import Py Frame DelayOrder.
Context {float date : Type}.
Variable float_of_str : string -> option float.
Variable float_le : float -> float -> bool.
Variable float_isnan : float -> bool.
Variable to_datetime : list cell -> cell -> option date.
Variable strftime : date -> string.

Lemma Forall2_compose {A B C : Type} (R : A -> B -> Prop) (S : B -> C -> Prop)
  (l1 : list A) (l2 : list B) (l3 : list C) :
  Forall2 R l1 l2 -> Forall2 S l2 l3 ->
  Forall2 (fun a c => exists b, R a b /\ S b c) l1 l3.
Proof.
  intros H. revert l3. induction H as [|a b l1 l2 Hab _ IH]; intros l3 H3;
    inversion H3; subst; constructor; eauto.
Qed.

Lemma Forall2_map_left {A B C : Type} (f : A -> B) (R : B -> C -> Prop)
  (l : list A) (l' : list C) :
  Forall2 R (map f l) l' -> Forall2 (fun a c => R (f a) c) l l'.
Proof.
  revert l'. induction l as [|a l IH]; intros l' H; inversion H; subst;
    constructor; auto.
Qed.

(** What reaches the sort: rows of the reconciled table that passed both
    filters and whose key parses. *)
Lemma delay_report_rows (g : grid) (out : frame cell) :
  delay_report float_of_str float_le float_isnan to_datetime strftime g (Ok out) ->
  exists df0 i rows1,
    reconcile column_keywords g = Ok df0
    /\ series_loc "Order Days" df0 = Ok i
    /\ Forall (fun r =>
                 In r (rows df0)
                 /\ mem (nth i r "") unwanted_values = false
                 /\ sort_key float_of_str (nth i r "") <> None) rows1
    /\ List.length rows1 <= List.length (rows df0)
    /\ format_dates to_datetime strftime (mkFrame (columns df0) rows1) = Ok out.
Proof.
  unfold delay_report.
  destruct (body float_of_str g) as [[df ks]|m] eqn:Hb; [|discriminate].
  destruct (body_inv _ _ _ _ Hb) as (df0 & i & Hrec & _ & Hi & -> & Hks).
  cbn [columns rows] in *.
  intros (sorted & [Hperm _] & Hout).
  exists df0, i, (map snd sorted).
  split; [exact Hrec|]. split; [exact Hi|].
  apply astype_float_spec in Hks.
  match type of Hks with Forall2 _ (map _ ?rs) _ =>
    destruct (combine_keys float_of_str rs (fun r => nth i r "") ks Hks)
      as [Hsnd Hkey];
    set (rows2 := rs) in *
  end.
  assert (Hall : Forall (fun kr : float * list string =>
                   In (snd kr) rows2
                   /\ sort_key float_of_str (nth i (snd kr) "") = Some (fst kr))
                 sorted).
  { eapply Permutation_Forall; [exact Hperm|].
    apply Forall_forall. intros [k r] Hin. split.
    - simpl. eapply in_combine_r; eauto.
    - rewrite Forall_forall in Hkey. now apply Hkey. }
  split; [|split; [|now symmetry]].
  - apply Forall_forall. intros r Hr. apply in_map_iff in Hr.
    destruct Hr as (kr & <- & Hin). rewrite Forall_forall in Hall.
    destruct (Hall kr Hin) as [Hr2 Hk]. unfold rows2 in Hr2.
    apply filter_In in Hr2. destruct Hr2 as [Hr1 Hun].
    apply filter_In in Hr1. destruct Hr1 as [Hr0 _].
    split; [exact Hr0|]. split; [now apply negb_true_iff in Hun|].
    rewrite Hk. discriminate.
  - rewrite length_map, <- (Permutation_length Hperm), length_combine.
    unfold rows2.
    etransitivity; [apply Nat.le_min_r|].
    etransitivity; [apply filter_length_le|]. apply filter_length_le.
Qed.

(** Lines 87-88 touch the two date columns only. *)
Lemma format_dates_other_columns (df : frame string) (out : frame cell) :
  format_dates to_datetime strftime df = Ok out ->
  exists i1 i2,
    nth_error (columns df) i1 = Some "Shipment Date"
    /\ nth_error (columns df) i2 = Some "Order Date"
    /\ columns out = columns df
    /\ Forall2 (fun r r' =>
                  forall q, q <> i1 -> q <> i2 ->
                            nth_error r' q = option_map Str (nth_error r q))
               (rows df) (rows out).
Proof.
  unfold format_dates.
  set (d0 := mkFrame (columns df) (map (map Str) (rows df))).
  destruct (series_loc "Shipment Date" d0) as [i1|] eqn:H1;
    [|unfold format_date; rewrite H1; discriminate].
  destruct (format_date_cell_local to_datetime strftime _ _ _ H1)
    as (d1 & E1 & C1 & F1).
  rewrite E1. cbn [bind].
  destruct (series_loc "Order Date" d1) as [i2|] eqn:H2;
    [|unfold format_date; rewrite H2; discriminate].
  destruct (format_date_cell_local to_datetime strftime _ _ _ H2)
    as (d2 & E2 & C2 & F2).
  rewrite E2. intros H. injection H as <-.
  exists i1, i2. apply series_loc_spec in H1, H2.
  rewrite C1 in H2. simpl in H1, H2, C1.
  split; [exact H1|]. split; [exact H2|]. split; [congruence|].
  pose proof (Forall2_compose _ _ _ _ _ F1 F2) as F. unfold d0 in F.
  simpl in F. apply Forall2_map_left in F.
  eapply Forall2_impl; [|exact F]. simpl.
  intros r r' (r1 & (_ & Ha & _) & (_ & Hb & _)) q Hq1 Hq2.
  now rewrite (Hb q Hq2), (Ha q Hq1), nth_error_map.
Qed.

End DelayWritten.

(** X4.  Delay-order report: in every table that is written, the "Order
    Days" cell of every row is a text that is neither blank nor one of
    "(1.00)" ... "(9.00)" and whose number parses; the table never has more
    rows than the sheet has below its first row. *)
Theorem delay_written_rows_are_filtered {float date : Type}
  (float_of_str : string -> option float)
  (float_le : float -> float -> bool) (float_isnan : float -> bool)
  (to_datetime : list cell -> cell -> option date)
  (strftime : date -> string)
  (g : DelayOrder.grid) (out : frame cell) :
  DelayOrder.delay_report float_of_str float_le float_isnan to_datetime strftime g
    (Ok out) ->
  exists i,
    Frame.series_loc "Order Days" out = Ok i
    /\ Forall (fun r =>
                 exists x,
                   nth_error r i = Some (Str x)
                   /\ Py.mem x DelayOrder.unwanted_values = false
                   /\ DelayOrder.sort_key float_of_str x <> None)
              (rows out)
    /\ List.length (rows out) <= List.length g - 1.
Proof.
  intros H.
  destruct (delay_report_rows _ _ _ _ _ _ _ H)
    as (df0 & i & rows1 & Hrec & Hi & Hrows & Hlen & Hfmt).
  destruct (format_dates_other_columns _ _ _ _ Hfmt)
    as (i1 & i2 & H1 & H2 & Hc & HF).
  simpl in H1, H2, Hc, HF.
  destruct (reconcile_shape _ _ _ Hrec) as (Hw & Hn).
  pose proof (series_loc_spec _ _ _ Hi) as Hcol.
  exists i. split; [|split].
  - unfold Frame.series_loc in *. now rewrite Hc.
  - apply Forall_forall. intros r' Hr'.
    destruct (Forall2_in_r _ _ _ HF r' Hr') as (r & Hr & Hq).
    rewrite Forall_forall in Hrows. destruct (Hrows r Hr) as (Hr0 & Hun & Hk).
    rewrite Forall_forall in Hw. pose proof (Hw r Hr0) as Hlr.
    assert (Hlt : i < List.length r).
    { rewrite Hlr. apply nth_error_Some. congruence. }
    exists (nth i r ""). split; [|split; assumption].
    rewrite Hq; [|congruence|congruence].
    now rewrite (nth_error_nth' r "" Hlt).
  - rewrite <- (Forall2_length HF). lia.
Qed.

Lemma delay_written_rows_are_filtered_witness :
  exists i,
    Frame.series_loc "Order Days" Examples.delay_small_out = Ok i
    /\ Forall (fun r =>
                 exists x,
                   nth_error r i = Some (Str x)
                   /\ Py.mem x DelayOrder.unwanted_values = false
                   /\ DelayOrder.sort_key Reference.float_of_str x <> None)
              (rows Examples.delay_small_out)
    /\ List.length (rows Examples.delay_small_out)
       <= List.length Examples.delay_small - 1.
Proof.
  apply (delay_written_rows_are_filtered Reference.float_of_str
           Reference.float_le Reference.float_isnan Reference.to_datetime Reference.strftime
           Examples.delay_small Examples.delay_small_out).
  unfold DelayOrder.delay_report.
  set (b := DelayOrder.body Reference.float_of_str Examples.delay_small).
  vm_compute in b. subst b. cbv beta iota.
  eexists. split; [split; [reflexivity | repeat constructor] | reflexivity].
Defined.

(** ** Header not found: what the tools go on to do *)

Section AfterFallback.
Import Py Frame DelayOrder.
Context {float date : Type}.
Variable float_of_str : string -> option float.
Variable float_le : float -> float -> bool.
Variable float_isnan : float -> bool.
Variable to_datetime : list cell -> cell -> option date.
Variable strftime : date -> string.

(** A sheet of a single row has no body row: line 73 leaves a frame without
    columns and line 77 raises. *)
Lemma single_row_sheet_aborts (r : list string) (out : result (frame cell)) :
  delay_report float_of_str float_le float_isnan to_datetime strftime [r] out ->
  out = Error "KeyError".
Proof.
  assert (Hg : 0 < List.length [r]) by (simpl; lia).
  destruct (reconcile_ok column_keywords [r] Hg) as (df & Hrec).
  destruct (reconcile_shape _ _ _ Hrec) as [_ Hl].
  assert (Er : rows df = []).
  { destruct (rows df); [reflexivity|]. simpl in Hl. lia. }
  unfold delay_report, body. rewrite Hrec. cbn [bind].
  unfold drop_grand_total. rewrite Er. cbn. auto.
Qed.

End AfterFallback.

(** C3, amended.  When no row meets the detection threshold: the delay-order
    report takes row 0 as header and records the warning "Header row not
    found. Using first row as header."; on a sheet with at least one row the
    column stage of lines 52-70 then completes, with one table row per sheet
    row below row 0, and the run goes on to the filters, where it can still
    end with an exception: a sheet of a single row raises [KeyError] at line
    77.  factory-out.py and lot-rejection.py take row 0 as header without any
    warning and go on with the second read, from row 0.  The loss report
    raises "Could not find header row with 'Wc Name'" and writes nothing. *)
Theorem header_not_found_behaviour {float date : Type}
  (float_of_str : string -> option float)
  (float_le : float -> float -> bool) (float_isnan : float -> bool)
  (to_datetime : list cell -> cell -> option date)
  (strftime : date -> string)
  (g : DelayOrder.grid)
  (FIXED : list string) (s : Sheet.grid) (d : Loss.grid) :
  Forall (fun r => DelayOrder.qualifies DelayOrder.column_keywords r = false) g ->
  Forall (fun r => Sheet.qualifies FIXED r = false) s ->
  Forall (fun r => Loss.has_wc_name r = false) d ->
  (DelayOrder.header_row_index DelayOrder.column_keywords g
   = (0, [DelayOrder.header_warning])
   /\ (0 < List.length g ->
       exists df,
         DelayOrder.reconcile DelayOrder.column_keywords g = Ok df
         /\ List.length (rows df) = List.length g - 1)
   /\ (List.length g = 1 ->
       forall out,
         DelayOrder.delay_report float_of_str float_le float_isnan
           to_datetime strftime g out ->
         out = Error "KeyError"))
  /\ (Sheet.find_header_row FIXED s = 0
      /\ Sheet.renamed FIXED s
         = mkFrame
             (map (fun col => Sheet.column_mapping FIXED (Py.strip col))
                  (columns (Sheet.read_excel_header 0 s)))
             (rows (Sheet.read_excel_header 0 s)))
  /\ (Loss.header_row_idx d = Error "Could not find header row with 'Wc Name'"
      /\ Loss.process_excel d
         = Error "Could not find header row with 'Wc Name'").
Proof.
  intros Hg Hs Hd.
  assert (Hh : DelayOrder.header_row_index DelayOrder.column_keywords g
               = (0, [DelayOrder.header_warning])).
  { unfold DelayOrder.header_row_index.
    now rewrite (proj2 (first_row_none _ g 0) Hg). }
  assert (Hf : Sheet.find_header_row FIXED s = 0)
    by now apply find_header_row_fallback.
  assert (Hl : Loss.header_row_idx d
               = Error "Could not find header row with 'Wc Name'").
  { unfold Loss.header_row_idx.
    now rewrite (proj2 (first_row_none _ d 0) Hd). }
  split; [split; [exact Hh | split]|split; [split|split]].
  - intros Hlen.
    destruct (reconcile_ok DelayOrder.column_keywords g Hlen) as (df & Hrec).
    exists df. split; [exact Hrec|].
    destruct (reconcile_shape _ _ _ Hrec) as [_ E]. now rewrite Hh in E.
  - intros Hlen out. destruct g as [|r [|? ?]]; try discriminate Hlen.
    apply single_row_sheet_aborts.
  - exact Hf.
  - unfold Sheet.renamed. now rewrite Hf.
  - exact Hl.
  - unfold Loss.process_excel. now rewrite Hl.
Qed.

Lemma header_not_found_behaviour_witness :
  (DelayOrder.header_row_index DelayOrder.column_keywords
     Examples.delay_partial
   = (0, [DelayOrder.header_warning])
   /\ (0 < List.length Examples.delay_partial ->
       exists df,
         DelayOrder.reconcile DelayOrder.column_keywords
           Examples.delay_partial = Ok df
         /\ List.length (rows df) = List.length Examples.delay_partial - 1)
   /\ (List.length Examples.delay_partial = 1 ->
       forall out,
         DelayOrder.delay_report Reference.float_of_str Reference.float_le
           Reference.float_isnan Reference.to_datetime Reference.strftime
           Examples.delay_partial out ->
         out = Error "KeyError"))
  /\ (Sheet.find_header_row FactoryOut.FIXED_COLUMNS Examples.factory_partial
      = 0
      /\ Sheet.renamed FactoryOut.FIXED_COLUMNS Examples.factory_partial
         = mkFrame
             (map (fun col =>
                     Sheet.column_mapping FactoryOut.FIXED_COLUMNS
                       (Py.strip col))
                  (columns (Sheet.read_excel_header 0
                              Examples.factory_partial)))
             (rows (Sheet.read_excel_header 0 Examples.factory_partial)))
  /\ (Loss.header_row_idx [[Str "Dept"]; [Num "1"]]
      = Error "Could not find header row with 'Wc Name'"
      /\ Loss.process_excel [[Str "Dept"]; [Num "1"]]
         = Error "Could not find header row with 'Wc Name'").
Proof.
  apply (header_not_found_behaviour Reference.float_of_str Reference.float_le
           Reference.float_isnan Reference.to_datetime Reference.strftime
           Examples.delay_partial FactoryOut.FIXED_COLUMNS
           Examples.factory_partial [[Str "Dept"]; [Num "1"]]);
    repeat constructor.
Defined.

(** ** The delay-order report: the order of the written rows *)

Section DelayOrdering.
Import Py Frame DelayOrder.
Context {float date : Type}.
Variable float_of_str : string -> option float.
Variable float_le : float -> float -> bool.
Variable float_isnan : float -> bool.
Variable to_datetime : list cell -> cell -> option date.
Variable strftime : date -> string.

Lemma Forall2_keys {A B C : Type} (f : A -> B) (k : A -> C)
  (R : B -> C -> Prop) (l : list A) :
  Forall (fun a => R (f a) (k a)) l -> Forall2 R (map f l) (map k l).
Proof. induction 1; simpl; constructor; auto. Qed.




End DelayOrdering.




(** ** Renaming of labels *)

(** X5.  Renaming is idempotent in each tool: the name a label is given is
    given that same name again, so a sheet whose labels were already renamed
    keeps them. *)
Theorem renaming_is_idempotent (col : string) :
  DelayOrder.map_column DelayOrder.column_keywords
    (DelayOrder.map_column DelayOrder.column_keywords col)
  = DelayOrder.map_column DelayOrder.column_keywords col
  /\ Sheet.column_mapping FactoryOut.FIXED_COLUMNS
       (Sheet.column_mapping FactoryOut.FIXED_COLUMNS col)
     = Sheet.column_mapping FactoryOut.FIXED_COLUMNS col
  /\ Sheet.column_mapping LotRejection.FIXED_COLUMNS
       (Sheet.column_mapping LotRejection.FIXED_COLUMNS col)
     = Sheet.column_mapping LotRejection.FIXED_COLUMNS col.
Proof.
  split; [|split].
  - unfold DelayOrder.map_column at 2 3.
    destruct (find _ DelayOrder.column_keywords) as [[key kws]|] eqn:E.
    + apply find_some in E. destruct E as [Hin _].
      unfold DelayOrder.column_keywords in Hin. simpl in Hin.
      repeat (destruct Hin as [Hin|Hin];
              [injection Hin as <- <-; vm_compute; reflexivity|]).
      destruct Hin.
    + unfold DelayOrder.map_column. now rewrite E.
  - unfold Sheet.column_mapping at 2 3.
    destruct (find _ FactoryOut.FIXED_COLUMNS) as [c|] eqn:E.
    + apply find_some in E. destruct E as [Hin _].
      unfold FactoryOut.FIXED_COLUMNS in Hin. simpl in Hin.
      repeat (destruct Hin as [<-|Hin]; [vm_compute; reflexivity|]).
      destruct Hin.
    + unfold Sheet.column_mapping. now rewrite E.
  - unfold Sheet.column_mapping at 2 3.
    destruct (find _ LotRejection.FIXED_COLUMNS) as [c|] eqn:E.
    + apply find_some in E. destruct E as [Hin _].
      unfold LotRejection.FIXED_COLUMNS in Hin. simpl in Hin.
      repeat (destruct Hin as [<-|Hin]; [vm_compute; reflexivity|]).
      destruct Hin.
    + unfold Sheet.column_mapping. now rewrite E.
Qed.

(** X6.  factory-out.py and lot-rejection.py, lines 176-178: a label that
    occurs, whatever the case, inside the first canonical name is renamed to
    that name; so is the empty label, which a blank text in the header row
    gives once stripped. *)
Theorem label_inside_first_name_takes_it (c : string) (rest : list string)
  (col : string) :
  Py.contains (Py.lower col) (Py.lower c) = true ->
  Sheet.column_mapping (c :: rest) col = c
  /\ Sheet.column_mapping (c :: rest) (Py.strip "  ") = c.
Proof.
  intros H. unfold Sheet.column_mapping, Sheet.label_match. simpl.
  rewrite H, orb_true_r. simpl. split; [reflexivity|].
  change (Py.strip "  ") with "". change (Py.lower "") with "".
  now rewrite contains_empty, orb_true_r.
Qed.

Lemma label_inside_first_name_takes_it_witness :
  Sheet.column_mapping FactoryOut.FIXED_COLUMNS "date" = "Trans Date"
  /\ Sheet.column_mapping FactoryOut.FIXED_COLUMNS (Py.strip "  ")
     = "Trans Date".
Proof.
  apply (label_inside_first_name_takes_it "Trans Date"
           (tl FactoryOut.FIXED_COLUMNS) "date").
  reflexivity.
Defined.

(** ** The cleaned table *)

Section CleanFacts.
Import Py Frame Sheet.



(** The rows [clean] returns: each is a row of the frame, its cells stripped
    in the columns of dtype [object], then filled. *)
Lemma clean_row_origin (is_object : nat -> list cell -> bool)
  (df df' : frame cell) (r : list cell) :
  clean is_object df = Ok df' -> In r (rows df') ->
  contains "grand total" (lower (py_str (nth 0 r NaN))) = false
  /\ exists r0, In r0 (rows df)
       /\ r = map fillna (strip_row is_object (rows df) 0 r0).
Proof.
  unfold clean. destruct (has_dup (columns df)); [discriminate|].
  destruct (columns df); [discriminate|].
  intros H. injection H as <-. cbn [rows]. intros Hr.
  apply filter_In in Hr. destruct Hr as [Hr Hg]. split.
  - now apply negb_true_iff in Hg.
  - apply in_map_iff in Hr. destruct Hr as (r1 & <- & Hr1).
    apply filter_In in Hr1. destruct Hr1 as [Hr1 _].
    apply in_map_iff in Hr1. destruct Hr1 as (r0 & <- & Hr0).
    now exists r0.
Qed.


End CleanFacts.


(** ** Dates and the cells written *)

Section DateFacts.
Import Py.

Lemma prefix_inv (n s : string) :
  String.prefix n s = true -> exists b, s = (n ++ b)%string.
Proof.
  revert s. induction n as [|c n IH]; intros s H.
  - now exists s.
  - destruct s as [|d s]; simpl in H; [discriminate|].
    destruct (ascii_dec c d) as [->|]; [|discriminate].
    destruct (IH s H) as (b & ->). now exists b.
Qed.

Lemma contains_inv (n s : string) :
  contains n s = true -> exists a b, s = (a ++ n ++ b)%string.
Proof.
  induction s as [|c s IH]; cbn [contains]; intros H;
    apply orb_true_iff in H; destruct H as [H|H].
  - apply prefix_inv in H. destruct H as (b & ->). now exists "", b.
  - discriminate.
  - apply prefix_inv in H. destruct H as (b & ->). now exists "", b.
  - destruct (IH H) as (a & b & ->). now exists (String c a), b.
Qed.

Lemma contains_app_r (n a b : string) :
  contains n b = true -> contains n (a ++ b) = true.
Proof.
  intros H. induction a as [|c a IH]; [exact H|].
  change (String c a ++ b)%string with (String c (a ++ b)).
  cbn [contains]. rewrite IH. apply orb_true_r.
Qed.

Lemma prefix_cons (a c : ascii) (n s : string) :
  String.prefix (String a n) (String c s)
  = if ascii_dec a c then String.prefix n s else false.
Proof. reflexivity. Qed.

Lemma before_space_no_space (s : string) :
  contains " " (before_space s) = false.
Proof.
  induction s as [|c s IH]; [reflexivity|]. cbn [before_space].
  destruct (Ascii.eqb c " ") eqn:E; [reflexivity|].
  cbn [contains]. rewrite IH, orb_false_r, prefix_cons.
  destruct (ascii_dec " " c) as [<-|]; [discriminate | reflexivity].
Qed.

Lemma no_space_head (c : ascii) (s : string) :
  contains " " (String c s) = false ->
  Ascii.eqb c " " = false /\ contains " " s = false.
Proof.
  cbn [contains]. intros H. apply orb_false_iff in H. destruct H as [H1 H2].
  split; [|exact H2]. destruct (Ascii.eqb c " ") eqn:E; [|reflexivity].
  apply Ascii.eqb_eq in E. subst c. rewrite prefix_cons in H1.
  destruct (ascii_dec " " " "); [|congruence].
  now rewrite prefix_empty in H1.
Qed.

Lemma before_space_fixed (s : string) :
  contains " " s = false -> before_space s = s.
Proof.
  induction s as [|c s IH]; [reflexivity|]. intros H.
  apply no_space_head in H. destruct H as [Hc Hs].
  cbn [before_space]. rewrite Hc. now rewrite (IH Hs).
Qed.

Lemma before_space_app (d t : string) :
  contains " " d = false -> before_space (d ++ " " ++ t) = d.
Proof.
  induction d as [|c d IH]; [reflexivity|]. intros H.
  apply no_space_head in H. destruct H as [Hc Hs].
  change (String c d ++ " " ++ t)%string with (String c (d ++ " " ++ t)).
  cbn [before_space]. rewrite Hc. now rewrite (IH Hs).
Qed.

End DateFacts.

(** What [clean_trans_date] returns lacks a space or lacks a colon, and is
    left as it is by a second pass. *)
Lemma clean_trans_date_leaves_no_time_aux (v : cell) :
  (Py.contains " " (FactoryOut.clean_trans_date v) = false
   \/ Py.contains ":" (FactoryOut.clean_trans_date v) = false)
  /\ FactoryOut.clean_trans_date (Str (FactoryOut.clean_trans_date v))
     = FactoryOut.clean_trans_date v.
Proof.
  assert (G : forall s,
             let r := if Py.contains " " s
                         && (Py.contains ":" s || Py.contains "00:00:00" s)
                      then Py.before_space s else s in
             (Py.contains " " r = false \/ Py.contains ":" r = false)
             /\ FactoryOut.clean_trans_date (Str r) = r).
  { intros s.
    destruct (Py.contains " " s
              && (Py.contains ":" s || Py.contains "00:00:00" s)) eqn:E;
      cbn zeta.
    - split.
      + left. apply before_space_no_space.
      + unfold FactoryOut.clean_trans_date, py_str.
        now rewrite before_space_no_space.
    - split.
      + apply andb_false_iff in E. destruct E as [E|E]; [now left|].
        apply orb_false_iff in E. destruct E as [E _]. now right.
      + unfold FactoryOut.clean_trans_date, py_str. now rewrite E. }
  destruct v as [|s|r|r]; [split; [now left | reflexivity]| | |];
    unfold FactoryOut.clean_trans_date at 1 2 4; unfold py_str; apply G.
Qed.

(** X8.  [clean_trans_date] of factory-out.py, on any cell: the text it
    returns never has both a space and a colon, and cleaning that text again
    changes nothing. *)
Theorem clean_trans_date_leaves_no_time (v : cell) :
  Py.contains " " (FactoryOut.clean_trans_date v)
  && Py.contains ":" (FactoryOut.clean_trans_date v) = false
  /\ FactoryOut.clean_trans_date (Str (FactoryOut.clean_trans_date v))
     = FactoryOut.clean_trans_date v.
Proof.
  destruct (clean_trans_date_leaves_no_time_aux v) as [[H|H] Hi];
    (split; [|exact Hi]); rewrite H; [reflexivity | apply andb_false_r].
Qed.

(** X9.  [clean_trans_date] of factory-out.py: of a date followed by a space
    and a time of day (text with a colon), the date alone is kept, whether
    the cell holds text or a timestamp object. *)
Theorem clean_trans_date_keeps_the_date (d t : string) :
  Py.contains " " d = false ->
  Py.contains ":" t = true ->
  FactoryOut.clean_trans_date (Str (d ++ " " ++ t)) = d
  /\ FactoryOut.clean_trans_date (Obj (d ++ " " ++ t)) = d.
Proof.
  intros Hd Ht. unfold FactoryOut.clean_trans_date, py_str.
  rewrite (contains_app d " " t).
  rewrite (contains_app_r ":" d (" " ++ t)
             (contains_app_r ":" " " t Ht)).
  cbn [andb orb]. rewrite (before_space_app d t Hd). now split.
Qed.

Lemma clean_trans_date_keeps_the_date_witness :
  FactoryOut.clean_trans_date (Str "2025-09-01 00:00:00") = "2025-09-01"
  /\ FactoryOut.clean_trans_date (Obj "2025-09-01 00:00:00") = "2025-09-01".
Proof.
  apply (clean_trans_date_keeps_the_date "2025-09-01" "00:00:00");
    reflexivity.
Defined.

Section WrittenCells.
Import Py Frame Sheet.

Lemma safe_write_cell_writable (c : cell) : writable (safe_write_cell c).
Proof.
  unfold writable. destruct c as [|s|r|r]; cbn [safe_write_cell];
    try (split; [discriminate | reflexivity]).
  destruct (mem r ["inf"; "-inf"; "nan"]) eqn:E; cbn [safe_write_cell];
    [split; [discriminate | reflexivity]|].
  rewrite E. split; [discriminate | reflexivity].
Qed.

Lemma grand_total_cells_shape (n : nat) (raw : list cell) :
  List.length (grand_total_cells n raw) = n
  /\ Forall Sheet.writable (grand_total_cells n raw).
Proof.
  unfold grand_total_cells. split.
  - now rewrite length_map, length_seq.
  - apply Forall_forall. intros c Hc. apply in_map_iff in Hc.
    destruct Hc as (k & <- & _).
    destruct (Nat.ltb k (List.length raw)).
    + apply safe_write_cell_writable.
    + split; [discriminate | reflexivity].
Qed.

End WrittenCells.

(** X10.  factory-out.py, [main] with [create_download_file]: whenever a
    table is written it has a column and a row, and every cell written is
    text or a finite number.  When the sheet has a row with "grand total" in
    a cell, a footer is written; it comes from the first such row and has
    one cell per column of the table.  No footer is written only if the
    sheet has no such row. *)
Theorem factory_report_cells (is_object : nat -> list cell -> bool) (g : Sheet.grid)
  (t : frame cell) (footer : option (list cell)) :
  FactoryOut.report is_object g = Some (t, footer) ->
  columns t <> [] /\ rows t <> []
  /\ Forall (Forall Sheet.writable) (rows t)
  /\ match footer with
     | Some f =>
         List.length f = List.length (columns t)
         /\ Forall Sheet.writable f
         /\ exists k raw,
              nth_error g k = Some raw
              /\ Sheet.is_grand_total raw = true
              /\ Forall (fun r => Sheet.is_grand_total r = false) (firstn k g)
              /\ f = Sheet.grand_total_cells (List.length (columns t)) raw
     | None => Forall (fun r => Sheet.is_grand_total r = false) g
     end.
Proof.
  unfold FactoryOut.report.
  destruct (FactoryOut.process_excel is_object g) as [df gt] eqn:E.
  destruct (FactoryOut.empty df) eqn:Ee; [discriminate|].
  intros H. injection H as <- <-. cbn [columns rows].
  unfold FactoryOut.empty in Ee.
  destruct (columns df) as [|c cs] eqn:Ec; [discriminate|].
  destruct (rows df) as [|r rs] eqn:Er; [discriminate|].
  split; [discriminate|]. split; [discriminate|]. split.
  - apply Forall_forall. intros r' Hr. apply in_map_iff in Hr.
    destruct Hr as (r0 & <- & _). apply Forall_forall. intros c' Hc.
    apply in_map_iff in Hc. destruct Hc as (c0 & <- & _).
    apply safe_write_cell_writable.
  - assert (Hgt : gt = Sheet.extract_grand_total_row g).
    { unfold FactoryOut.process_excel in E.
      destruct (FactoryOut.process_body is_object g).
      - now injection E as _ <-.
      - injection E as <- _. cbn [rows] in Er. discriminate. }
    subst gt. unfold Sheet.extract_grand_total_row.
    destruct (find Sheet.is_grand_total g) as [raw|] eqn:Ef; cbn [option_map].
    + destruct (grand_total_cells_shape (List.length (c :: cs)) raw)
        as [Hl Hw].
      split; [exact Hl|]. split; [exact Hw|].
      clear - Ef. induction g as [|x g IH]; [discriminate|].
      simpl in Ef. destruct (Sheet.is_grand_total x) eqn:Ex.
      * injection Ef as ->. exists 0, raw. simpl. repeat split; auto.
      * destruct (IH Ef) as (k & raw' & Hn & Hq & Hf & Heq).
        exists (S k), raw'. simpl. repeat split; auto.
    + apply Forall_forall. intros x Hx.
      exact (find_none Sheet.is_grand_total g Ef x Hx).
Qed.

Lemma factory_report_cells_witness :
  columns Examples.factory_table <> []
  /\ rows Examples.factory_table <> []
  /\ Forall (Forall Sheet.writable) (rows Examples.factory_table)
  /\ (List.length
        [Str "Grand Total"; Str ""; Str ""; Str ""; Str ""; Num "10.5";
         Num "2.0"; Num "1.5"; Num "0.3"; Str ""]
      = List.length (columns Examples.factory_table)
      /\ Forall Sheet.writable
           [Str "Grand Total"; Str ""; Str ""; Str ""; Str ""; Num "10.5";
            Num "2.0"; Num "1.5"; Num "0.3"; Str ""]
      /\ exists k raw,
           nth_error Examples.factory_sheet k = Some raw
           /\ Sheet.is_grand_total raw = true
           /\ Forall (fun r => Sheet.is_grand_total r = false)
                     (firstn k Examples.factory_sheet)
           /\ [Str "Grand Total"; Str ""; Str ""; Str ""; Str ""; Num "10.5";
               Num "2.0"; Num "1.5"; Num "0.3"; Str ""]
              = Sheet.grand_total_cells
                  (List.length (columns Examples.factory_table)) raw).
Proof.
  apply (factory_report_cells Reference.is_object Examples.factory_sheet
           Examples.factory_table
           (Some [Str "Grand Total"; Str ""; Str ""; Str ""; Str "";
                  Num "10.5"; Num "2.0"; Num "1.5"; Num "0.3"; Str ""])).
  reflexivity.
Defined.

(** ** The loss report *)

Section LossFacts.
Import Py Frame Loss.

(** The search of lines 157-160 stops at the first source label that passes
    the test of line 158. *)
Lemma found_idx_first (col : string) (hs : list string) : forall idx h,
  In h hs ->
  negb (String.eqb h "")
  && contains (remove_char " " (lower col)) (remove_char " " (lower h)) = true ->
  exists k h',
    found_idx col idx hs = Some (idx + k)
    /\ nth_error hs k = Some h'
    /\ h' <> ""
    /\ contains (remove_char " " (lower col)) (remove_char " " (lower h'))
       = true
    /\ Forall (fun x =>
                 x = ""
                 \/ contains (remove_char " " (lower col))
                      (remove_char " " (lower x)) = false)
              (firstn k hs).
Proof.
  induction hs as [|x hs IH]; intros idx h Hin Ht; [destruct Hin|].
  cbn [found_idx].
  destruct (negb (String.eqb x "")
            && contains (remove_char " " (lower col))
                 (remove_char " " (lower x))) eqn:E.
  - exists 0, x. apply andb_true_iff in E. destruct E as [E1 E2].
    rewrite Nat.add_0_r. repeat split; auto.
    intros ->. discriminate.
  - destruct Hin as [->|Hin]; [congruence|].
    destruct (IH (S idx) h Hin Ht) as (k & h' & Hf & Hn & Hne & Hc & Hb).
    exists (S k), h'. rewrite <- Nat.add_succ_comm. repeat split; auto.
    cbn [firstn]. constructor; [|exact Hb].
    apply andb_false_iff in E. destruct E as [E|E]; [left | now right].
    apply negb_false_iff, String.eqb_eq in E. exact E.
Qed.

(** Whether [cell.value = val] makes a formula. *)
Lemma stored_formula (c : cell) (f : string) :
  stored c = Formula f <-> c = Str f /\ is_formula_text f = true.
Proof.
  destruct c as [|s|r|r]; cbn [stored];
    try (split; [discriminate | intros [H _]; discriminate H]).
  destruct (is_formula_text s) eqn:E; split.
  - intros H. injection H as <-. now split.
  - intros [H _]. injection H as <-. reflexivity.
  - discriminate.
  - intros [H Hf]. injection H as <-. congruence.
Qed.

Lemma header_row_idx_row (data : grid) (i : nat) :
  header_row_idx data = Ok i ->
  exists hdr,
    nth_error data i = Some hdr /\ nth i data [] = hdr
    /\ has_wc_name hdr = true
    /\ Forall (fun r => has_wc_name r = false) (firstn i data).
Proof.
  unfold header_row_idx.
  destruct (first_row has_wc_name 0 data) as [j|] eqn:E; [|discriminate].
  intros H. injection H as ->.
  destruct (first_row_some _ _ _ _ E) as (pre & hdr & post & -> & -> & Hh & Hp).
  cbn [Nat.add]. exists hdr.
  rewrite nth_error_length_app, firstn_length_app.
  split; [reflexivity|]. split; [|split; [exact Hh | exact Hp]].
  rewrite app_nth2, Nat.sub_diag by lia. reflexivity.
Qed.

Lemma write_rows_length (hs : list string) (data_rows : grid) : forall n,
  List.length (write_rows hs n data_rows) = List.length data_rows.
Proof.
  induction data_rows as [|r t IH]; intros n; simpl; [reflexivity|].
  now rewrite IH.
Qed.

Lemma write_rows_nth (hs : list string) (data_rows : grid) :
  forall n k old_row,
    nth_error data_rows k = Some old_row ->
    nth_error (write_rows hs n data_rows) k
    = Some (write_row hs (n + k) old_row).
Proof.
  induction data_rows as [|r t IH]; intros n k old_row H.
  - destruct k; discriminate.
  - destruct k as [|k]; cbn [write_rows nth_error] in H |- *.
    + injection H as ->. now rewrite Nat.add_0_r.
    + rewrite (IH (S n) k old_row H).
      now replace (S n + k) with (n + S k) by lia.
Qed.

End LossFacts.

(** X11.  loss.py, lines 144-161: when the header row is found, it is the
    first row of the sheet with a "wc name" cell, and the canonical column
    "Wc Name" always gets a source column: the first one of that row whose
    label is not empty and, spaces and case aside, contains "wcname"; every
    label before it is empty or does not contain it. *)
Theorem loss_header_gives_wc_name_column (data : Loss.grid) (i : nat) :
  Loss.header_row_idx data = Ok i ->
  exists hdr j h,
    nth_error data i = Some hdr
    /\ Loss.has_wc_name hdr = true
    /\ Forall (fun r => Loss.has_wc_name r = false) (firstn i data)
    /\ Loss.col_index_map (Loss.headers_old hdr) "Wc Name" = Some j
    /\ j < List.length hdr
    /\ nth_error (Loss.headers_old hdr) j = Some h
    /\ h <> ""
    /\ Py.contains "wcname" (Py.remove_char " " (Py.lower h)) = true
    /\ Forall (fun h' =>
                 h' = ""
                 \/ Py.contains "wcname" (Py.remove_char " " (Py.lower h'))
                    = false)
              (firstn j (Loss.headers_old hdr)).
Proof.
  intros H. destruct (header_row_idx_row _ _ H) as (hdr & Hn & _ & Hh & Hp).
  assert (Hc : exists c, In c hdr /\ Loss.truthy c = true
                         /\ Py.lower (Py.strip (py_str c)) = "wc name").
  { unfold Loss.has_wc_name in Hh. apply existsb_exists in Hh.
    destruct Hh as (c & Hc & He). apply filter_In in Hc.
    destruct Hc as [Hc Ht]. apply String.eqb_eq in He. eauto. }
  destruct Hc as (c & Hc & Ht & He).
  destruct (found_idx_first "Wc Name" (Loss.headers_old hdr) 0
              (Py.strip (py_str c))) as (k & h & Hf & Hk & Hne & Hw & Hb).
  { unfold Loss.headers_old. apply in_map_iff. exists c.
    now rewrite Ht. }
  { revert He. destruct (Py.strip (py_str c)) as [|a t]; intros He;
      [discriminate He|].
    rewrite He. reflexivity. }
  exists hdr, k, h.
  split; [exact Hn|]. split; [exact Hh|]. split; [exact Hp|].
  split; [exact Hf|].
  split; [|split; [exact Hk | split; [exact Hne | split; [exact Hw | exact Hb]]]].
  assert (Hl : k < List.length (Loss.headers_old hdr))
    by (apply nth_error_Some; congruence).
  unfold Loss.headers_old in Hl. now rewrite length_map in Hl.
Qed.

Lemma loss_header_gives_wc_name_column_witness :
  exists hdr j h,
    nth_error Examples.loss_sheet 1 = Some hdr
    /\ Loss.has_wc_name hdr = true
    /\ Forall (fun r => Loss.has_wc_name r = false)
              (firstn 1 Examples.loss_sheet)
    /\ Loss.col_index_map (Loss.headers_old hdr) "Wc Name" = Some j
    /\ j < List.length hdr
    /\ nth_error (Loss.headers_old hdr) j = Some h
    /\ h <> ""
    /\ Py.contains "wcname" (Py.remove_char " " (Py.lower h)) = true
    /\ Forall (fun h' =>
                 h' = ""
                 \/ Py.contains "wcname" (Py.remove_char " " (Py.lower h'))
                    = false)
              (firstn j (Loss.headers_old hdr)).
Proof.
  apply (loss_header_gives_wc_name_column Examples.loss_sheet 1).
  reflexivity.
Defined.

(** A sheet read with its formulas: the formula of the data row and the one
    of the total row are both written as formulas. *)
Lemma loss_formulas_example :
  Loss.process_excel Examples.loss_formulas
  = Ok [[Loss.Value (Str "Casting"); Loss.Rounded (Num "40.0"); Loss.Unset;
         Loss.Unset; Loss.Unset; Loss.Unset; Loss.Unset;
         Loss.Formula "=B2*0.01"; Loss.Formula "=G5+H5";
         Loss.Formula "=I5/(C5+D5+E5+F5)"];
        [Loss.Value (Str "Total"); Loss.Formula "=SUM(B2:B2)"; Loss.Unset;
         Loss.Unset; Loss.Unset; Loss.Unset; Loss.Unset;
         Loss.Value (Num "0.4"); Loss.Unset; Loss.Unset]].
Proof. reflexivity. Qed.

(** X12.  loss.py, lines 163-209: one row is written for each row below the
    header in which [any(row)] holds (some cell is neither [None], nor the
    empty text, nor zero), in the same order and from sheet row 5 on without
    a gap; each has ten cells.  Under each of the first eight canonical
    columns the cell is left unset when the column has no source cell in the
    row; otherwise a total row gets the source cell as [cell.value] stores
    it, and a data row gets the number rounded when the source cell is a
    number and the source cell as [cell.value] stores it when it is not.
    [cell.value] stores a text that starts with "=" as a formula, so a
    formula of the uploaded sheet is written as a formula, in a total row as
    in a data row; a total row has no other formula.  In a data row the cells
    under "FINAL LOSS" and "LOSS %" are formulas over the row's own sheet
    row; in a total row these two cells are left unset. *)
Theorem loss_rows_written_in_sequence (data : Loss.grid)
  (out : list (list Loss.written)) :
  Loss.process_excel data = Ok out ->
  exists i hdr,
    Loss.header_row_idx data = Ok i
    /\ nth_error data i = Some hdr
    /\ List.length out
       = List.length (filter (existsb Loss.truthy) (skipn (S i) data))
    /\ forall k old_row,
         nth_error (filter (existsb Loss.truthy) (skipn (S i) data)) k
         = Some old_row ->
         exists w,
           nth_error out k = Some w
           /\ List.length w = 10
           /\ (forall q col,
                 q < 8 -> nth_error Loss.required_columns q = Some col ->
                 nth_error w q
                 = Some match Loss.source_cell (Loss.headers_old hdr)
                                old_row col with
                        | None => Loss.Unset
                        | Some c =>
                            if Loss.is_total_row old_row then Loss.stored c
                            else match c with
                                 | Num r => Loss.Rounded (Num r)
                                 | _ => Loss.stored c
                                 end
                        end)
           /\ if Loss.is_total_row old_row
              then nth_error w 8 = Some Loss.Unset
                   /\ nth_error w 9 = Some Loss.Unset
                   /\ forall q f,
                        nth_error w q = Some (Loss.Formula f) ->
                        exists col,
                          q < 8
                          /\ nth_error Loss.required_columns q = Some col
                          /\ Loss.source_cell (Loss.headers_old hdr)
                               old_row col = Some (Str f)
                          /\ Loss.is_formula_text f = true
              else nth_error w 8
                   = Some (Loss.Formula
                             ("=G" ++ Sheet.string_of_nat (5 + k)
                              ++ "+H" ++ Sheet.string_of_nat (5 + k)))
                   /\ nth_error w 9
                      = Some (Loss.Formula
                                ("=I" ++ Sheet.string_of_nat (5 + k)
                                 ++ "/(C" ++ Sheet.string_of_nat (5 + k)
                                 ++ "+D" ++ Sheet.string_of_nat (5 + k)
                                 ++ "+E" ++ Sheet.string_of_nat (5 + k)
                                 ++ "+F" ++ Sheet.string_of_nat (5 + k)
                                 ++ ")")).
Proof.
  unfold Loss.process_excel.
  destruct (Loss.header_row_idx data) as [i|m] eqn:Hi; cbn [bind];
    [|discriminate].
  destruct (header_row_idx_row _ _ Hi) as (hdr & Hn & Hd & _ & _).
  rewrite Hd. intros H. injection H as <-. exists i, hdr.
  split; [reflexivity|]. split; [exact Hn|].
  split; [apply write_rows_length|].
  intros k old_row Hk.
  exists (Loss.write_row (Loss.headers_old hdr) (5 + k) old_row).
  split; [exact (write_rows_nth _ _ 5 k old_row Hk)|].
  split; [unfold Loss.write_row; now rewrite length_map|].
  assert (Hcell : forall q col,
             nth_error Loss.required_columns q = Some col ->
             Loss.is_total_row old_row = true ->
             nth_error (Loss.write_row (Loss.headers_old hdr) (5 + k) old_row) q
             = Some match Loss.source_cell (Loss.headers_old hdr)
                            old_row col with
                    | Some c => Loss.stored c
                    | None => Loss.Unset
                    end).
  { intros q col Hq Et. unfold Loss.write_row.
    now rewrite nth_error_map, Hq, Et. }
  split.
  - intros q col Hq Hcol.
    destruct (Loss.is_total_row old_row) eqn:Et.
    + rewrite (Hcell q col Hcol eq_refl).
      now destruct (Loss.source_cell _ old_row col).
    + unfold Loss.write_row. rewrite nth_error_map, Hcol, Et.
      cbn [option_map].
      do 8 (destruct q as [|q]; [cbn in Hcol; injection Hcol as <-;
                                 cbn [String.eqb Ascii.eqb Bool.eqb];
                                 destruct (Loss.source_cell _ old_row _)
                                   as [[]|]; reflexivity|]).
      lia.
  - destruct (Loss.is_total_row old_row) eqn:Et.
    + split; [exact (Hcell 8 _ eq_refl eq_refl)|].
      split; [exact (Hcell 9 _ eq_refl eq_refl)|].
      intros q f Hq.
      destruct (nth_error Loss.required_columns q) as [col|] eqn:Hcol.
      2:{ unfold Loss.write_row in Hq. rewrite nth_error_map, Hcol in Hq.
          discriminate Hq. }
      rewrite (Hcell q col Hcol eq_refl) in Hq. injection Hq as Hq.
      destruct (Loss.source_cell (Loss.headers_old hdr) old_row col)
        as [c|] eqn:Hs; [|discriminate Hq].
      apply stored_formula in Hq. destruct Hq as [-> Hf].
      exists col. split; [|split; [reflexivity | split; [exact Hs | exact Hf]]].
      do 8 (destruct q as [|q]; [lia|]).
      do 2 (destruct q as [|q];
            [cbn in Hcol; injection Hcol as <-; discriminate Hs|]).
      destruct q; discriminate Hcol.
    + unfold Loss.write_row. rewrite Et. split; reflexivity.
Qed.

Lemma loss_rows_written_in_sequence_witness :
  exists i hdr,
    Loss.header_row_idx Examples.loss_formulas = Ok i
    /\ nth_error Examples.loss_formulas i = Some hdr
    /\ List.length
         (Loss.write_rows (Loss.headers_old (nth 0 Examples.loss_formulas []))
            5 (filter (existsb Loss.truthy) (skipn 1 Examples.loss_formulas)))
       = List.length (filter (existsb Loss.truthy)
                        (skipn (S i) Examples.loss_formulas))
    /\ forall k old_row,
         nth_error (filter (existsb Loss.truthy)
                      (skipn (S i) Examples.loss_formulas)) k
         = Some old_row ->
         exists w,
           nth_error
             (Loss.write_rows
                (Loss.headers_old (nth 0 Examples.loss_formulas []))
                5 (filter (existsb Loss.truthy)
                     (skipn 1 Examples.loss_formulas))) k = Some w
           /\ List.length w = 10
           /\ (forall q col,
                 q < 8 -> nth_error Loss.required_columns q = Some col ->
                 nth_error w q
                 = Some match Loss.source_cell (Loss.headers_old hdr)
                                old_row col with
                        | None => Loss.Unset
                        | Some c =>
                            if Loss.is_total_row old_row then Loss.stored c
                            else match c with
                                 | Num r => Loss.Rounded (Num r)
                                 | _ => Loss.stored c
                                 end
                        end)
           /\ if Loss.is_total_row old_row
              then nth_error w 8 = Some Loss.Unset
                   /\ nth_error w 9 = Some Loss.Unset
                   /\ forall q f,
                        nth_error w q = Some (Loss.Formula f) ->
                        exists col,
                          q < 8
                          /\ nth_error Loss.required_columns q = Some col
                          /\ Loss.source_cell (Loss.headers_old hdr)
                               old_row col = Some (Str f)
                          /\ Loss.is_formula_text f = true
              else nth_error w 8
                   = Some (Loss.Formula
                             ("=G" ++ Sheet.string_of_nat (5 + k)
                              ++ "+H" ++ Sheet.string_of_nat (5 + k)))
                   /\ nth_error w 9
                      = Some (Loss.Formula
                                ("=I" ++ Sheet.string_of_nat (5 + k)
                                 ++ "/(C" ++ Sheet.string_of_nat (5 + k)
                                 ++ "+D" ++ Sheet.string_of_nat (5 + k)
                                 ++ "+E" ++ Sheet.string_of_nat (5 + k)
                                 ++ "+F" ++ Sheet.string_of_nat (5 + k)
                                 ++ ")")).
Proof.
  apply (loss_rows_written_in_sequence Examples.loss_formulas).
  reflexivity.
Defined.

Section LossDates.
Import Py Frame Loss.

Lemma fold_left_invariant {A B : Type} (P : A -> Prop) (f : A -> B -> A)
  (l : list B) : forall a,
  P a -> (forall a x, P a -> In x l -> P (f a x)) -> P (fold_left f l a).
Proof.
  induction l as [|x l IH]; intros a Ha Hf; [exact Ha|].
  simpl. apply IH.
  - apply Hf; [exact Ha | now left].
  - intros a' y Ha' Hy. apply Hf; [exact Ha' | now right].
Qed.

(** A date as [extract_dates_from_excel] may return it. *)
Lemma row_str_stripped (row : list cell) :
  Forall (fun s => strip s = s) (row_str row).
Proof.
  unfold row_str. apply Forall_forall. intros s Hs.
  apply in_map_iff in Hs. destruct Hs as (c & <- & _).
  destruct (truthy c); [apply strip_idempotent | reflexivity].
Qed.

Lemma date_after_stripped (key : string) (rs : list string) (i : nat)
  (cell : string) (cur : option string) :
  Forall (fun s => strip s = s) rs ->
  (forall d, cur = Some d -> d <> "" /\ strip d = d) ->
  forall d, date_after key rs i cell cur = Some d -> d <> "" /\ strip d = d.
Proof.
  intros Hrs Hcur d. unfold date_after.
  destruct (contains key (lower cell)); [|apply Hcur].
  destruct (contains ":" cell).
  - cbn zeta.
    destruct (String.eqb (strip (last (split ":" cell) "")) "") eqn:E;
      cbn [negb]; [apply Hcur|].
    intros H. injection H as <-. split; [|apply strip_idempotent].
    intros H. rewrite H in E. discriminate.
  - destruct (nth_error rs (S i)) as [next|] eqn:En; [|apply Hcur].
    destruct (String.eqb next "") eqn:E; cbn [negb]; [apply Hcur|].
    intros H. injection H as <-. split.
    + intros ->. discriminate.
    + apply nth_error_In in En.
      exact (proj1 (Forall_forall _ rs) Hrs _ En).
Qed.

Lemma date_after_unset (key : string) (rs : list string) (i : nat)
  (cell : string) (cur : option string) :
  contains key (lower cell) = false
  \/ (contains ":" cell = true /\ strip (last (split ":" cell) "") = "") ->
  date_after key rs i cell cur = cur.
Proof.
  unfold date_after. intros [H|[H1 H2]].
  - now rewrite H.
  - rewrite H1. cbn zeta. rewrite H2.
    now destruct (contains key (lower cell)).
Qed.

End LossDates.

(** X13.  [extract_dates_from_excel] of loss.py, on any sheet: a date that
    is returned is never the empty text and has no white space around it. *)
Theorem loss_dates_are_stripped_text (data : Loss.grid) (d : string) :
  fst (Loss.extract_dates_from_excel data) = Some d
  \/ snd (Loss.extract_dates_from_excel data) = Some d ->
  d <> "" /\ Py.strip d = d.
Proof.
  assert (G : forall d',
             (fst (Loss.extract_dates_from_excel data) = Some d'
              -> d' <> "" /\ Py.strip d' = d')
             /\ (snd (Loss.extract_dates_from_excel data) = Some d'
                 -> d' <> "" /\ Py.strip d' = d')).
  { unfold Loss.extract_dates_from_excel.
    apply (fold_left_invariant
             (fun st : option string * option string =>
                forall d',
                  (fst st = Some d' -> d' <> "" /\ Py.strip d' = d')
                  /\ (snd st = Some d' -> d' <> "" /\ Py.strip d' = d'))).
    - intros d'. split; discriminate.
    - intros st row Hst _. unfold Loss.scan_row.
      apply (fold_left_invariant
               (fun st : option string * option string =>
                  forall d',
                    (fst st = Some d' -> d' <> "" /\ Py.strip d' = d')
                    /\ (snd st = Some d' -> d' <> "" /\ Py.strip d' = d'))).
      + exact Hst.
      + intros st' ic Hst' _ d'. cbn [fst snd]. split.
        * apply date_after_stripped; [apply row_str_stripped|].
          intros d0. apply Hst'.
        * apply date_after_stripped; [apply row_str_stripped|].
          intros d0. apply Hst'. }
  intros [H|H]; now apply G in H.
Qed.

Lemma loss_dates_are_stripped_text_witness :
  "01/09/2025" <> "" /\ Py.strip "01/09/2025" = "01/09/2025".
Proof.
  apply (loss_dates_are_stripped_text
           [[Str "Monthly Loss"];
            [Str " From Date :  01/09/2025 "; Str "To Date"; Obj "30/09/2025"]]
           "01/09/2025").
  left. reflexivity.
Defined.

(** X14.  [extract_dates_from_excel] of loss.py looks at the first ten rows
    only, and a label cell with a colon is never completed from the cell to
    its right: when each text of these rows either lacks the label or has a
    colon with nothing but white space after the last one, no date is
    returned for that label. *)
Theorem loss_dates_need_a_value (data : Loss.grid) :
  Forall (fun row =>
            Forall (fun c =>
                      (Py.contains "from date" (Py.lower c) = false
                       \/ (Py.contains ":" c = true
                           /\ Py.strip (last (Py.split ":" c) "") = ""))
                      /\ (Py.contains "to date" (Py.lower c) = false
                          \/ (Py.contains ":" c = true
                              /\ Py.strip (last (Py.split ":" c) "") = "")))
                   (Loss.row_str row))
         (firstn 10 data) ->
  Loss.extract_dates_from_excel data = (None, None).
Proof.
  intros H. unfold Loss.extract_dates_from_excel.
  apply (fold_left_invariant
           (fun st : option string * option string => st = (None, None)));
    [reflexivity|].
  intros st row -> Hrow.
  pose proof (proj1 (Forall_forall _ _) H row Hrow) as Hr.
  unfold Loss.scan_row.
  apply (fold_left_invariant
           (fun st : option string * option string => st = (None, None)));
    [reflexivity|].
  intros st [i c] -> Hic. apply in_combine_r in Hic.
  destruct (proj1 (Forall_forall _ _) Hr _ Hic) as [Hf Ht].
  cbn [fst snd]. now rewrite !date_after_unset.
Qed.

Lemma loss_dates_need_a_value_witness :
  Loss.extract_dates_from_excel
    [[Str "Monthly Loss"];
     [Str "From Date :"; Str "01/09/2025"; Str "To Date: "; Str "30/09/2025"];
     [NaN]; [NaN]; [NaN]; [NaN]; [NaN]; [NaN]; [NaN]; [NaN];
     [Str "From Date"; Str "01/09/2025"]]
  = (None, None).
Proof.
  apply loss_dates_need_a_value.
  repeat (apply Forall_cons || apply Forall_nil);
    (split; [(left; reflexivity) || (right; split; reflexivity)
            |(left; reflexivity) || (right; split; reflexivity)]).
Defined.

(** ** The karat in a style code *)

Section KaratPosition.
Import Py Karat.
Context {char : Type}.
Variable is_word : char -> bool.
Variable ci : ascii -> char -> bool.
Hypothesis ci_word :
  forall pc c, pattern_char pc -> ci pc c = true -> is_word c = true.

Lemma clear_before_cons (prev : option char) (c : char) (a : list char) :
  clear_before is_word prev (c :: a) <-> clear_before is_word (Some c) a.
Proof.
  unfold clear_before. simpl. destruct (rev a); simpl; tauto.
Qed.

Lemma match_alt_split (p : string) : forall s last g,
  Forall pattern_char (list_ascii_of_string p) ->
  word_opt char is_word last = true ->
  match_alt is_word ci p s last = Some g ->
  exists rest,
    s = g ++ rest
    /\ Forall2 (fun pc c => ci pc c = true) (list_ascii_of_string p) g
    /\ word_opt char is_word (hd_error rest) = false.
Proof.
  induction p as [|pc p IH]; intros s last g Hp Hl H; simpl in H.
  - unfold word_boundary in H. rewrite Hl in H.
    destruct (word_opt char is_word (hd_error s)) eqn:E; [discriminate|].
    injection H as <-. exists s. repeat split; [constructor | exact E].
  - destruct s as [|c s]; [discriminate|].
    destruct (ci pc c) eqn:Hc; [|discriminate].
    destruct (match_alt is_word ci p s (Some c)) as [g'|] eqn:Hg;
      [|discriminate].
    injection H as <-. simpl in Hp. inversion Hp; subst.
    destruct (IH s (Some c) g') as (rest & -> & Hf & Hr); auto.
    { simpl. eauto. }
    exists rest. repeat split; [constructor; auto | exact Hr].
Qed.

Lemma match_alt_found (p : list ascii) : forall g rest last,
  Forall pattern_char p ->
  Forall2 (fun pc c => ci pc c = true) p g ->
  word_opt char is_word last = true ->
  word_opt char is_word (hd_error rest) = false ->
  match_alt is_word ci (string_of_list_ascii p) (g ++ rest) last = Some g.
Proof.
  induction p as [|pc p IH]; intros g rest last Hp Hf Hl Hr;
    inversion Hf; subst; simpl.
  - unfold word_boundary. now rewrite Hl, Hr.
  - inversion Hp; subst.
    match goal with H : ci pc ?c = true |- _ => rewrite H;
      rewrite (IH _ rest (Some c)); auto; simpl; eauto end.
Qed.

Lemma match_group_in (alts : list string) : forall s prev g,
  match_group is_word ci alts s prev = Some g ->
  exists p, In p alts /\ match_alt is_word ci p s prev = Some g.
Proof.
  induction alts as [|p alts IH]; intros s prev g H; simpl in H;
    [discriminate|].
  destruct (match_alt is_word ci p s prev) as [g'|] eqn:E.
  - injection H as <-. exists p. split; [now left | exact E].
  - destruct (IH _ _ _ H) as (q & Hq & Hm). exists q. split; [now right|auto].
Qed.

Lemma match_group_some (alts : list string) : forall p s prev g,
  In p alts -> match_alt is_word ci p s prev = Some g ->
  exists g', match_group is_word ci alts s prev = Some g'.
Proof.
  induction alts as [|q alts IH]; intros p s prev g Hin H; [destruct Hin|].
  simpl. destruct (match_alt is_word ci q s prev) as [g'|] eqn:E; [eauto|].
  destruct Hin as [->|Hin]; [congruence | eauto].
Qed.

(** Where [match_here] matches: the text starts with the match, there is no
    word character before it and none after it. *)
Lemma match_here_split (prev : option char) (s g : list char) :
  match_here is_word ci prev s = Some g ->
  exists p rest,
    In p karat_pattern
    /\ s = g ++ rest
    /\ Forall2 (fun pc c => ci pc c = true) (list_ascii_of_string p) g
    /\ word_opt char is_word prev = false
    /\ word_opt char is_word (hd_error rest) = false.
Proof.
  unfold match_here. intros H.
  destruct (word_boundary is_word prev (hd_error s)) eqn:Hb; [|discriminate].
  apply match_group_in in H. destruct H as (p & Hp & Hm).
  assert (Hc : Forall pattern_char (list_ascii_of_string p)).
  { exact (proj1 (Forall_forall _ _) karat_pattern_chars p Hp). }
  destruct p as [|pc p].
  { unfold karat_pattern in Hp. simpl in Hp.
    repeat (destruct Hp as [Hp|Hp]; [discriminate|]). destruct Hp. }
  simpl in Hm. destruct s as [|c s]; [discriminate|].
  destruct (ci pc c) eqn:Ec; [|discriminate].
  destruct (match_alt is_word ci p s (Some c)) as [g'|] eqn:Hg;
    [|discriminate].
  injection Hm as <-. simpl in Hc. inversion Hc; subst.
  assert (Hw : is_word c = true) by eauto.
  destruct (match_alt_split p s (Some c) g') as (rest & -> & Hf & Hr); auto.
  exists (String pc p), rest. split; [exact Hp|]. split; [reflexivity|].
  split; [constructor; auto|]. split; [|exact Hr].
  unfold word_boundary in Hb. simpl in Hb. rewrite Hw in Hb.
  now destruct (word_opt char is_word prev).
Qed.

Lemma match_here_found (p : string) (prev : option char)
  (g rest : list char) :
  In p karat_pattern ->
  Forall2 (fun pc c => ci pc c = true) (list_ascii_of_string p) g ->
  word_opt char is_word prev = false ->
  word_opt char is_word (hd_error rest) = false ->
  exists g', match_here is_word ci prev (g ++ rest) = Some g'.
Proof.
  intros Hp Hf Hb Hr.
  assert (Hc : Forall pattern_char (list_ascii_of_string p)).
  { exact (proj1 (Forall_forall _ _) karat_pattern_chars p Hp). }
  destruct p as [|pc p].
  { unfold karat_pattern in Hp. simpl in Hp.
    repeat (destruct Hp as [Hp|Hp]; [discriminate|]). destruct Hp. }
  simpl in Hf, Hc. inversion Hf as [|? c ? g0 Hci Hf0]; subst.
  inversion Hc; subst.
  assert (Hw : is_word c = true) by eauto.
  assert (Hm : match_alt is_word ci (String pc p) ((c :: g0) ++ rest) prev
               = Some (c :: g0)).
  { simpl. rewrite Hci. rewrite <- (string_of_list_ascii_of_string p).
    rewrite (match_alt_found (list_ascii_of_string p) g0 rest (Some c)); auto. }
  destruct (match_group_some karat_pattern _ _ _ _ Hp Hm) as (g' & Hg).
  exists g'. unfold match_here.
  assert (Hwb : word_boundary is_word prev (hd_error ((c :: g0) ++ rest))
                = true).
  { unfold word_boundary. simpl. now rewrite Hb, Hw. }
  rewrite Hwb. exact Hg.
Qed.

Lemma re_search_split (s : list char) : forall prev g,
  re_search is_word ci prev s = Some g ->
  exists p a rest,
    In p karat_pattern
    /\ s = a ++ g ++ rest
    /\ Forall2 (fun pc c => ci pc c = true) (list_ascii_of_string p) g
    /\ clear_before is_word prev a
    /\ word_opt char is_word (hd_error rest) = false.
Proof.
  assert (Hh : forall prev t g,
             match_here is_word ci prev t = Some g ->
             exists p a rest,
               In p karat_pattern
               /\ t = a ++ g ++ rest
               /\ Forall2 (fun pc c => ci pc c = true)
                    (list_ascii_of_string p) g
               /\ clear_before is_word prev a
               /\ word_opt char is_word (hd_error rest) = false).
  { intros prev t g H. apply match_here_split in H.
    destruct H as (p & rest & Hp & -> & Hf & Hb & Hr).
    exists p, [], rest. repeat split; auto. }
  induction s as [|c s IH]; intros prev g H; simpl in H.
  - destruct (match_here is_word ci prev []) eqn:Hm; [|discriminate].
    injection H as <-. eauto.
  - destruct (match_here is_word ci prev (c :: s)) eqn:Hm.
    + injection H as <-. eauto.
    + destruct (IH _ _ H) as (p & a & rest & Hp & -> & Hf & Hb & Hr).
      exists p, (c :: a), rest. repeat split; auto.
      now apply clear_before_cons.
Qed.

Lemma re_search_found (p : string) (a : list char) : forall prev g rest,
  In p karat_pattern ->
  Forall2 (fun pc c => ci pc c = true) (list_ascii_of_string p) g ->
  clear_before is_word prev a ->
  word_opt char is_word (hd_error rest) = false ->
  exists g', re_search is_word ci prev (a ++ g ++ rest) = Some g'.
Proof.
  induction a as [|c a IH]; intros prev g rest Hp Hf Hb Hr.
  - destruct (match_here_found p prev g rest Hp Hf Hb Hr) as (g' & Hg).
    exists g'. simpl. destruct (g ++ rest); simpl; simpl in Hg; now rewrite Hg.
  - simpl. destruct (match_here is_word ci prev (c :: a ++ g ++ rest));
      [eauto|].
    apply (IH (Some c) g rest Hp Hf); [|exact Hr].
    exact (proj1 (clear_before_cons prev c a) Hb).
Qed.

End KaratPosition.

Lemma ci_eqb_word (pc c : ascii) :
  Karat.pattern_char pc -> Karat.ci_eqb pc c = true -> Py.is_word c = true.
Proof.
  intros Hp.
  repeat (destruct Hp as [<-|Hp]; [|]); try contradiction;
    destruct c as [[] [] [] [] [] [] [] []]; vm_compute;
    intros H; try discriminate H; reflexivity.
Qed.

Lemma upper_char_ci_eqb (pc c : ascii) :
  Karat.pattern_char pc -> Py.upper_char c = pc -> Karat.ci_eqb pc c = true.
Proof.
  intros Hp.
  repeat (destruct Hp as [<-|Hp]; [|]); try contradiction;
    destruct c as [[] [] [] [] [] [] [] []]; vm_compute;
    intros H; try discriminate H; reflexivity.
Qed.

Lemma upper_matches (p : list ascii) : forall g,
  Forall Karat.pattern_char p ->
  map Py.upper_char g = p ->
  Forall2 (fun pc c => Karat.ci_eqb pc c = true) p g.
Proof.
  induction p as [|pc p IH]; intros g Hp H.
  - destruct g; [constructor | discriminate].
  - destruct g as [|c g]; [discriminate|]. simpl in H.
    injection H as Hc Hg. inversion Hp; subst. constructor.
    + now apply upper_char_ci_eqb.
    + now apply IH.
Qed.

(** X15.  [extract_karat] on a style code of 8-bit characters: a karat that
    is returned stands in the style code, in some case, as a word of its own
    (no letter, digit or underscore right before it or right after it) and is
    one of 18KT, 22KT and 24KT. *)
Theorem extract_karat_stands_in_style_code (v : cell) :
  Karat.extract_karat v <> "" ->
  exists s a g b,
    v = Str s
    /\ list_ascii_of_string s = a ++ g ++ b
    /\ Py.upper (string_of_list_ascii g) = Karat.extract_karat v
    /\ In (Karat.extract_karat v) Karat.karat_pattern
    /\ Karat.clear_before Py.is_word None a
    /\ Karat.word_opt ascii Py.is_word (hd_error b) = false.
Proof.
  intros Hne.
  assert (Hin : In (Karat.extract_karat v) Karat.karat_pattern).
  { destruct (proj1 (extract_karat_four_values v)) as [H|H];
      [now destruct Hne | exact H]. }
  destruct v as [|s|r|r]; try (now destruct Hne).
  exists s. unfold Karat.extract_karat in *.
  destruct (Karat.re_search Py.is_word Karat.ci_eqb None
              (list_ascii_of_string s)) as [g|] eqn:E; [|now destruct Hne].
  destruct (re_search_split Py.is_word Karat.ci_eqb ci_eqb_word _ _ _ E)
    as (p & a & rest & _ & Hs & _ & Hb & Hr).
  exists a, g, rest. repeat split; auto.
Qed.

Lemma extract_karat_stands_in_style_code_witness :
  exists s a g b,
    Str "ABC-22kt-001" = Str s
    /\ list_ascii_of_string s = a ++ g ++ b
    /\ Py.upper (string_of_list_ascii g)
       = Karat.extract_karat (Str "ABC-22kt-001")
    /\ In (Karat.extract_karat (Str "ABC-22kt-001")) Karat.karat_pattern
    /\ Karat.clear_before Py.is_word None a
    /\ Karat.word_opt ascii Py.is_word (hd_error b) = false.
Proof.
  apply (extract_karat_stands_in_style_code (Str "ABC-22kt-001")).
  vm_compute. discriminate.
Defined.

(** X16.  [extract_karat] on a style code of 8-bit characters never misses a
    karat: when 18KT, 22KT or 24KT stands somewhere in the style code, in any
    case, with no letter, digit or underscore right before it or right after
    it, the result is one of the three (that of the leftmost such place) and
    not the empty string. *)
Theorem extract_karat_finds_a_karat_word (p : string) (a g b : list ascii) :
  In p Karat.karat_pattern ->
  Py.upper (string_of_list_ascii g) = p ->
  Karat.clear_before Py.is_word None a ->
  Karat.word_opt ascii Py.is_word (hd_error b) = false ->
  In (Karat.extract_karat (Str (string_of_list_ascii (a ++ g ++ b))))
     Karat.karat_pattern.
Proof.
  intros Hp Hu Hb Hr.
  assert (Hf : Forall2 (fun pc c => Karat.ci_eqb pc c = true)
                 (list_ascii_of_string p) g).
  { apply upper_matches.
    - exact (proj1 (Forall_forall _ _) karat_pattern_chars p Hp).
    - rewrite <- Hu, upper_list.
      now rewrite list_ascii_of_string_of_list_ascii. }
  destruct (re_search_found Py.is_word Karat.ci_eqb ci_eqb_word p a None g b
              Hp Hf Hb Hr) as (g' & Hg).
  pose proof (proj1 (extract_karat_four_values
                       (Str (string_of_list_ascii (a ++ g ++ b))))) as H4.
  unfold Karat.extract_karat in *.
  rewrite list_ascii_of_string_of_list_ascii in *. rewrite Hg in *.
  destruct H4 as [H4|H4]; [|exact H4].
  exfalso. rewrite upper_list in H4.
  apply (f_equal list_ascii_of_string) in H4.
  rewrite list_ascii_of_string_of_list_ascii in H4. simpl in H4.
  apply re_search_split in Hg; [|exact ci_eqb_word].
  destruct Hg as (q & _ & _ & Hq & _ & Hf' & _).
  destruct g' as [|c g']; [|discriminate].
  inversion Hf' as [Hnil|]. unfold Karat.karat_pattern in Hq. simpl in Hq.
  repeat (destruct Hq as [<-|Hq]; [discriminate Hnil|]). destruct Hq.
Qed.

Lemma extract_karat_finds_a_karat_word_witness :
  In (Karat.extract_karat
        (Str (string_of_list_ascii
                (list_ascii_of_string "ABC-"
                 ++ list_ascii_of_string "22kt"
                 ++ list_ascii_of_string "-001"))))
     Karat.karat_pattern.
Proof.
  apply (extract_karat_finds_a_karat_word "22KT");
    [right; left; reflexivity | reflexivity | reflexivity | reflexivity].
Defined.

(** ** The derived column *)

Section KaratColumn.
Import Py Frame Sheet FactoryOut.

Lemma nth_error_insert_after {A : Type} (i : nat) (x : A) (l : list A) :
  S i <= List.length l ->
  nth_error (firstn (S i) l ++ x :: skipn (S i) l) (S i) = Some x
  /\ nth_error (firstn (S i) l ++ x :: skipn (S i) l) i = nth_error l i.
Proof.
  intros H.
  assert (L : List.length (firstn (S i) l) = S i)
    by (rewrite length_firstn; lia).
  split.
  - rewrite nth_error_app2 by lia. now rewrite L, Nat.sub_diag.
  - rewrite nth_error_app1 by lia. rewrite nth_error_firstn.
    destruct (Nat.ltb_spec i (S i)); [reflexivity | lia].
Qed.

Lemma karat_value_stripped (v : cell) :
  In (strip (Karat.extract_karat v)) [""; "18KT"; "22KT"; "24KT"].
Proof.
  destruct (proj1 (extract_karat_four_values v)) as [H|[H|[H|[H|[]]]]];
    rewrite <- H; cbn; auto.
Qed.

Lemma add_karat_inserts (d1 d2 : frame cell) :
  add_karat d1 = Ok d2 ->
  mem "Style No" (columns d1) = true ->
  exists i,
    series_loc "Style No" d1 = Ok i
    /\ columns d2
       = firstn (S i) (columns d1) ++ "Karat" :: skipn (S i) (columns d1)
    /\ rows d2
       = map (fun r =>
                firstn (S i) r
                ++ Str (Karat.extract_karat (nth i r NaN)) :: skipn (S i) r)
             (rows d1).
Proof.
  unfold add_karat. intros H Hm. rewrite Hm in H.
  destruct (series_loc "Style No" d1) as [i|]; [|discriminate].
  exists i. split; [reflexivity|].
  assert (E : d2 = mkFrame
                (firstn (S i) (columns d1) ++ "Karat" :: skipn (S i) (columns d1))
                (map (fun r =>
                        firstn (S i) r
                        ++ Str (Karat.extract_karat (nth i r NaN))
                           :: skipn (S i) r)
                     (rows d1)))
    by (cbn [bind] in H; injection H as <-; reflexivity).
  rewrite E. split; reflexivity.
Qed.

End KaratColumn.

(** X17.  factory-out.py, lines 186-214, on a sheet whose texts are made of
    8-bit characters (the texts of this development), whatever dtypes pandas
    gives the columns: whenever the table has a "Style No" column, the column
    right after it is "Karat", and every cell of that column is the text "",
    "18KT", "22KT" or "24KT".  A style code with the Kelvin sign U+212A is
    outside this statement: there [extract_karat], and so the "Karat" cell,
    can be the matched text with the Kelvin sign left in it. *)
Theorem factory_karat_follows_style_no (is_object : nat -> list cell -> bool)
  (g : Sheet.grid) :
  In "Style No" (columns (fst (FactoryOut.process_excel is_object g))) ->
  exists i,
    nth_error (columns (fst (FactoryOut.process_excel is_object g))) i
    = Some "Style No"
    /\ nth_error (columns (fst (FactoryOut.process_excel is_object g))) (S i)
       = Some "Karat"
    /\ Forall (fun r =>
                 exists k, nth_error r (S i) = Some (Str k)
                           /\ In k [""; "18KT"; "22KT"; "24KT"])
              (rows (fst (FactoryOut.process_excel is_object g))).
Proof.
  unfold FactoryOut.process_excel.
  destruct (FactoryOut.process_body is_object g) as [df|m] eqn:E; cbn [fst].
  2:{ intros _. exists 3. repeat split. constructor. }
  unfold FactoryOut.process_body, FactoryOut.read_body in E.
  destruct (Frame.select NaN _ _) as [d1|] eqn:H1; cbn [bind] in E;
    [|discriminate].
  destruct (FactoryOut.add_karat d1) as [d2|] eqn:H2; cbn [bind] in E;
    [|discriminate].
  destruct (FactoryOut.clean_dates d2) as [d3|] eqn:H3; cbn [bind] in E;
    [|discriminate].
  intros Hin.
  pose proof (clean_columns _ _ _ E) as [C4 _].
  pose proof (clean_dates_columns _ _ H3) as C3.
  rewrite C4, C3 in *.
  pose proof (select_width _ _ _ _ H1) as Hw.
  (* the column is added *)
  assert (K2 : exists i,
             nth_error (columns d2) i = Some "Style No"
             /\ nth_error (columns d2) (S i) = Some "Karat"
             /\ Forall (fun r =>
                          exists v, nth_error r (S i)
                                    = Some (Str (Karat.extract_karat v)))
                       (rows d2)).
  { destruct (Py.mem "Style No" (columns d1)) eqn:Hm.
    - destruct (add_karat_inserts _ _ H2 Hm) as (i & Hi & Ec & Er).
      rewrite Ec, Er. apply series_loc_spec in Hi.
      assert (Hl : S i <= List.length (columns d1)).
      { apply Nat.le_succ_l. apply nth_error_Some. congruence. }
      exists i.
      destruct (nth_error_insert_after i "Karat" (columns d1) Hl) as [A B].
      split; [now rewrite B|]. split; [exact A|].
      apply Forall_forall. intros r Hr. apply in_map_iff in Hr.
      destruct Hr as (r0 & <- & Hr0). exists (nth i r0 NaN).
      apply nth_error_insert_after.
      rewrite (proj1 (Forall_forall _ _) Hw r0 Hr0). exact Hl.
    - unfold FactoryOut.add_karat in H2. rewrite Hm in H2.
      injection H2 as <-. apply mem_false in Hm. now destruct Hm. }
  destruct K2 as (i & Ks & Kk & Kr). exists i.
  split; [exact Ks|]. split; [exact Kk|].
  (* the dates are cleaned in another column *)
  assert (K3 : Forall (fun r =>
                         exists v, nth_error r (S i)
                                   = Some (Str (Karat.extract_karat v)))
                      (rows d3)).
  { unfold FactoryOut.clean_dates in H3.
    destruct (Py.mem "Trans Date" (columns d2)).
    - destruct (Frame.series_loc "Trans Date" d2) as [j|] eqn:Hj;
        cbn [bind] in H3; [|discriminate].
      injection H3 as <-. cbn [rows].
      apply series_loc_spec in Hj.
      assert (Hne : S i <> j) by (intros <-; congruence).
      apply Forall_forall. intros r Hr. apply in_map_iff in Hr.
      destruct Hr as (r0 & <- & Hr0).
      rewrite set_nth_other by exact Hne.
      exact (proj1 (Forall_forall _ _) Kr r0 Hr0).
    - now injection H3 as <-. }
  (* the cells are stripped, or not, and filled *)
  apply Forall_forall. intros r Hr.
  destruct (clean_row_origin _ _ _ _ E Hr) as (_ & r0 & Hr0 & ->).
  destruct (proj1 (Forall_forall _ _) K3 r0 Hr0) as (v & Hv).
  rewrite nth_error_map, strip_row_nth, Hv. cbn [option_map].
  destruct (is_object _ _); cbn [Sheet.strip_cell Sheet.fillna].
  - exists (Py.strip (Karat.extract_karat v)).
    split; [reflexivity | apply karat_value_stripped].
  - exists (Karat.extract_karat v).
    split; [reflexivity | apply extract_karat_four_values].
Qed.

Lemma factory_karat_follows_style_no_witness :
  exists i,
    nth_error
      (columns (fst (FactoryOut.process_excel Reference.is_object
                       Examples.factory_sheet)))
      i = Some "Style No"
    /\ nth_error
         (columns (fst (FactoryOut.process_excel Reference.is_object
                          Examples.factory_sheet)))
         (S i) = Some "Karat"
    /\ Forall (fun r =>
                 exists k, nth_error r (S i) = Some (Str k)
                           /\ In k [""; "18KT"; "22KT"; "24KT"])
              (rows (fst (FactoryOut.process_excel Reference.is_object
                            Examples.factory_sheet))).
Proof.
  apply (factory_karat_follows_style_no Reference.is_object
           Examples.factory_sheet).
  vm_compute. tauto.
Defined.

(** ** The title *)

Section TitleFacts.
Import Py FactoryOut.

(** A text without white space at its end. *)
Lemma rstrip_tail (c : ascii) (t : string) :
  rstrip (String c t) = String c t -> rstrip t = t.
Proof.
  cbn [rstrip]. destruct (rstrip t) as [|d u] eqn:E.
  - destruct (is_space c); [discriminate|]. intros H. now injection H as <-.
  - intros H. now injection H as <-.
Qed.

Lemma rstrip_suffix (x b : string) :
  rstrip (x ++ b) = (x ++ b)%string -> rstrip b = b.
Proof.
  induction x as [|c x IH]; [auto|].
  change (String c x ++ b)%string with (String c (x ++ b)).
  intros H. apply IH. exact (rstrip_tail _ _ H).
Qed.

Lemma rstrip_spaces (b : string) :
  (forall c, In c (list_ascii_of_string b) -> is_space c = true) ->
  rstrip b = "".
Proof.
  induction b as [|c b IH]; intros H; [reflexivity|].
  cbn [rstrip]. rewrite IH by (intros d Hd; apply H; now right).
  now rewrite (H c) by now left.
Qed.

Lemma append_empty (s : string) : (s ++ "")%string = s.
Proof. induction s as [|c s IH]; cbn; [reflexivity | now rewrite IH]. Qed.

(** The leading characters of a class. *)
Lemma class_split (cls : ascii -> bool) (s : string) :
  exists run rest,
    s = (run ++ rest)%string
    /\ (forall c, In c (list_ascii_of_string run) -> cls c = true)
    /\ match rest with
       | EmptyString => True
       | String c _ => cls c = false
       end.
Proof.
  induction s as [|c s IH].
  - exists "", "". repeat split. intros c [].
  - destruct (cls c) eqn:Ec.
    + destruct IH as (run & rest & -> & Hr & Hh).
      exists (String c run), rest. repeat split; [|exact Hh].
      intros d [<-|Hd]; [exact Ec | now apply Hr].
    + exists "", (String c s). repeat split; [|exact Ec]. intros d [].
Qed.

(** The star takes the whole run when what follows matches after it. *)
Lemma star_greedy (cls : ascii -> bool) (k : string -> option string)
  (run rest g : string) :
  (forall c, In c (list_ascii_of_string run) -> cls c = true) ->
  match rest with
  | EmptyString => True
  | String c _ => cls c = false
  end ->
  k rest = Some g ->
  star cls k (run ++ rest) = Some g.
Proof.
  intros Hr Hh Hk. induction run as [|c run IH]; cbn [append].
  - destruct rest as [|d rest]; cbn [star]; [exact Hk|]. now rewrite Hh.
  - cbn [star]. rewrite (Hr c) by now left.
    rewrite IH; [reflexivity|]. intros d Hd. apply Hr. now right.
Qed.

(** At the end of the text the star gives back its last character. *)
Lemma star_gives_back (cls : ascii -> bool) (k : string -> option string)
  (run : string) :
  (forall c, In c (list_ascii_of_string run) -> cls c = true) ->
  run <> "" ->
  k "" = None ->
  (forall c, cls c = true -> k (String c "") = Some (String c "")) ->
  exists c, cls c = true /\ star cls k run = Some (String c "").
Proof.
  intros Hr Hne H0 H1. induction run as [|c run IH]; [now destruct Hne|].
  assert (Hc : cls c = true) by (apply Hr; now left).
  cbn [star]. rewrite Hc. destruct run as [|d run].
  - exists c. cbn [star]. rewrite H0. split; [exact Hc | now apply H1].
  - destruct IH as (e & He & Hs); [|discriminate|].
    + intros x Hx. apply Hr. now right.
    + exists e. split; [exact He|]. now rewrite Hs.
Qed.

Lemma not_space_not_newline (c : ascii) :
  is_space c = false -> Ascii.eqb c newline = false.
Proof.
  intros H. destruct (Ascii.eqb c newline) eqn:E; [|reflexivity].
  apply Ascii.eqb_eq in E. subst c. discriminate H.
Qed.

Lemma strip_head (c : ascii) (t : string) :
  is_space c = false -> strip (String c t) <> "".
Proof.
  intros H. unfold strip. rewrite (lstrip_fixed c t H).
  destruct (rstrip_head c t H) as (u & ->). discriminate.
Qed.

(** After "Trans Type", in a text without white space at its end, the group
    holds a character that is not white space. *)
Lemma title_group_not_blank (r g : string) :
  rstrip r = r ->
  star is_space (star colon_or_dash (star is_space dot_plus)) r = Some g ->
  strip g <> "".
Proof.
  intros Hn.
  destruct (class_split is_space r) as (w1 & a & -> & Hw1 & Ha).
  destruct (class_split colon_or_dash a) as (cd & b & -> & Hcd & Hb).
  destruct (class_split is_space b) as (w2 & t & -> & Hw2 & Ht).
  destruct t as [|c t].
  - (* nothing after the separators *)
    rewrite append_empty in *.
    assert (Hw : w2 = "").
    { apply rstrip_suffix in Hn. apply rstrip_suffix in Hn.
      now rewrite (rstrip_spaces w2 Hw2) in Hn. }
    subst w2. rewrite append_empty in *.
    destruct cd as [|c cd].
    + assert (Hr : w1 = "").
      { rewrite append_empty in Hn. now rewrite (rstrip_spaces w1 Hw1) in Hn. }
      subst w1. discriminate.
    + destruct (star_gives_back colon_or_dash (star is_space dot_plus)
                  (String c cd) Hcd) as (e & He & Hs);
        [discriminate | reflexivity | |].
      * intros x Hx. unfold colon_or_dash in Hx.
        apply orb_true_iff in Hx.
        destruct Hx as [Hx|Hx]; apply Ascii.eqb_eq in Hx; subst x;
          reflexivity.
      * rewrite (star_greedy is_space _ w1 (String c cd) _ Hw1) by
          (try exact Hs; unfold colon_or_dash in Hcd;
           pose proof (Hcd c (or_introl eq_refl)) as Hx;
           apply orb_true_iff in Hx;
           destruct Hx as [Hx|Hx]; apply Ascii.eqb_eq in Hx; subst c;
           reflexivity).
        intros H. injection H as <-. unfold colon_or_dash in He.
        apply orb_true_iff in He.
        destruct He as [Hx|Hx]; apply Ascii.eqb_eq in Hx; subst e;
          discriminate.
  - (* some text after the separators *)
    assert (Hd : dot_plus (String c t) = Some (String c (take_line t))).
    { unfold dot_plus. cbn [take_line].
      now rewrite (not_space_not_newline c Ht). }
    pose proof (star_greedy is_space dot_plus w2 (String c t) _ Hw2 Ht Hd)
      as H3.
    pose proof (star_greedy colon_or_dash _ cd (w2 ++ String c t) _ Hcd Hb H3)
      as H2.
    rewrite (star_greedy is_space _ w1 _ _ Hw1 Ha H2).
    intros H. injection H as <-. now apply strip_head.
Qed.

Lemma lit_ci_suffix (p : string) : forall s r,
  lit_ci p s = Some r -> rstrip s = s -> rstrip r = r.
Proof.
  induction p as [|pc p IH]; intros s r H Hs; cbn [lit_ci] in H.
  - now injection H as <-.
  - destruct s as [|c s]; [discriminate|].
    destruct (Karat.ci_eqb pc c); [|discriminate].
    apply (IH s r H). exact (rstrip_tail _ _ Hs).
Qed.

Lemma title_search_not_blank (s : string) : forall g,
  rstrip s = s -> title_search s = Some g -> strip g <> "".
Proof.
  assert (Hh : forall s g, rstrip s = s -> title_match_here s = Some g ->
                           strip g <> "").
  { intros s0 g Hs H. unfold title_match_here in H.
    destruct (lit_ci "Trans Type" s0) as [r|] eqn:E; [|discriminate].
    exact (title_group_not_blank r g (lit_ci_suffix _ _ _ E Hs) H). }
  induction s as [|c s IH]; intros g Hs H; cbn [title_search] in H.
  - destruct (title_match_here "") eqn:E; [|discriminate].
    injection H as <-. eauto.
  - destruct (title_match_here (String c s)) eqn:E.
    + injection H as <-. eauto.
    + apply (IH g); [exact (rstrip_tail _ _ Hs) | exact H].
Qed.

Lemma title_of_cell_not_blank (c : cell) (t : string) :
  title_of_cell c = Some t -> t <> "" /\ strip t = t.
Proof.
  unfold title_of_cell. destruct (notna c); [|discriminate]. cbn zeta.
  destruct (contains "sale invoice" (lower (strip (py_str c)))).
  { intros H. injection H as <-. split; [discriminate | reflexivity]. }
  destruct (contains "goods receipt" (lower (strip (py_str c)))).
  { intros H. injection H as <-. split; [discriminate | reflexivity]. }
  destruct (contains "trans type" (lower (strip (py_str c))));
    [|discriminate].
  destruct (title_search (strip (py_str c))) as [g|] eqn:E; [|discriminate].
  cbn [option_map]. intros H. injection H as <-.
  split; [|apply strip_idempotent].
  apply (title_search_not_blank (strip (py_str c)) g); [|exact E].
  unfold strip. apply rstrip_idempotent.
Qed.

Lemma first_some_in {A B : Type} (f : A -> option B) (l : list A) (y : B) :
  first_some f l = Some y -> exists x, In x l /\ f x = Some y.
Proof.
  induction l as [|x l IH]; cbn [first_some]; [discriminate|].
  destruct (f x) as [z|] eqn:E.
  - intros H. injection H as <-. exists x. split; [now left | exact E].
  - intros H. destruct (IH H) as (x' & Hx & Hf). exists x'.
    split; [now right | exact Hf].
Qed.

Lemma first_some_none {A B : Type} (f : A -> option B) (l : list A) :
  (forall x, In x l -> f x = None) -> first_some f l = None.
Proof.
  induction l as [|x l IH]; intros H; cbn [first_some]; [reflexivity|].
  rewrite (H x) by now left. apply IH. intros y Hy. apply H. now right.
Qed.

End TitleFacts.

(** X18.  [extract_title_from_excel] of factory-out.py, on any sheet: the
    title is never the empty text and has no white space around it; it is
    "SALE INVOICE", "GOODS RECEIPT NOTE" or what a cell of the first five
    rows holds after "Trans Type". *)
Theorem title_is_never_blank (g : Sheet.grid) :
  FactoryOut.extract_title_from_excel g <> ""
  /\ Py.strip (FactoryOut.extract_title_from_excel g)
     = FactoryOut.extract_title_from_excel g
  /\ (FactoryOut.extract_title_from_excel g = "SALE INVOICE"
      \/ FactoryOut.extract_title_from_excel g = "GOODS RECEIPT NOTE"
      \/ exists row c u,
           In row (firstn 5 g) /\ In c row /\ c <> NaN
           /\ Py.contains "trans type" (Py.lower (Py.strip (py_str c))) = true
           /\ FactoryOut.title_search (Py.strip (py_str c)) = Some u
           /\ FactoryOut.extract_title_from_excel g = Py.strip u).
Proof.
  unfold FactoryOut.extract_title_from_excel.
  destruct (FactoryOut.first_some FactoryOut.title_of_cell
              (concat (firstn 5 g))) as [t|] eqn:E.
  2:{ split; [discriminate|]. split; [reflexivity|]. right. now left. }
  apply first_some_in in E. destruct E as (c & Hc & Ht).
  destruct (title_of_cell_not_blank c t Ht) as [Hne Hs].
  split; [exact Hne|]. split; [exact Hs|].
  apply in_concat in Hc. destruct Hc as (row & Hrow & Hin).
  unfold FactoryOut.title_of_cell in Ht.
  destruct c as [|s|r|r]; cbn [notna] in Ht; try discriminate;
    cbn zeta in Ht;
    (destruct (Py.contains "sale invoice" _);
     [injection Ht as <-; now left|]);
    (destruct (Py.contains "goods receipt" _);
     [injection Ht as <-; right; now left|]);
    (destruct (Py.contains "trans type" _) eqn:Et; [|discriminate]);
    (destruct (FactoryOut.title_search _) as [u|] eqn:Eu; [|discriminate]);
    cbn [option_map] in Ht; injection Ht as <-;
    right; right; eexists row, _, u;
    (split; [exact Hrow|]); (split; [exact Hin|]);
    (split; [discriminate|]); (split; [exact Et|]);
    (split; [exact Eu | reflexivity]).
Qed.

(** X19.  [extract_title_from_excel] of factory-out.py reads the first five
    rows only: when none of their cells holds "sale invoice", "goods
    receipt" or "trans type", in any case, the title is "GOODS RECEIPT
    NOTE", whatever the rows below hold. *)
Theorem title_defaults_without_label (g : Sheet.grid) :
  Forall (Forall (fun c =>
            Py.contains "sale invoice" (Py.lower (Py.strip (py_str c))) = false
            /\ Py.contains "goods receipt" (Py.lower (Py.strip (py_str c)))
               = false
            /\ Py.contains "trans type" (Py.lower (Py.strip (py_str c)))
               = false))
         (firstn 5 g) ->
  FactoryOut.extract_title_from_excel g = "GOODS RECEIPT NOTE".
Proof.
  intros H. unfold FactoryOut.extract_title_from_excel.
  rewrite first_some_none; [reflexivity|].
  intros c Hc. apply in_concat in Hc. destruct Hc as (row & Hrow & Hin).
  pose proof (proj1 (Forall_forall _ _)
                (proj1 (Forall_forall _ _) H row Hrow) c Hin)
    as (H1 & H2 & H3).
  unfold FactoryOut.title_of_cell. destruct (notna c); [|reflexivity].
  cbn zeta. now rewrite H1, H2, H3.
Qed.

Lemma title_defaults_without_label_witness :
  FactoryOut.extract_title_from_excel
    [[Str "Report"]; [NaN]; [NaN]; [NaN]; [Str "Trans Date"; Str "Doc No"];
     [Str "Trans Type :- SALE INVOICE"]]
  = "GOODS RECEIPT NOTE".
Proof.
  apply title_defaults_without_label.
  repeat (apply Forall_cons || apply Forall_nil); repeat split.
Defined.

Section ReadBack.
Import Py.

Lemma rstrip_app_fixed (a t : string) :
  t <> "" -> rstrip t = t -> rstrip (a ++ t) = (a ++ t)%string.
Proof.
  intros Hne Ht. induction a as [|c a IH]; [exact Ht|].
  change (String c a ++ t)%string with (String c (a ++ t)).
  cbn [rstrip]. rewrite IH.
  destruct (a ++ t)%string eqn:E; [|reflexivity].
  destruct a; [now destruct Hne | discriminate].
Qed.

(** A stripped text that is not empty: no white space at either end. *)
Lemma stripped_text (t : string) :
  t <> "" -> strip t = t ->
  rstrip t = t /\ exists c u, t = String c u /\ is_space c = false.
Proof.
  intros Hne Hs. split.
  - rewrite <- Hs at 1. unfold strip. rewrite rstrip_idempotent. exact Hs.
  - pose proof (lstrip_head t) as Hh. unfold strip in Hs.
    destruct (lstrip t) as [|c u] eqn:E.
    + cbn in Hs. now destruct Hne.
    + destruct (rstrip_head c u Hh) as (v & Hv). rewrite Hv in Hs.
      exists c, v. split; [now symmetry | exact Hh].
Qed.

Lemma strip_app_fixed (c : ascii) (a t : string) :
  is_space c = false -> t <> "" -> rstrip t = t ->
  strip (String c a ++ t) = (String c a ++ t)%string.
Proof.
  intros Hc Hne Hs. unfold strip.
  change (String c a ++ t)%string with (String c (a ++ t)).
  rewrite (lstrip_fixed c _ Hc).
  change (String c (a ++ t)) with (String c a ++ t)%string.
  now apply rstrip_app_fixed.
Qed.

End ReadBack.

(** X20.  The title factory-out.py writes in cell A1, "Trans Type :- " and
    the title, is read back as that title: for a title of one line, not
    empty, without white space around it and without "sale invoice" and
    "goods receipt" in it, [extract_title_from_excel] on a sheet that starts
    with that cell gives the title again. *)
Theorem title_is_read_back (t : string) (cells : list cell)
  (below : Sheet.grid) :
  t <> "" ->
  Py.strip t = t ->
  FactoryOut.take_line t = t ->
  Py.contains "sale invoice" (Py.lower t) = false ->
  Py.contains "goods receipt" (Py.lower t) = false ->
  FactoryOut.extract_title_from_excel
    ((Str ("Trans Type :- " ++ t) :: cells) :: below)
  = t.
Proof.
  intros Hne Hs Hl H1 H2.
  destruct (stripped_text t Hne Hs) as (Hr & c & u & Et & Hc).
  assert (Hcell : Py.strip ("Trans Type :- " ++ t)
                  = ("Trans Type :- " ++ t)%string).
  { apply (strip_app_fixed "T" "rans Type :- " t); auto. }
  assert (Ht : FactoryOut.title_of_cell (Str ("Trans Type :- " ++ t))
               = Some t).
  { unfold FactoryOut.title_of_cell. cbn [notna py_str]. cbn zeta.
    rewrite Hcell. rewrite lower_app.
    assert (E1 : Py.contains "sale invoice"
                   (Py.lower "Trans Type :- " ++ Py.lower t) = false).
    { cbn. rewrite H1. reflexivity. }
    assert (E2 : Py.contains "goods receipt"
                   (Py.lower "Trans Type :- " ++ Py.lower t) = false).
    { cbn. rewrite H2. reflexivity. }
    assert (E3 : Py.contains "trans type"
                   (Py.lower "Trans Type :- " ++ Py.lower t) = true).
    { apply contains_prefix. cbn. reflexivity. }
    rewrite E1, E2, E3.
    assert (Es : FactoryOut.title_search ("Trans Type :- " ++ t) = Some t).
    { assert (Em : FactoryOut.title_match_here ("Trans Type :- " ++ t)
                   = Some t).
      { unfold FactoryOut.title_match_here.
        change (FactoryOut.lit_ci "Trans Type" ("Trans Type :- " ++ t))
          with (Some (" " ++ (":-" ++ (" " ++ t)))%string).
        assert (Ed : FactoryOut.dot_plus t = Some t).
        { rewrite Et at 1. unfold FactoryOut.dot_plus.
          rewrite (not_space_not_newline c Hc). rewrite <- Et.
          now rewrite Hl. }
        apply star_greedy; [| reflexivity |].
        { intros x [<-|[]]. reflexivity. }
        apply star_greedy; [| reflexivity |].
        { intros x [<-|[<-|[]]]; reflexivity. }
        apply star_greedy; [| rewrite Et; exact Hc | exact Ed].
        intros x [<-|[]]. reflexivity. }
      change ("Trans Type :- " ++ t)%string
        with (String "T" ("rans Type :- " ++ t)) in *.
      cbn [FactoryOut.title_search]. now rewrite Em. }
    rewrite Es. cbn [option_map]. now rewrite Hs. }
  unfold FactoryOut.extract_title_from_excel.
  cbn [firstn concat app FactoryOut.first_some]. now rewrite Ht.
Qed.

Lemma title_is_read_back_witness :
  FactoryOut.extract_title_from_excel
    ((Str ("Trans Type :- " ++ "PURCHASE RETURN") :: [NaN; NaN])
     :: [[Str "Trans Date"; Str "Doc No"; Str "Sale Invoice"]])
  = "PURCHASE RETURN".
Proof.
  apply (title_is_read_back "PURCHASE RETURN"); [discriminate|..];
    reflexivity.
Defined.

Section LossReadBack.
Import Py Loss.

Lemma split_no_separator (c : ascii) (b : string) :
  contains (String c "") b = false -> split c b = [b].
Proof.
  induction b as [|d b IH]; [reflexivity|].
  cbn [contains]. rewrite prefix_cons. intros H.
  apply orb_false_iff in H. destruct H as [H1 H2].
  cbn [split]. destruct (Ascii.eqb d c) eqn:E.
  - apply Ascii.eqb_eq in E. subst d.
    destruct (ascii_dec c c); [|congruence].
    now rewrite prefix_empty in H1.
  - now rewrite (IH H2).
Qed.

(** [s.split(c)[-1]] is what follows the last [c]. *)
Lemma split_last (c : ascii) (a b : string) :
  contains (String c "") b = false ->
  last (split c (a ++ String c b)) "" = b.
Proof.
  intros Hb.
  assert (G : exists h l, split c (a ++ String c b) = h :: l ++ [b]).
  { induction a as [|d a IH].
    - exists "", []. cbn [append split]. rewrite Ascii.eqb_refl.
      now rewrite (split_no_separator c b Hb).
    - destruct IH as (h & l & E).
      change (String d a ++ String c b)%string
        with (String d (a ++ String c b)).
      cbn [split]. rewrite E. destruct (Ascii.eqb d c).
      + now exists "", (h :: l).
      + now exists (String d h), l. }
  destruct G as (h & l & ->).
  change (h :: l ++ [b]) with ((h :: l) ++ [b]). apply last_last.
Qed.

(** One of the two date lines the loss report writes: the label, " :- " and
    the date, in the first of ten merged cells. *)
Lemma date_line_scan (label key : string) (d : string)
  (cur : option string) :
  d <> "" -> strip d = d ->
  contains ":" d = false ->
  (exists c a, label = String c a /\ is_space c = false) ->
  fold_left (fun st ic =>
               date_after key
                 (row_str (Str (label ++ " :- " ++ d) :: repeat NaN 9))
                 (fst ic) (snd ic) st)
    (combine (seq 0 10)
       (row_str (Str (label ++ " :- " ++ d) :: repeat NaN 9)))
    cur
  = if contains key (lower (label ++ " :- " ++ d))
    then Some ("- " ++ d)%string else cur.
Proof.
  intros Hne Hs Hc (c & a & -> & Hsp).
  destruct (stripped_text d Hne Hs) as [Hr _].
  assert (Hd : strip ("- " ++ d) = ("- " ++ d)%string)
    by (apply (strip_app_fixed "-" " " d); auto).
  assert (Hcell : strip (String c a ++ " :- " ++ d)
                  = (String c a ++ " :- " ++ d)%string).
  { apply (strip_app_fixed c a (" :- " ++ d)); [exact Hsp|discriminate|].
    now apply rstrip_app_fixed. }
  assert (Hrow : row_str (Str (String c a ++ " :- " ++ d) :: repeat NaN 9)
                 = (String c a ++ " :- " ++ d)%string :: repeat "" 9).
  { unfold row_str. cbn [map repeat truthy py_str]. rewrite Hcell.
    reflexivity. }
  rewrite Hrow. cbn [seq combine repeat fold_left fst snd].
  assert (Hblank : forall x i st,
             date_after key (x :: repeat "" 9) (S i) "" st = st).
  { intros x i st. unfold date_after. cbn [lower].
    destruct (contains key ""); [|reflexivity].
    change (contains ":" "") with false. cbn iota.
    change (nth_error (x :: repeat "" 9) (S (S i)))
      with (nth_error (repeat "" 9) (S i)).
    destruct (nth_error (repeat "" 9) (S i)) as [next|] eqn:En;
      [|reflexivity].
    apply nth_error_In, repeat_spec in En. now subst next. }
  rewrite !Hblank.
  unfold date_after.
  destruct (contains key (lower (String c a ++ " :- " ++ d))); [|reflexivity].
  assert (Hshape : (String c a ++ " :- " ++ d)%string
                   = ((String c a ++ " ") ++ ":" ++ "- " ++ d)%string).
  { clear. induction a as [|x a IH]; cbn; [reflexivity|].
    cbn in IH. injection IH as IH. now rewrite IH. }
  assert (Hcolon : contains ":" (String c a ++ " :- " ++ d) = true).
  { rewrite Hshape. apply contains_app. }
  rewrite Hcolon. cbn zeta.
  assert (Hlast : last (split ":" (String c a ++ " :- " ++ d)) ""
                  = ("- " ++ d)%string).
  { rewrite Hshape. apply split_last. cbn. now rewrite Hc. }
  rewrite Hlast, Hd. reflexivity.
Qed.

End LossReadBack.

Lemma fold_left_pair {A B C : Type} (F : C -> A -> A) (G : C -> B -> B)
  (l : list C) : forall a b,
  fold_left (fun d ic => (F ic (fst d), G ic (snd d))) l (a, b)
  = (fold_left (fun st ic => F ic st) l a,
     fold_left (fun st ic => G ic st) l b).
Proof.
  induction l as [|x l IH]; intros a b; [reflexivity|].
  cbn [fold_left fst snd]. apply IH.
Qed.

Lemma scan_row_pair (rs : list string) (a b : option string) :
  Loss.scan_row rs (a, b)
  = (fold_left (fun st ic =>
                  Loss.date_after "from date" rs (fst ic) (snd ic) st)
       (combine (seq 0 (List.length rs)) rs) a,
     fold_left (fun st ic =>
                  Loss.date_after "to date" rs (fst ic) (snd ic) st)
       (combine (seq 0 (List.length rs)) rs) b).
Proof.
  unfold Loss.scan_row.
  exact (fold_left_pair
           (fun ic st => Loss.date_after "from date" rs (fst ic) (snd ic) st)
           (fun ic st => Loss.date_after "to date" rs (fst ic) (snd ic) st)
           _ a b).
Qed.

(** X21.  The dates the loss report writes are not read back as they are:
    the report writes "From Date :- " and the date in row 2, "To Date :- "
    and the date in row 3; [extract_dates_from_excel] on such a sheet takes
    what follows the colon, so each date comes back with "- " before it. *)
Theorem loss_dates_read_back_with_dash (f t : string) (below : Loss.grid) :
  f <> "" -> Py.strip f = f -> Py.contains ":" f = false ->
  Py.contains "to date" (Py.lower f) = false ->
  t <> "" -> Py.strip t = t -> Py.contains ":" t = false ->
  Py.contains "from date" (Py.lower t) = false ->
  Forall (fun row =>
            Forall (fun c => Py.contains "from date" (Py.lower c) = false
                             /\ Py.contains "to date" (Py.lower c) = false)
                   (Loss.row_str row))
         (firstn 7 below) ->
  Loss.extract_dates_from_excel
    ((Str "Monthly Loss Report Summary" :: repeat NaN 9)
     :: (Str ("From Date :- " ++ f) :: repeat NaN 9)
     :: (Str ("To Date :- " ++ t) :: repeat NaN 9)
     :: below)
  = (Some ("- " ++ f)%string, Some ("- " ++ t)%string).
Proof.
  intros Hf1 Hf2 Hf3 Hf4 Ht1 Ht2 Ht3 Ht4 Hb.
  unfold Loss.extract_dates_from_excel.
  change (firstn 10 ?l) with
    ((Str "Monthly Loss Report Summary" :: repeat NaN 9)
     :: (Str ("From Date" ++ " :- " ++ f) :: repeat NaN 9)
     :: (Str ("To Date" ++ " :- " ++ t) :: repeat NaN 9)
     :: firstn 7 below).
  cbn [fold_left].
  change (Loss.scan_row
            (Loss.row_str (Str "Monthly Loss Report Summary" :: repeat NaN 9))
            (None, None))
    with (@None string, @None string).
  assert (Hrow : forall label d,
             List.length (Loss.row_str (Str (label ++ " :- " ++ d)
                                        :: repeat NaN 9)) = 10).
  { intros. unfold Loss.row_str. now rewrite length_map. }
  rewrite (scan_row_pair _ None None), Hrow.
  rewrite (date_line_scan "From Date" "from date" f None); auto;
    [|exists "F"%char, "rom Date"; now split].
  rewrite (date_line_scan "From Date" "to date" f None); auto;
    [|exists "F"%char, "rom Date"; now split].
  rewrite !(lower_app "From Date").
  assert (E1 : Py.contains "from date"
                 (Py.lower "From Date" ++ Py.lower (" :- " ++ f)) = true).
  { apply contains_prefix. cbn. reflexivity. }
  assert (E2 : Py.contains "to date"
                 (Py.lower "From Date" ++ Py.lower (" :- " ++ f)) = false).
  { rewrite lower_app. cbn. now rewrite Hf4. }
  rewrite E1, E2.
  rewrite scan_row_pair, Hrow.
  rewrite (date_line_scan "To Date" "from date" t); auto;
    [|exists "T"%char, "o Date"; now split].
  rewrite (date_line_scan "To Date" "to date" t); auto;
    [|exists "T"%char, "o Date"; now split].
  rewrite !(lower_app "To Date").
  assert (E3 : Py.contains "to date"
                 (Py.lower "To Date" ++ Py.lower (" :- " ++ t)) = true).
  { apply contains_prefix. cbn. reflexivity. }
  assert (E4 : Py.contains "from date"
                 (Py.lower "To Date" ++ Py.lower (" :- " ++ t)) = false).
  { rewrite lower_app. cbn. now rewrite Ht4. }
  rewrite E3, E4.
  apply (fold_left_invariant
           (fun st : option string * option string =>
              st = (Some ("- " ++ f)%string, Some ("- " ++ t)%string)));
    [reflexivity|].
  intros st row -> Hrow'.
  pose proof (proj1 (Forall_forall _ _) Hb row Hrow') as Hr.
  unfold Loss.scan_row.
  apply (fold_left_invariant
           (fun st : option string * option string =>
              st = (Some ("- " ++ f)%string, Some ("- " ++ t)%string)));
    [reflexivity|].
  intros st [i c] -> Hic. apply in_combine_r in Hic.
  destruct (proj1 (Forall_forall _ _) Hr _ Hic) as [Hx Hy].
  cbn [fst snd]. rewrite !date_after_unset by now left. reflexivity.
Qed.

Lemma loss_dates_read_back_with_dash_witness :
  Loss.extract_dates_from_excel
    ((Str "Monthly Loss Report Summary" :: repeat NaN 9)
     :: (Str ("From Date :- " ++ "01/09/2025") :: repeat NaN 9)
     :: (Str ("To Date :- " ++ "30/09/2025") :: repeat NaN 9)
     :: [map Str Loss.required_columns;
         [Str "Casting"; Num "40.0"]])
  = (Some ("- " ++ "01/09/2025")%string, Some ("- " ++ "30/09/2025")%string).
Proof.
  apply (loss_dates_read_back_with_dash "01/09/2025" "30/09/2025");
    try discriminate; try reflexivity.
  repeat (apply Forall_cons || apply Forall_nil); split; reflexivity.
Defined.

(** X22.  lot-rejection.py, [main] with [create_download_file]: whenever a
    table is written it has a column and a row, and every cell written is
    text or a finite number.  When the sheet has a row with "grand total" in
    a cell, a footer is written; it comes from the first such row and has
    one cell per column of the table.  No footer is written only if the
    sheet has no such row. *)
Theorem lot_report_cells (is_object : nat -> list cell -> bool) (g : Sheet.grid)
  (t : frame cell) (footer : option (list cell)) :
  LotRejection.report is_object g = Some (t, footer) ->
  columns t <> [] /\ rows t <> []
  /\ Forall (Forall Sheet.writable) (rows t)
  /\ match footer with
     | Some f =>
         List.length f = List.length (columns t)
         /\ Forall Sheet.writable f
         /\ exists k raw,
              nth_error g k = Some raw
              /\ Sheet.is_grand_total raw = true
              /\ Forall (fun r => Sheet.is_grand_total r = false) (firstn k g)
              /\ f = Sheet.grand_total_cells (List.length (columns t)) raw
     | None => Forall (fun r => Sheet.is_grand_total r = false) g
     end.
Proof.
  unfold LotRejection.report.
  destruct (LotRejection.process_excel is_object g) as [df gt] eqn:E.
  destruct (LotRejection.empty df) eqn:Ee; [discriminate|].
  intros H. injection H as <- <-. cbn [columns rows].
  unfold LotRejection.empty in Ee.
  destruct (columns df) as [|c cs] eqn:Ec; [discriminate|].
  destruct (rows df) as [|r rs] eqn:Er; [discriminate|].
  split; [discriminate|]. split; [discriminate|]. split.
  - apply Forall_forall. intros r' Hr. apply in_map_iff in Hr.
    destruct Hr as (r0 & <- & _). apply Forall_forall. intros c' Hc.
    apply in_map_iff in Hc. destruct Hc as (c0 & <- & _).
    apply safe_write_cell_writable.
  - assert (Hgt : gt = Sheet.extract_grand_total_row g).
    { unfold LotRejection.process_excel in E.
      destruct (LotRejection.process_body is_object g).
      - now injection E as _ <-.
      - injection E as <- _. cbn [rows] in Er. discriminate. }
    subst gt. unfold Sheet.extract_grand_total_row.
    destruct (find Sheet.is_grand_total g) as [raw|] eqn:Ef; cbn [option_map].
    + destruct (grand_total_cells_shape (List.length (c :: cs)) raw)
        as [Hl Hw].
      split; [exact Hl|]. split; [exact Hw|].
      clear - Ef. induction g as [|x g IH]; [discriminate|].
      simpl in Ef. destruct (Sheet.is_grand_total x) eqn:Ex.
      * injection Ef as ->. exists 0, raw. simpl. repeat split; auto.
      * destruct (IH Ef) as (k & raw' & Hn & Hq & Hf & Heq).
        exists (S k), raw'. simpl. repeat split; auto.
    + apply Forall_forall. intros x Hx.
      exact (find_none Sheet.is_grand_total g Ef x Hx).
Qed.

Lemma lot_report_cells_witness :
  columns Examples.lot_table <> []
  /\ rows Examples.lot_table <> []
  /\ Forall (Forall Sheet.writable) (rows Examples.lot_table)
  /\ Forall (fun r => Sheet.is_grand_total r = false) Examples.lot_sheet.
Proof.
  apply (lot_report_cells Reference.is_object Examples.lot_sheet
           Examples.lot_table None).
  reflexivity.
Defined.

(** ** The dates of the table *)

Section TableDates.
Import Py Frame Sheet FactoryOut.

Lemma string_app_assoc (a b c : string) :
  ((a ++ b) ++ c)%string = (a ++ b ++ c)%string.
Proof. induction a as [|x a IH]; cbn; [reflexivity | now rewrite IH]. Qed.

Lemma lstrip_suffix (s : string) : exists pre, s = (pre ++ lstrip s)%string.
Proof.
  induction s as [|c s IH]; [now exists ""|]. cbn [lstrip].
  destruct (is_space c).
  - destruct IH as (pre & E). exists (String c pre). cbn. now rewrite <- E.
  - now exists "".
Qed.

Lemma rstrip_prefix (s : string) : exists post, s = (rstrip s ++ post)%string.
Proof.
  induction s as [|c s IH]; [now exists ""|]. cbn [rstrip].
  destruct IH as (post & E). destruct (rstrip s) as [|d u].
  - destruct (is_space c).
    + now exists (String c s).
    + exists post. cbn in E |- *. now rewrite <- E.
  - exists post. cbn in E |- *. now rewrite <- E.
Qed.

(** What occurs in a part of a text occurs in the text. *)
Lemma contains_within (n x pre post : string) :
  contains n x = true -> contains n (pre ++ x ++ post) = true.
Proof.
  intros H. apply contains_inv in H. destruct H as (a & b & ->).
  rewrite !string_app_assoc, <- (string_app_assoc pre a).
  apply contains_app.
Qed.

Lemma contains_strip (n s : string) :
  contains n (strip s) = true -> contains n s = true.
Proof.
  intros H. unfold strip in H.
  destruct (lstrip_suffix s) as (pre & E).
  destruct (rstrip_prefix (lstrip s)) as (post & E').
  rewrite E, E'. now apply contains_within.
Qed.

Lemma add_karat_width (d1 d2 : frame cell) :
  add_karat d1 = Ok d2 ->
  Forall (fun r => List.length r = List.length (columns d1)) (rows d1) ->
  Forall (fun r => List.length r = List.length (columns d2)) (rows d2).
Proof.
  intros H Hw. destruct (mem "Style No" (columns d1)) eqn:Hm.
  - destruct (add_karat_inserts _ _ H Hm) as (i & _ & -> & ->).
    apply Forall_forall. intros r Hr. apply in_map_iff in Hr.
    destruct Hr as (r0 & <- & Hr0).
    pose proof (proj1 (Forall_forall _ _) Hw r0 Hr0) as Hl.
    rewrite !length_app. cbn [List.length].
    rewrite !length_firstn, !length_skipn. cbv beta in Hl. now rewrite Hl.
  - unfold add_karat in H. rewrite Hm in H. now injection H as <-.
Qed.

End TableDates.

(** X23.  factory-out.py, lines 198-214: whenever the table has a "Trans
    Date" column, every cell of that column is a text that does not hold
    both a space and a colon: no time of day is left in it. *)
Theorem factory_trans_dates_have_no_time
  (is_object : nat -> list cell -> bool) (g : Sheet.grid) :
  In "Trans Date" (columns (fst (FactoryOut.process_excel is_object g))) ->
  exists j,
    nth_error (columns (fst (FactoryOut.process_excel is_object g))) j
    = Some "Trans Date"
    /\ Forall (fun r =>
                 exists x, nth_error r j = Some (Str x)
                           /\ Py.contains " " x && Py.contains ":" x = false)
              (rows (fst (FactoryOut.process_excel is_object g))).
Proof.
  unfold FactoryOut.process_excel.
  destruct (FactoryOut.process_body is_object g) as [df|m] eqn:E; cbn [fst].
  2:{ intros _. exists 0. split; [reflexivity | constructor]. }
  unfold FactoryOut.process_body, FactoryOut.read_body in E.
  destruct (Frame.select NaN _ _) as [d1|] eqn:H1; cbn [bind] in E;
    [|discriminate].
  destruct (FactoryOut.add_karat d1) as [d2|] eqn:H2; cbn [bind] in E;
    [|discriminate].
  destruct (FactoryOut.clean_dates d2) as [d3|] eqn:H3; cbn [bind] in E;
    [|discriminate].
  intros Hin.
  pose proof (clean_columns _ _ _ E) as [C4 _].
  pose proof (clean_dates_columns _ _ H3) as C3.
  rewrite C4, C3 in *.
  pose proof (add_karat_width _ _ H2 (select_width _ _ _ _ H1)) as Hw.
  assert (K3 : exists j,
             nth_error (columns d2) j = Some "Trans Date"
             /\ Forall (fun r =>
                          exists v, nth_error r j
                                    = Some (Str (FactoryOut.clean_trans_date v)))
                       (rows d3)).
  { unfold FactoryOut.clean_dates in H3.
    rewrite (proj2 (mem_In _ _) Hin) in H3.
    destruct (Frame.series_loc "Trans Date" d2) as [j|] eqn:Hj;
      cbn [bind] in H3; [|discriminate].
    injection H3 as <-. cbn [rows].
    apply series_loc_spec in Hj. exists j. split; [exact Hj|].
    apply Forall_forall. intros r Hr. apply in_map_iff in Hr.
    destruct Hr as (r0 & <- & Hr0). exists (nth j r0 NaN).
    apply set_nth_same.
    rewrite (proj1 (Forall_forall _ _) Hw r0 Hr0).
    apply nth_error_Some. congruence. }
  destruct K3 as (j & Hj & K3). exists j. split; [exact Hj|].
  apply Forall_forall. intros r Hr.
  destruct (clean_row_origin _ _ _ _ E Hr) as (_ & r0 & Hr0 & ->).
  destruct (proj1 (Forall_forall _ _) K3 r0 Hr0) as (v & Hv).
  rewrite nth_error_map, strip_row_nth, Hv. cbn [option_map].
  destruct (is_object _ _); cbn [Sheet.strip_cell Sheet.fillna].
  - exists (Py.strip (FactoryOut.clean_trans_date v)).
    split; [reflexivity|].
    destruct (proj1 (clean_trans_date_leaves_no_time_aux v)) as [Hs|Hs].
    + destruct (Py.contains " " (Py.strip (FactoryOut.clean_trans_date v)))
        eqn:Es; [|reflexivity].
      apply contains_strip in Es. congruence.
    + destruct (Py.contains ":" (Py.strip (FactoryOut.clean_trans_date v)))
        eqn:Es; [|apply andb_false_r].
      apply contains_strip in Es. congruence.
  - exists (FactoryOut.clean_trans_date v). split; [reflexivity|].
    destruct (proj1 (clean_trans_date_leaves_no_time_aux v)) as [Hs|Hs];
      rewrite Hs; [reflexivity | apply andb_false_r].
Qed.

Lemma factory_trans_dates_have_no_time_witness :
  exists j,
    nth_error
      (columns (fst (FactoryOut.process_excel Reference.is_object
                       Examples.factory_sheet)))
      j = Some "Trans Date"
    /\ Forall (fun r =>
                 exists x, nth_error r j = Some (Str x)
                           /\ Py.contains " " x && Py.contains ":" x = false)
              (rows (fst (FactoryOut.process_excel Reference.is_object
                            Examples.factory_sheet))).
Proof.
  apply (factory_trans_dates_have_no_time Reference.is_object
           Examples.factory_sheet).
  vm_compute. tauto.
Defined.
